(** * The SQLFluff linting provider (features/providers/lint.ts)

    A shallow embedding of the two [LintingProvider] classes of
    [lint.ts]: the current one built on [SQLFluff.run] (module [V1])
    and the one that spawns the executable itself (module [V2]).

    The provider is event driven: the editor calls its handlers one at
    a time, and whatever a handler leaves running (a timer of a
    delayer, a run of the tool, a file search) comes back later as
    another event.  A provider is therefore a state together with a
    function [handle] from an event to the next state; the objects the
    class reaches through references (the delayers, the registered
    listeners) live in stores indexed by their reference. *)

From Stdlib Require Import Ascii String.
From stdpp Require Import gmap strings list fin_maps.

Local Open Scope string_scope.
Local Open Scope list_scope.

(** ** JavaScript helpers *)

(** [Array.prototype.includes] on an array of strings. *)
Definition includes (l : list string) (x : string) : bool :=
  existsb (String.eqb x) l.

(** ** Regular expressions

    Enough of the JavaScript syntax for [fileRegex]: literal
    characters, [.], concatenation, alternation and [*].  The anchors
    [^] and [$] (no [m] flag) are the whole-string match of
    [regex_test]. *)

Inductive regex :=
| Void
| Eps
| Chr (c : Ascii.ascii)
| Dot
| Cat (r1 r2 : regex)
| Alt (r1 r2 : regex)
| Star (r : regex).

(** Without the [s] flag [.] matches any character except the line
    terminators; of these LF and CR are the ones a byte can hold. *)
Definition line_terminator (c : Ascii.ascii) : bool :=
  (Ascii.eqb c (Ascii.ascii_of_nat 10) || Ascii.eqb c (Ascii.ascii_of_nat 13))%bool.

Fixpoint nullable (r : regex) : bool :=
  match r with
  | Void => false
  | Eps => true
  | Chr _ => false
  | Dot => false
  | Cat r1 r2 => nullable r1 && nullable r2
  | Alt r1 r2 => nullable r1 || nullable r2
  | Star _ => true
  end.

Fixpoint deriv (c : Ascii.ascii) (r : regex) : regex :=
  match r with
  | Void => Void
  | Eps => Void
  | Chr c' => if Ascii.eqb c c' then Eps else Void
  | Dot => if line_terminator c then Void else Eps
  | Cat r1 r2 =>
      if nullable r1
      then Alt (Cat (deriv c r1) r2) (deriv c r2)
      else Cat (deriv c r1) r2
  | Alt r1 r2 => Alt (deriv c r1) (deriv c r2)
  | Star r1 => Cat (deriv c r1) (Star r1)
  end.

(** [/^r$/.exec(s)] is not null. *)
Fixpoint regex_test (r : regex) (s : string) : bool :=
  match s with
  | EmptyString => nullable r
  | String c s' => regex_test (deriv c r) s'
  end.

(** The words of a regular expression, to state what [regex_test] decides. *)
Inductive matches : regex → string → Prop :=
| m_eps : matches Eps ""
| m_chr c : matches (Chr c) (String c "")
| m_dot c : line_terminator c = false → matches Dot (String c "")
| m_cat r1 r2 s1 s2 : matches r1 s1 → matches r2 s2 → matches (Cat r1 r2) (s1 +:+ s2)
| m_alt_l r1 r2 s : matches r1 s → matches (Alt r1 r2) s
| m_alt_r r1 r2 s : matches r2 s → matches (Alt r1 r2) s
| m_star_nil r : matches (Star r) ""
| m_star_cons r s1 s2 : matches r s1 → matches (Star r) s2 → matches (Star r) (s1 +:+ s2).

(** The literal word [s]. *)
Fixpoint lit (s : string) : regex :=
  match s with
  | EmptyString => Eps
  | String c s' => Cat (Chr c) (lit s')
  end.

(** [const filePattern = "**/*.{sql,sql-bigquery,jinja-sql}"] *)
Definition filePattern : string := "**/*.{sql,sql-bigquery,jinja-sql}".

(** [const fileRegex = /^.*\.(sql|sql-bigquery|jinja-sql)$/] *)
Definition fileRegex : regex :=
  Cat (Star Dot)
      (Cat (Chr "."%char)
           (Alt (lit "sql") (Alt (lit "sql-bigquery") (lit "jinja-sql")))).

(** [s] ends in [suffix]. *)
Definition ends_with (s suffix : string) : Prop :=
  ∃ stem, s = stem +:+ suffix.

(** ** What both providers share *)

(** A [vscode.TextDocument], by the members the provider reads.  The
    identity of a document is its [uri]; [uri.toString()] is the key of
    the delayer table. *)
Record TextDocument := {
  uri : string;
  languageId : string;
  fileName : string;
  getText : string;
}.

(** The [Linter] interface of the current provider. *)
Record Linter (Diagnostic : Type) := {
  linter_languageId : list string;
  process : list string → list Diagnostic;
}.
Arguments linter_languageId {_} _.
Arguments process {_} _ _.

(** The listeners a provider keeps in [documentListener]. *)
Inductive ListenerKind := OnDidChangeTextDocument | OnDidSaveTextDocument.

Global Instance ListenerKind_eq_dec : EqDecision ListenerKind.
Proof. solve_decision. Defined.

(** A registration with the editor: the [Disposable] the editor hands
    back is the position in the editor's list; [dispose] clears
    [active]. *)
Record Listener := {
  kind : ListenerKind;
  active : bool;
}.

Definition dispose_listener (h : nat) (ls : list Listener) : list Listener :=
  alter (λ l, {| kind := kind l; active := false |}) h ls.

Definition active_listeners (k : ListenerKind) (ls : list Listener) : nat :=
  length (filter (λ l, kind l = k ∧ active l = true) ls).

Definition register_listener (k : ListenerKind) (ls : list Listener) : list Listener :=
  ls ++ [{| kind := k; active := true |}].

(** ** The throttled delayer *)

(** Modelled from the spec: the [ThrottledDelayer] class of
    [helper/async], which the provider imports and which is not among
    the sources.  A delayer keeps the latest task handed to [trigger]
    until its timer elapses ([pending]); its throttler then either
    starts the task or, while another one is in flight, keeps it as the
    one queued task, replacing an earlier queued one.  When the task in
    flight settles, resolved or rejected, the queued task starts. *)
Inductive Throttler (Task : Type) :=
| Idle
| Busy (queued : option Task).
Arguments Idle {_}.
Arguments Busy {_} _.

Record ThrottledDelayer (Task : Type) := {
  defaultDelay : nat;
  pending : option Task;
  throttler : Throttler Task;
}.
Arguments defaultDelay {_} _.
Arguments pending {_} _.
Arguments throttler {_} _.

(** [new ThrottledDelayer(delay)] *)
Definition delayer_new {Task} (delay : nat) : ThrottledDelayer Task :=
  {| defaultDelay := delay; pending := None; throttler := Idle |}.

(** [delayer.trigger(task)]: the task replaces the pending one and the
    timer is set again. *)
Definition delayer_trigger {Task} (task : Task) (d : ThrottledDelayer Task)
  : ThrottledDelayer Task :=
  {| defaultDelay := defaultDelay d; pending := Some task; throttler := throttler d |}.

(** The timer elapses: the delayer as it is left, and the task to start now. *)
Definition delayer_elapse {Task} (d : ThrottledDelayer Task)
  : ThrottledDelayer Task * option Task :=
  match pending d with
  | None => (d, None)
  | Some task =>
      match throttler d with
      | Idle =>
          ({| defaultDelay := defaultDelay d; pending := None; throttler := Busy None |},
           Some task)
      | Busy _ =>
          ({| defaultDelay := defaultDelay d; pending := None; throttler := Busy (Some task) |},
           None)
      end
  end.

(** The task in flight settles: the delayer as it is left, and the
    queued task to start now. *)
Definition delayer_settle {Task} (d : ThrottledDelayer Task)
  : ThrottledDelayer Task * option Task :=
  match throttler d with
  | Idle => (d, None)
  | Busy None =>
      ({| defaultDelay := defaultDelay d; pending := pending d; throttler := Idle |}, None)
  | Busy (Some task) =>
      ({| defaultDelay := defaultDelay d; pending := pending d; throttler := Busy None |},
       Some task)
  end.

(** ** The line decoder *)

(** Modelled from the spec: the [LineDecoder] class of
    [helper/lineDecoder], which the spawning provider imports and which
    is not among the sources.  Chunks arrive in order; a line ends at a
    line feed; what follows the last line feed is carried over to the
    next chunk, and [end] flushes it as a last line when it is not
    empty. *)
Record LineDecoder := {
  remaining : string;
  decoded : list string;
}.

Definition decoder_new : LineDecoder := {| remaining := ""; decoded := [] |}.

Fixpoint decoder_write (data : string) (d : LineDecoder) : LineDecoder :=
  match data with
  | EmptyString => d
  | String c data' =>
      if Ascii.eqb c (Ascii.ascii_of_nat 10)
      then decoder_write data' {| remaining := ""; decoded := decoded d ++ [remaining d] |}
      else decoder_write data'
             {| remaining := remaining d +:+ String c ""; decoded := decoded d |}
  end.

Definition decoder_end (d : LineDecoder) : LineDecoder :=
  if String.eqb (remaining d) "" then d
  else {| remaining := ""; decoded := decoded d ++ [remaining d] |}.

Definition getLines (d : LineDecoder) : list string := decoded d.

(** What a call leaves: a value, or the exception it throws. *)
Inductive Outcome (A : Type) :=
| Returned (a : A)
| Thrown (error : string).
Arguments Returned {_} _.
Arguments Thrown {_} _.

(** [workspaceFolders[0].uri.fsPath], where [workspaceFolders] is
    [undefined] while no folder is open. *)
Definition first_folder (workspaceFolders : option (list string)) : Outcome string :=
  match workspaceFolders with
  | None => Thrown "TypeError: Cannot read properties of undefined (reading '0')"
  | Some [] => Thrown "TypeError: Cannot read properties of undefined (reading 'uri')"
  | Some (fsPath :: _) => Returned fsPath
  end.

(** ** The current provider *)

Module V1.

(** [enum RunTrigger], whose members are strings; the configured value
    is compared with them by [===]. *)
Definition RunTrigger_onSave : string := "onSave".
Definition RunTrigger_onType : string := "onType".
Definition RunTrigger_off : string := "off".

(** The getters of [helper/configuration] the provider reads, by the
    values they return. *)
Record Configuration := {
  runTrigger : string;
  delay : nat;
  lintEntireProject : bool;
  lintFileArguments : list string;
  workingDirectory : string → string;
}.

Inductive SQLFluffCommand := LINT.

Record SQLFluffCommandOptions := {
  fileContents : option string;
  targetFileFullPath : option string;
}.

(** A call of [SQLFluff.run]. *)
Record RunRequest := {
  run_workingDirectory : string;
  run_command : SQLFluffCommand;
  run_args : list string;
  run_options : SQLFluffCommandOptions;
}.

(** What [SQLFluff.run] resolves to; [lines] may be [undefined]. *)
Record RunResult := {
  succeeded : bool;
  lines : option (list string);
}.

(** The closure [() => this.doLint(textDocument, currentDocument)].
    It holds the document as the trigger received it; the text that
    [doLint] reads with [getText()] is the one of that record, so an
    edit between the trigger and the start of the task shows only
    through the trigger the edit itself causes. *)
Record Task := {
  task_document : TextDocument;
  task_currentDocument : bool;
}.

Section Provider.

Context {Diagnostic : Type}.

(** [normalize] of [helper/utilities]. *)
Variable normalize : string → string.

(** The provider object, then what the editor holds for it.  [objects]
    are the delayers ever created, by reference; [running] the calls of
    [doLint] suspended at [await], each with the delayer that started
    it; [invocations] every call of [SQLFluff.run] so far; [searches]
    and [opening] the [findFiles] and [openTextDocument] promises not
    yet resolved, with the [forceLint] of their callback; [rejections]
    the errors of the promises of [doLint] that were rejected. *)
Record State := {
  linter : Linter Diagnostic;
  executableNotFound : bool;
  documentListener : option nat;
  diagnosticCollection : gmap string (list Diagnostic);
  delayers : gmap string nat;
  configuration : Configuration;
  workspaceFolders : option (list string);
  objects : list (ThrottledDelayer Task);
  listeners : list Listener;
  running : list (nat * TextDocument);
  invocations : list RunRequest;
  searches : list (string * bool);
  opening : list (string * bool);
  outputChannel : list string;
  rejections : list string;
}.

Definition set_documentListener (v : option nat) (s : State) : State :=
  {| linter := linter s; executableNotFound := executableNotFound s;
     documentListener := v; diagnosticCollection := diagnosticCollection s;
     delayers := delayers s; configuration := configuration s;
     workspaceFolders := workspaceFolders s; objects := objects s;
     listeners := listeners s; running := running s; invocations := invocations s;
     searches := searches s; opening := opening s; outputChannel := outputChannel s;
     rejections := rejections s |}.

Definition set_diagnosticCollection (v : gmap string (list Diagnostic)) (s : State) : State :=
  {| linter := linter s; executableNotFound := executableNotFound s;
     documentListener := documentListener s; diagnosticCollection := v;
     delayers := delayers s; configuration := configuration s;
     workspaceFolders := workspaceFolders s; objects := objects s;
     listeners := listeners s; running := running s; invocations := invocations s;
     searches := searches s; opening := opening s; outputChannel := outputChannel s;
     rejections := rejections s |}.

Definition set_delayers (v : gmap string nat) (s : State) : State :=
  {| linter := linter s; executableNotFound := executableNotFound s;
     documentListener := documentListener s; diagnosticCollection := diagnosticCollection s;
     delayers := v; configuration := configuration s;
     workspaceFolders := workspaceFolders s; objects := objects s;
     listeners := listeners s; running := running s; invocations := invocations s;
     searches := searches s; opening := opening s; outputChannel := outputChannel s;
     rejections := rejections s |}.

Definition set_configuration (v : Configuration) (s : State) : State :=
  {| linter := linter s; executableNotFound := executableNotFound s;
     documentListener := documentListener s; diagnosticCollection := diagnosticCollection s;
     delayers := delayers s; configuration := v;
     workspaceFolders := workspaceFolders s; objects := objects s;
     listeners := listeners s; running := running s; invocations := invocations s;
     searches := searches s; opening := opening s; outputChannel := outputChannel s;
     rejections := rejections s |}.

Definition set_workspaceFolders (v : option (list string)) (s : State) : State :=
  {| linter := linter s; executableNotFound := executableNotFound s;
     documentListener := documentListener s; diagnosticCollection := diagnosticCollection s;
     delayers := delayers s; configuration := configuration s;
     workspaceFolders := v; objects := objects s;
     listeners := listeners s; running := running s; invocations := invocations s;
     searches := searches s; opening := opening s; outputChannel := outputChannel s;
     rejections := rejections s |}.

Definition set_objects (v : list (ThrottledDelayer Task)) (s : State) : State :=
  {| linter := linter s; executableNotFound := executableNotFound s;
     documentListener := documentListener s; diagnosticCollection := diagnosticCollection s;
     delayers := delayers s; configuration := configuration s;
     workspaceFolders := workspaceFolders s; objects := v;
     listeners := listeners s; running := running s; invocations := invocations s;
     searches := searches s; opening := opening s; outputChannel := outputChannel s;
     rejections := rejections s |}.

Definition set_listeners (v : list Listener) (s : State) : State :=
  {| linter := linter s; executableNotFound := executableNotFound s;
     documentListener := documentListener s; diagnosticCollection := diagnosticCollection s;
     delayers := delayers s; configuration := configuration s;
     workspaceFolders := workspaceFolders s; objects := objects s;
     listeners := v; running := running s; invocations := invocations s;
     searches := searches s; opening := opening s; outputChannel := outputChannel s;
     rejections := rejections s |}.

Definition set_running (v : list (nat * TextDocument)) (s : State) : State :=
  {| linter := linter s; executableNotFound := executableNotFound s;
     documentListener := documentListener s; diagnosticCollection := diagnosticCollection s;
     delayers := delayers s; configuration := configuration s;
     workspaceFolders := workspaceFolders s; objects := objects s;
     listeners := listeners s; running := v; invocations := invocations s;
     searches := searches s; opening := opening s; outputChannel := outputChannel s;
     rejections := rejections s |}.

Definition set_invocations (v : list RunRequest) (s : State) : State :=
  {| linter := linter s; executableNotFound := executableNotFound s;
     documentListener := documentListener s; diagnosticCollection := diagnosticCollection s;
     delayers := delayers s; configuration := configuration s;
     workspaceFolders := workspaceFolders s; objects := objects s;
     listeners := listeners s; running := running s; invocations := v;
     searches := searches s; opening := opening s; outputChannel := outputChannel s;
     rejections := rejections s |}.

Definition set_searches (v : list (string * bool)) (s : State) : State :=
  {| linter := linter s; executableNotFound := executableNotFound s;
     documentListener := documentListener s; diagnosticCollection := diagnosticCollection s;
     delayers := delayers s; configuration := configuration s;
     workspaceFolders := workspaceFolders s; objects := objects s;
     listeners := listeners s; running := running s; invocations := invocations s;
     searches := v; opening := opening s; outputChannel := outputChannel s;
     rejections := rejections s |}.

Definition set_opening (v : list (string * bool)) (s : State) : State :=
  {| linter := linter s; executableNotFound := executableNotFound s;
     documentListener := documentListener s; diagnosticCollection := diagnosticCollection s;
     delayers := delayers s; configuration := configuration s;
     workspaceFolders := workspaceFolders s; objects := objects s;
     listeners := listeners s; running := running s; invocations := invocations s;
     searches := searches s; opening := v; outputChannel := outputChannel s;
     rejections := rejections s |}.

Definition set_outputChannel (v : list string) (s : State) : State :=
  {| linter := linter s; executableNotFound := executableNotFound s;
     documentListener := documentListener s; diagnosticCollection := diagnosticCollection s;
     delayers := delayers s; configuration := configuration s;
     workspaceFolders := workspaceFolders s; objects := objects s;
     listeners := listeners s; running := running s; invocations := invocations s;
     searches := searches s; opening := opening s; outputChannel := v;
     rejections := rejections s |}.

Definition set_rejections (v : list string) (s : State) : State :=
  {| linter := linter s; executableNotFound := executableNotFound s;
     documentListener := documentListener s; diagnosticCollection := diagnosticCollection s;
     delayers := delayers s; configuration := configuration s;
     workspaceFolders := workspaceFolders s; objects := objects s;
     listeners := listeners s; running := running s; invocations := invocations s;
     searches := searches s; opening := opening s; outputChannel := outputChannel s;
     rejections := v |}.

(** [vscode.workspace.onDidChangeTextDocument(...)] and
    [onDidSaveTextDocument(...)] assigned to [this.documentListener]. *)
Definition subscribe (k : ListenerKind) (s : State) : State :=
  set_documentListener (Some (length (listeners s)))
    (set_listeners (register_listener k (listeners s)) s).

(** [lintProject(forceLint)]: the search is started; its callback runs
    when the editor resolves it ([FilesFound] below). *)
Definition lintProject (forceLint : bool) (s : State) : State :=
  set_searches (searches s ++ [(filePattern, forceLint)]) s.

(** The callback of [findFiles(filePattern).then]: the files that pass
    [fileRegex] are opened, in order. *)
Definition lintProject_files (forceLint : bool) (files : list string) (s : State) : State :=
  set_opening
    (opening s ++ map (λ path, (path, forceLint)) (List.filter (regex_test fileRegex) files)) s.

(** [loadConfiguration()] *)
Definition loadConfiguration (s : State) : State :=
  let s := set_delayers ∅ s in
  let s := match documentListener s with
           | Some h => set_listeners (dispose_listener h (listeners s)) s
           | None => s
           end in
  let s := if String.eqb (runTrigger (configuration s)) RunTrigger_onType
           then subscribe OnDidChangeTextDocument s
           else s in
  let s := subscribe OnDidSaveTextDocument s in
  if lintEntireProject (configuration s) then lintProject false s else s.

(** [triggerLint(textDocument, forceLint = false, currentDocument = false)] *)
Definition triggerLint (textDocument : TextDocument) (forceLint currentDocument : bool)
    (s : State) : State :=
  if negb (includes (linter_languageId (linter s)) (languageId textDocument))
     || executableNotFound s
     || (String.eqb (runTrigger (configuration s)) RunTrigger_off && negb forceLint)
  then s
  else
    let key := uri textDocument in
    let '(ref, s) :=
      match delayers s !! key with
      | Some ref => (ref, s)
      | None =>
          let delayer :=
            if String.eqb (runTrigger (configuration s)) RunTrigger_onType
            then delayer_new (delay (configuration s))
            else delayer_new 0 in
          let ref := length (objects s) in
          (ref, set_delayers (<[key := ref]> (delayers s))
                  (set_objects (objects s ++ [delayer]) s))
      end in
    set_objects
      (alter (delayer_trigger {| task_document := textDocument;
                                 task_currentDocument := currentDocument |})
             ref (objects s)) s.

(** [doLint(document, currentDocument)] up to [await SQLFluff.run(...)]:
    the request it makes, or the exception that rejects its promise. *)
Definition doLint (document : TextDocument) (currentDocument : bool) (s : State)
  : Outcome RunRequest :=
  let filePath := normalize (fileName document) in
  match first_folder (workspaceFolders s) with
  | Thrown e => Thrown e
  | Returned fsPath =>
      let rootPath := normalize fsPath in
      let workingDirectory := workingDirectory (configuration s) rootPath in
      let args := lintFileArguments (configuration s) in
      let options :=
        if String.eqb (runTrigger (configuration s)) RunTrigger_onSave || negb currentDocument
        then {| fileContents := None; targetFileFullPath := Some filePath |}
        else {| fileContents := Some (getText document);
                targetFileFullPath := Some filePath |} in
      Returned {| run_workingDirectory := workingDirectory; run_command := LINT;
                  run_args := args; run_options := options |}
  end.

(** [doLint] from the point where [SQLFluff.run] has resolved to [result]. *)
Definition doLint_resume (document : TextDocument) (result : RunResult) (s : State) : State :=
  let s := if negb (succeeded result)
           then set_outputChannel
                  (outputChannel s ++ ["Linting command failed to execute"]) s
           else s in
  match lines result with
  | Some (l :: ls) =>
      let diagnostics := process (linter s) (l :: ls) in
      set_diagnosticCollection (<[uri document := diagnostics]> (diagnosticCollection s)) s
  | _ => s
  end.

(** The handler of [onDidCloseTextDocument]. *)
Definition closeTextDocument (textDocument : TextDocument) (s : State) : State :=
  set_delayers (delete (uri textDocument) (delayers s))
    (set_diagnosticCollection (delete (uri textDocument) (diagnosticCollection s)) s).

(** [dispose()] *)
Definition dispose (s : State) : State :=
  set_diagnosticCollection ∅ s.

(** The throttler of delayer [ref] starts [task]: [doLint] runs up to
    its [await]; if it throws instead, its promise is rejected and the
    throttler, which has nothing queued at this point, is idle again. *)
Definition start (ref : nat) (task : Task) (s : State) : State :=
  match doLint (task_document task) (task_currentDocument task) s with
  | Returned request =>
      set_running (running s ++ [(ref, task_document task)])
        (set_invocations (invocations s ++ [request]) s)
  | Thrown e =>
      set_objects (alter (λ d, (delayer_settle d).1) ref (objects s))
        (set_rejections (rejections s ++ [e]) s)
  end.

(** What the editor reports to the provider. *)
Inductive Event :=
| DidChangeConfiguration (c : Configuration)
| DidChangeWorkspaceFolders (folders : option (list string))
| DidOpenTextDocument (textDocument : TextDocument)
| DidCloseTextDocument (textDocument : TextDocument)
| DidSaveTextDocument (textDocument : TextDocument)
| DidChangeTextDocument (textDocument : TextDocument)
| FilesFound (n : nat) (files : list string)
| DocumentOpened (n : nat) (document : TextDocument)
| TimerElapsed (ref : nat)
| RunFinished (n : nat) (result : RunResult).

(** [activate(subscriptions)], in an editor with the given settings,
    folders and no listener yet. *)
Definition activate (l : Linter Diagnostic) (c : Configuration)
    (folders : option (list string)) : State :=
  let s := {| linter := l; executableNotFound := false; documentListener := None;
              diagnosticCollection := ∅; delayers := ∅; configuration := c;
              workspaceFolders := folders; objects := []; listeners := [];
              running := []; invocations := []; searches := []; opening := [];
              outputChannel := []; rejections := [] |} in
  let s := loadConfiguration s in
  if lintEntireProject (configuration s) then lintProject false s else s.

Definition handle (s : State) (e : Event) : State :=
  match e with
  | DidChangeConfiguration c => loadConfiguration (set_configuration c s)
  | DidChangeWorkspaceFolders folders => set_workspaceFolders folders s
  | DidOpenTextDocument textDocument => triggerLint textDocument false false s
  | DidCloseTextDocument textDocument => closeTextDocument textDocument s
  | DidSaveTextDocument textDocument =>
      Nat.iter (active_listeners OnDidSaveTextDocument (listeners s))
        (triggerLint textDocument false false) s
  | DidChangeTextDocument textDocument =>
      Nat.iter (active_listeners OnDidChangeTextDocument (listeners s))
        (triggerLint textDocument false true) s
  | FilesFound n files =>
      match searches s !! n with
      | Some (_, forceLint) =>
          lintProject_files forceLint files (set_searches (delete n (searches s)) s)
      | None => s
      end
  | DocumentOpened n document =>
      match opening s !! n with
      | Some (_, forceLint) =>
          triggerLint document forceLint false (set_opening (delete n (opening s)) s)
      | None => s
      end
  | TimerElapsed ref =>
      match objects s !! ref with
      | Some d =>
          let s := set_objects (<[ref := (delayer_elapse d).1]> (objects s)) s in
          match (delayer_elapse d).2 with
          | Some task => start ref task s
          | None => s
          end
      | None => s
      end
  | RunFinished n result =>
      match running s !! n with
      | Some (ref, document) =>
          let s := doLint_resume document result (set_running (delete n (running s)) s) in
          match objects s !! ref with
          | Some d =>
              let s := set_objects (<[ref := (delayer_settle d).1]> (objects s)) s in
              match (delayer_settle d).2 with
              | Some task => start ref task s
              | None => s
              end
          | None => s
          end
      | None => s
      end
  end.

(** The state after a sequence of events. *)
Definition run (s : State) (events : list Event) : State :=
  fold_left handle events s.

End Provider.

End V1.

(** ** The provider that spawns the executable itself *)

Module V2.

Inductive RunTrigger := onSave | onType | off.

Global Instance RunTrigger_eq_dec : EqDecision RunTrigger.
Proof. solve_decision. Defined.

(** [RunTrigger.strings] *)
Definition RunTrigger_strings (m : RunTrigger) : string :=
  match m with
  | onSave => "onSave"
  | onType => "onType"
  | off => "off"
  end.

(** [RunTrigger.from(value)] *)
Definition RunTrigger_from (value : string) : RunTrigger :=
  if String.eqb value "onType" then onType
  else if String.eqb value "onSave" then onSave
  else off.

Record LinterConfiguration := {
  executable : string;
  fileArgs : list string;
  bufferArgs : list string;
  extraArgs : list string;
  runTrigger : string;
  formatterEnabled : bool;
}.

(** The options of [cp.spawn]: [{ cwd: rootPath, env: { LANG: ... } }]. *)
Record SpawnOptions := {
  cwd : string;
  env_LANG : string;
}.

(** A child process as [doLint] leaves it: what it was spawned with,
    whether the spawn gave it a [pid] (the listeners on [stdout] are
    attached exactly then), what was written to [stdin], the decoder of
    its output, and whether [stdout] has ended. *)
Record ChildProcess := {
  child_document : TextDocument;
  child_executable : string;
  child_args : list string;
  child_options : option SpawnOptions;
  pid : option nat;
  stdin : option string;
  decoder : LineDecoder;
  ended : bool;
}.

Section Provider.

Context {Diagnostic : Type}.

(** The provider object ([linter] to [delayers]), then what the editor
    holds for it: the open documents, the delayers ever created, the
    registered listeners, the processes spawned, the messages shown by
    [showInformationMessage], the errors of rejected [doLint] promises
    and the exceptions that left a handler. *)
Record State := {
  linter : Linter Diagnostic;
  linterConfiguration : option LinterConfiguration;
  executableNotFound : bool;
  documentListener : option nat;
  diagnosticCollection : gmap string (list Diagnostic);
  delayers : gmap string nat;
  workspaceFolders : option (list string);
  textDocuments : list TextDocument;
  objects : list (ThrottledDelayer TextDocument);
  listeners : list Listener;
  children : list ChildProcess;
  messages : list string;
  rejections : list string;
  uncaught : list string;
}.

Definition set_linterConfiguration (v : option LinterConfiguration) (s : State) : State :=
  {| linter := linter s; linterConfiguration := v;
     executableNotFound := executableNotFound s; documentListener := documentListener s;
     diagnosticCollection := diagnosticCollection s; delayers := delayers s;
     workspaceFolders := workspaceFolders s; textDocuments := textDocuments s;
     objects := objects s; listeners := listeners s; children := children s;
     messages := messages s; rejections := rejections s; uncaught := uncaught s |}.

Definition set_executableNotFound (v : bool) (s : State) : State :=
  {| linter := linter s; linterConfiguration := linterConfiguration s;
     executableNotFound := v; documentListener := documentListener s;
     diagnosticCollection := diagnosticCollection s; delayers := delayers s;
     workspaceFolders := workspaceFolders s; textDocuments := textDocuments s;
     objects := objects s; listeners := listeners s; children := children s;
     messages := messages s; rejections := rejections s; uncaught := uncaught s |}.

Definition set_documentListener (v : option nat) (s : State) : State :=
  {| linter := linter s; linterConfiguration := linterConfiguration s;
     executableNotFound := executableNotFound s; documentListener := v;
     diagnosticCollection := diagnosticCollection s; delayers := delayers s;
     workspaceFolders := workspaceFolders s; textDocuments := textDocuments s;
     objects := objects s; listeners := listeners s; children := children s;
     messages := messages s; rejections := rejections s; uncaught := uncaught s |}.

Definition set_diagnosticCollection (v : gmap string (list Diagnostic)) (s : State) : State :=
  {| linter := linter s; linterConfiguration := linterConfiguration s;
     executableNotFound := executableNotFound s; documentListener := documentListener s;
     diagnosticCollection := v; delayers := delayers s;
     workspaceFolders := workspaceFolders s; textDocuments := textDocuments s;
     objects := objects s; listeners := listeners s; children := children s;
     messages := messages s; rejections := rejections s; uncaught := uncaught s |}.

Definition set_delayers (v : gmap string nat) (s : State) : State :=
  {| linter := linter s; linterConfiguration := linterConfiguration s;
     executableNotFound := executableNotFound s; documentListener := documentListener s;
     diagnosticCollection := diagnosticCollection s; delayers := v;
     workspaceFolders := workspaceFolders s; textDocuments := textDocuments s;
     objects := objects s; listeners := listeners s; children := children s;
     messages := messages s; rejections := rejections s; uncaught := uncaught s |}.

Definition set_workspaceFolders (v : option (list string)) (s : State) : State :=
  {| linter := linter s; linterConfiguration := linterConfiguration s;
     executableNotFound := executableNotFound s; documentListener := documentListener s;
     diagnosticCollection := diagnosticCollection s; delayers := delayers s;
     workspaceFolders := v; textDocuments := textDocuments s; objects := objects s;
     listeners := listeners s; children := children s; messages := messages s;
     rejections := rejections s; uncaught := uncaught s |}.

Definition set_textDocuments (v : list TextDocument) (s : State) : State :=
  {| linter := linter s; linterConfiguration := linterConfiguration s;
     executableNotFound := executableNotFound s; documentListener := documentListener s;
     diagnosticCollection := diagnosticCollection s; delayers := delayers s;
     workspaceFolders := workspaceFolders s; textDocuments := v; objects := objects s;
     listeners := listeners s; children := children s; messages := messages s;
     rejections := rejections s; uncaught := uncaught s |}.

Definition set_objects (v : list (ThrottledDelayer TextDocument)) (s : State) : State :=
  {| linter := linter s; linterConfiguration := linterConfiguration s;
     executableNotFound := executableNotFound s; documentListener := documentListener s;
     diagnosticCollection := diagnosticCollection s; delayers := delayers s;
     workspaceFolders := workspaceFolders s; textDocuments := textDocuments s;
     objects := v; listeners := listeners s; children := children s;
     messages := messages s; rejections := rejections s; uncaught := uncaught s |}.

Definition set_listeners (v : list Listener) (s : State) : State :=
  {| linter := linter s; linterConfiguration := linterConfiguration s;
     executableNotFound := executableNotFound s; documentListener := documentListener s;
     diagnosticCollection := diagnosticCollection s; delayers := delayers s;
     workspaceFolders := workspaceFolders s; textDocuments := textDocuments s;
     objects := objects s; listeners := v; children := children s; messages := messages s;
     rejections := rejections s; uncaught := uncaught s |}.

Definition set_children (v : list ChildProcess) (s : State) : State :=
  {| linter := linter s; linterConfiguration := linterConfiguration s;
     executableNotFound := executableNotFound s; documentListener := documentListener s;
     diagnosticCollection := diagnosticCollection s; delayers := delayers s;
     workspaceFolders := workspaceFolders s; textDocuments := textDocuments s;
     objects := objects s; listeners := listeners s; children := v; messages := messages s;
     rejections := rejections s; uncaught := uncaught s |}.

Definition set_messages (v : list string) (s : State) : State :=
  {| linter := linter s; linterConfiguration := linterConfiguration s;
     executableNotFound := executableNotFound s; documentListener := documentListener s;
     diagnosticCollection := diagnosticCollection s; delayers := delayers s;
     workspaceFolders := workspaceFolders s; textDocuments := textDocuments s;
     objects := objects s; listeners := listeners s; children := children s; messages := v;
     rejections := rejections s; uncaught := uncaught s |}.

Definition set_rejections (v : list string) (s : State) : State :=
  {| linter := linter s; linterConfiguration := linterConfiguration s;
     executableNotFound := executableNotFound s; documentListener := documentListener s;
     diagnosticCollection := diagnosticCollection s; delayers := delayers s;
     workspaceFolders := workspaceFolders s; textDocuments := textDocuments s;
     objects := objects s; listeners := listeners s; children := children s;
     messages := messages s; rejections := v; uncaught := uncaught s |}.

Definition set_uncaught (v : list string) (s : State) : State :=
  {| linter := linter s; linterConfiguration := linterConfiguration s;
     executableNotFound := executableNotFound s; documentListener := documentListener s;
     diagnosticCollection := diagnosticCollection s; delayers := delayers s;
     workspaceFolders := workspaceFolders s; textDocuments := textDocuments s;
     objects := objects s; listeners := listeners s; children := children s;
     messages := messages s; rejections := rejections s; uncaught := v |}.

(** A handler ends normally or throws; the assignments made before the
    throw stay. *)
Inductive Result :=
| Done (s : State)
| Raised (error : string) (s : State).

Definition and_then (r : Result) (f : State → Result) : Result :=
  match r with
  | Done s => f s
  | Raised e s => Raised e s
  end.

(** [array.forEach(f)]: an exception of [f] ends the loop. *)
Fixpoint forEach {A} (f : A → State → Result) (l : list A) (s : State) : Result :=
  match l with
  | [] => Done s
  | x :: l' => and_then (f x s) (forEach f l')
  end.

(** The editor catches what a handler throws. *)
Definition absorb (r : Result) : State :=
  match r with
  | Done s => s
  | Raised e s => set_uncaught (uncaught s ++ [e]) s
  end.

Definition undefined_read (member : string) : string :=
  "TypeError: Cannot read properties of undefined (reading '" +:+ member +:+ "')".

Definition subscribe (k : ListenerKind) (s : State) : State :=
  set_documentListener (Some (length (listeners s)))
    (set_listeners (register_listener k (listeners s)) s).

(** [triggerLint(textDocument)] *)
Definition triggerLint (textDocument : TextDocument) (s : State) : Result :=
  if negb (includes (linter_languageId (linter s)) (languageId textDocument))
     || executableNotFound s
  then Done s
  else
    match linterConfiguration s with
    | None => Raised (undefined_read "runTrigger") s
    | Some lc =>
        if bool_decide (RunTrigger_from (runTrigger lc) = off) then Done s
        else
          let key := uri textDocument in
          let '(ref, s) :=
            match delayers s !! key with
            | Some ref => (ref, s)
            | None =>
                let delayer :=
                  delayer_new
                    (if bool_decide (RunTrigger_from (runTrigger lc) = onType)
                     then 250 else 0) in
                let ref := length (objects s) in
                (ref, set_delayers (<[key := ref]> (delayers s))
                        (set_objects (objects s ++ [delayer]) s))
            end in
          Done (set_objects (alter (delayer_trigger textDocument) ref (objects s)) s)
    end.

(** [loadConfiguration()], where [config] is what
    [this.linter.loadConfiguration()] returns. *)
Definition loadConfiguration (config : option LinterConfiguration) (s : State) : Result :=
  let oldExecutable := executable <$> linterConfiguration s in
  let s := set_delayers ∅ s in
  let s := match config with
           | Some c => set_linterConfiguration (Some c) s
           | None => s
           end in
  match linterConfiguration s with
  | None =>
      if executableNotFound s then Raised (undefined_read "executable") s
      else
        let s := match documentListener s with
                 | Some h => set_listeners (dispose_listener h (listeners s)) s
                 | None => s
                 end in
        Raised (undefined_read "runTrigger") s
  | Some lc =>
      let s := if executableNotFound s
               then set_executableNotFound
                      (match oldExecutable with
                       | Some old => String.eqb old (executable lc)
                       | None => false
                       end) s
               else s in
      let s := match documentListener s with
               | Some h => set_listeners (dispose_listener h (listeners s)) s
               | None => s
               end in
      let s := if bool_decide (RunTrigger_from (runTrigger lc) = onType)
               then subscribe OnDidChangeTextDocument s
               else subscribe OnDidSaveTextDocument s in
      let s := subscribe OnDidSaveTextDocument s in
      forEach triggerLint (textDocuments s) s
  end.

(** The executor of the promise of [doLint(textDocument)], which runs
    at once: [Done] when it has called [resolve], [Raised] when it
    throws and the promise is rejected.  [spawned] is the [pid] that
    [cp.spawn] gives the child, if any. *)
Definition doLint (textDocument : TextDocument) (spawned : option nat) (s : State) : Result :=
  match first_folder (workspaceFolders s) with
  | Thrown e => Raised e s
  | Returned rootPath =>
      match linterConfiguration s with
      | None => Raised (undefined_read "executable") s
      | Some lc =>
          let options :=
            if String.eqb rootPath "" then None
            else Some {| cwd := rootPath; env_LANG := "en_US.utf-8" |} in
          let args :=
            if bool_decide (RunTrigger_from (runTrigger lc) = onSave)
            then fileArgs lc ++ [fileName textDocument]
            else bufferArgs lc in
          let args := args ++ extraArgs lc in
          let written :=
            match spawned with
            | Some _ =>
                if bool_decide (RunTrigger_from (runTrigger lc) = onType)
                then Some (getText textDocument) else None
            | None => None
            end in
          Done (set_children
                  (children s ++
                     [{| child_document := textDocument; child_executable := executable lc;
                         child_args := args; child_options := options; pid := spawned;
                         stdin := written; decoder := decoder_new; ended := false |}]) s)
      end
  end.

(** The two messages the [error] handler builds itself. *)
Definition not_found_message (file : string) : string :=
  "Cannot lint " +:+ file +:+
  ". The executable was not found. Use the 'Executable Path' setting to configure the location of the executable".

Definition unknown_reason_message (path : string) : string :=
  "Failed to run executable using path: " +:+ path +:+ ". Reason is unknown.".

(** The message for an error with the given [code] and [message]. *)
Definition error_message (child : ChildProcess) (code message : string) : string :=
  if String.eqb code "ENOENT"
  then not_found_message (fileName (child_document child))
  else if String.eqb message ""
       then unknown_reason_message (child_executable child)
       else message.

(** The handler of the [error] event of a child process. *)
Definition onError (child : ChildProcess) (code message : string) (s : State) : State :=
  if executableNotFound s then s
  else
    let message := error_message child code message in
    set_messages (messages s ++ [message]) (set_executableNotFound true s).

(** [onEndEvent], for the child whose decoder has received [d]. *)
Definition onEndEvent (child : ChildProcess) (d : LineDecoder) (s : State) : State :=
  let lines := getLines (decoder_end d) in
  let diagnostics :=
    match lines with
    | [] => []
    | _ :: _ => process (linter s) lines
    end in
  set_diagnosticCollection
    (<[uri (child_document child) := diagnostics]> (diagnosticCollection s)) s.

Definition closeTextDocument (textDocument : TextDocument) (s : State) : State :=
  set_delayers (delete (uri textDocument) (delayers s))
    (set_diagnosticCollection (delete (uri textDocument) (diagnosticCollection s)) s).

Definition dispose (s : State) : State :=
  set_diagnosticCollection ∅ s.

(** The throttler of delayer [ref] starts the task of [textDocument].
    Whether the executor resolves or throws, the promise is settled
    when it returns, so the throttler is idle again at once. *)
Definition start (ref : nat) (textDocument : TextDocument) (spawned : option nat)
    (s : State) : State :=
  let s := match doLint textDocument spawned s with
           | Done s => s
           | Raised e s => set_rejections (rejections s ++ [e]) s
           end in
  set_objects (alter (λ d, (delayer_settle d).1) ref (objects s)) s.

Definition with_decoder (d : LineDecoder) (finished : bool) (c : ChildProcess) : ChildProcess :=
  {| child_document := child_document c; child_executable := child_executable c;
     child_args := child_args c; child_options := child_options c; pid := pid c;
     stdin := stdin c; decoder := d; ended := finished |}.

Inductive Event :=
| DidChangeConfiguration (config : option LinterConfiguration)
| DidChangeWorkspaceFolders (folders : option (list string))
| DidOpenTextDocument (textDocument : TextDocument)
| DidCloseTextDocument (textDocument : TextDocument)
| DidSaveTextDocument (textDocument : TextDocument)
| DidChangeTextDocument (textDocument : TextDocument)
| TimerElapsed (ref : nat) (spawned : option nat)
| ChildError (n : nat) (code message : string)
| ChildData (n : nat) (data : string)
| ChildEnd (n : nat).

(** [activate(subscriptions)], in an editor with the given folders and
    open documents and no listener yet. *)
Definition activate (l : Linter Diagnostic) (config : option LinterConfiguration)
    (folders : option (list string)) (documents : list TextDocument) : Result :=
  let s := {| linter := l; linterConfiguration := None; executableNotFound := false;
              documentListener := None; diagnosticCollection := ∅; delayers := ∅;
              workspaceFolders := folders; textDocuments := documents; objects := [];
              listeners := []; children := []; messages := []; rejections := [];
              uncaught := [] |} in
  and_then (loadConfiguration config s) (λ s, forEach triggerLint (textDocuments s) s).

(** One event, for a provider whose [activate] has returned. *)
Definition handle (s : State) (e : Event) : State :=
  match e with
  | DidChangeConfiguration config => absorb (loadConfiguration config s)
  | DidChangeWorkspaceFolders folders => set_workspaceFolders folders s
  | DidOpenTextDocument textDocument =>
      absorb (triggerLint textDocument
                (set_textDocuments (textDocuments s ++ [textDocument]) s))
  | DidCloseTextDocument textDocument =>
      closeTextDocument textDocument
        (set_textDocuments
           (List.filter (λ d, negb (String.eqb (uri d) (uri textDocument)))
              (textDocuments s)) s)
  | DidSaveTextDocument textDocument =>
      Nat.iter (active_listeners OnDidSaveTextDocument (listeners s))
        (λ s, absorb (triggerLint textDocument s)) s
  | DidChangeTextDocument textDocument =>
      Nat.iter (active_listeners OnDidChangeTextDocument (listeners s))
        (λ s, absorb (triggerLint textDocument s)) s
  | TimerElapsed ref spawned =>
      match objects s !! ref with
      | Some d =>
          let s := set_objects (<[ref := (delayer_elapse d).1]> (objects s)) s in
          match (delayer_elapse d).2 with
          | Some textDocument => start ref textDocument spawned s
          | None => s
          end
      | None => s
      end
  | ChildError n code message =>
      match children s !! n with
      | Some child => onError child code message s
      | None => s
      end
  | ChildData n data =>
      match children s !! n with
      | Some child =>
          if bool_decide (is_Some (pid child)) && negb (ended child)
          then set_children
                 (<[n := with_decoder (decoder_write data (decoder child)) false child]>
                    (children s)) s
          else s
      | None => s
      end
  | ChildEnd n =>
      match children s !! n with
      | Some child =>
          if bool_decide (is_Some (pid child)) && negb (ended child)
          then onEndEvent child (decoder child)
                 (set_children
                    (<[n := with_decoder (decoder_end (decoder child)) true child]>
                       (children s)) s)
          else s
      | None => s
      end
  end.

Definition run (s : State) (events : list Event) : State :=
  fold_left handle events s.

End Provider.

End V2.

(** ** Sample documents and settings *)

Module Samples.

(** A linter for SQL whose diagnostics are the output lines themselves. *)
Definition sql_linter : Linter string :=
  {| linter_languageId := ["sql"; "jinja-sql"]; process := λ output, output |}.

Definition query : TextDocument :=
  {| uri := "file:///w/query.sql"; languageId := "sql";
     fileName := "/w/query.sql"; getText := "select 1" |}.

Definition notes : TextDocument :=
  {| uri := "file:///w/notes.md"; languageId := "markdown";
     fileName := "/w/notes.md"; getText := "# notes" |}.

Definition settings (trigger : string) : V1.Configuration :=
  {| V1.runTrigger := trigger; V1.delay := 100; V1.lintEntireProject := false;
     V1.lintFileArguments := ["--format"; "json"];
     V1.workingDirectory := λ rootPath, rootPath |}.

Definition folders : option (list string) := Some ["/w"].

Definition violations (line : string) : V1.RunResult :=
  {| V1.succeeded := true; V1.lines := Some [line] |}.

Definition spawn_settings (trigger : string) : V2.LinterConfiguration :=
  {| V2.executable := "sqlfluff"; V2.fileArgs := ["lint"]; V2.bufferArgs := ["lint"; "-"];
     V2.extraArgs := []; V2.runTrigger := trigger; V2.formatterEnabled := false |}.

(** The document is opened and its analysis starts. *)
Definition analysed : list V1.Event :=
  [V1.DidOpenTextDocument query; V1.TimerElapsed 0].

(** The document is opened and closed before the timer of its delayer elapses. *)
Definition closed_early : list V1.Event :=
  [V1.DidOpenTextDocument query; V1.DidCloseTextDocument query; V1.TimerElapsed 0].

(** The document is opened and its analysis starts; the settings are
    changed, the document is saved and a second analysis starts. *)
Definition analysed_twice : list V1.Event :=
  [V1.DidOpenTextDocument query; V1.TimerElapsed 0;
   V1.DidChangeConfiguration (settings "onSave");
   V1.DidSaveTextDocument query; V1.TimerElapsed 1].

(** The provider as [activate] leaves it with the given trigger. *)
Definition activated (trigger : string) : V1.State :=
  V1.activate sql_linter (settings trigger) folders.

(** A run that fails and still has output. *)
Definition failed_with_output : V1.RunResult :=
  {| V1.succeeded := false; V1.lines := Some ["L010"] |}.

(** The provider with diagnostics stored for [query]. *)
Definition diagnosed : V1.State :=
  V1.run id (activated "onSave") (analysed ++ [V1.RunFinished 0 (violations "L003")]).

(** The spawning provider as [activate] leaves it with [query] open. *)
Definition spawning (trigger : string) : V2.State :=
  V2.absorb (V2.activate sql_linter (Some (spawn_settings trigger)) folders [query]).

(** The timer of the delayer of [query] has elapsed and the spawn has failed. *)
Definition spawn_failed : V2.State :=
  V2.handle (spawning "onSave") (V2.TimerElapsed 0 None).

(** The error of the failed spawn says that the executable is missing. *)
Definition missing : V2.State :=
  V2.handle spawn_failed (V2.ChildError 0 "ENOENT" "spawn sqlfluff ENOENT").

(** The settings with the executable at another path. *)
Definition relocated : V2.LinterConfiguration :=
  {| V2.executable := "/opt/bin/sqlfluff"; V2.fileArgs := ["lint"];
     V2.bufferArgs := ["lint"; "-"]; V2.extraArgs := []; V2.runTrigger := "onSave";
     V2.formatterEnabled := false |}.

End Samples.

(** ** Notions the statements use *)

(** The extensions [fileRegex] lets through. *)
Definition sql_extension (path : string) : Prop :=
  ends_with path ".sql" ∨ ends_with path ".sql-bigquery" ∨ ends_with path ".jinja-sql".

(** The states of the current provider: what [activate] leaves and
    what the events make of it. *)
Definition reachable {Diagnostic} (normalize : string → string)
    (s : V1.State (Diagnostic := Diagnostic)) : Prop :=
  ∃ l c folders events, s = V1.run normalize (V1.activate l c folders) events.

(** The analyses that delayer [ref] started and that have not finished. *)
Definition outstanding {Diagnostic} (ref : nat)
    (s : V1.State (Diagnostic := Diagnostic)) : nat :=
  length (filter (λ r, r.1 = ref) (V1.running s)).

(** The analyses of [document] that have not finished. *)
Definition analyses_of {Diagnostic} (document : TextDocument)
    (s : V1.State (Diagnostic := Diagnostic)) : nat :=
  length (filter (λ r, uri r.2 = uri document) (V1.running s)).

(** Every delayer of the table is one of the delayers created, and so
    is the delayer of every analysis that runs. *)
Definition references_ok {Diagnostic} (s : V1.State (Diagnostic := Diagnostic)) : Prop :=
  (∀ key ref, V1.delayers s !! key = Some ref → ref < length (V1.objects s))
  ∧ (∀ r, r ∈ V1.running s → r.1 < length (V1.objects s)).

(** The state a handler of the spawning provider leaves, thrown or not. *)
Definition result_state {Diagnostic} (r : V2.Result (Diagnostic := Diagnostic))
  : V2.State (Diagnostic := Diagnostic) :=
  match r with
  | V2.Done s => s
  | V2.Raised _ s => s
  end.

(** What a throttler with the given state has in flight. *)
Definition in_flight {Task} (t : Throttler Task) : nat :=
  match t with Idle => 0 | Busy _ => 1 end.

(** A throttler is busy exactly while the one analysis it started runs. *)
Definition throttled {Diagnostic} (s : V1.State (Diagnostic := Diagnostic)) : Prop :=
  ∀ ref t, (throttler <$> V1.objects s) !! ref = Some t → outstanding ref s = in_flight t.

Definition invariant {Diagnostic} (s : V1.State (Diagnostic := Diagnostic)) : Prop :=
  references_ok s ∧ throttled s.

(** A state whose throttler [ref] has just been made busy with nothing
    queued and is about to start a task. *)
Definition starting {Diagnostic} (ref : nat) (s : V1.State (Diagnostic := Diagnostic)) : Prop :=
  references_ok s
  ∧ (throttler <$> V1.objects s) !! ref = Some (Busy None)
  ∧ outstanding ref s = 0
  ∧ (∀ r t, r ≠ ref → (throttler <$> V1.objects s) !! r = Some t →
       outstanding r s = in_flight t).

(** ** Notions of the further properties *)

(** No character of [s] is a line terminator. *)
Fixpoint plain (s : string) : bool :=
  match s with
  | EmptyString => true
  | String c s' => negb (line_terminator c) && plain s'
  end.

(** What a trigger, the start of a task and the end of a run leave alone. *)
Definition editor_side {Diagnostic} (s : V1.State (Diagnostic := Diagnostic)) :=
  (V1.linter s, V1.executableNotFound s, V1.documentListener s, V1.configuration s,
   V1.workspaceFolders s, V1.listeners s, V1.searches s, V1.opening s).

(** The delay [triggerLint] gives a new delayer under the settings [c]. *)
Definition current_delay (c : V1.Configuration) : nat :=
  if String.eqb (V1.runTrigger c) V1.RunTrigger_onType then V1.delay c else 0.

(** The delayers of the table have the delay of the settings in force. *)
Definition delays_current {Diagnostic} (s : V1.State (Diagnostic := Diagnostic)) : Prop :=
  ∀ key ref k, V1.delayers s !! key = Some ref →
    (defaultDelay <$> V1.objects s) !! ref = Some k → k = current_delay (V1.configuration s).

(** No two documents of the table share a delayer. *)
Definition table_injective {Diagnostic} (s : V1.State (Diagnostic := Diagnostic)) : Prop :=
  ∀ key1 key2 ref,
    V1.delayers s !! key1 = Some ref → V1.delayers s !! key2 = Some ref → key1 = key2.

(** Every stored set of diagnostics is what the linter made of a
    non-empty output. *)
Definition parsed {Diagnostic} (s : V1.State (Diagnostic := Diagnostic)) : Prop :=
  ∀ key diagnostics, V1.diagnosticCollection s !! key = Some diagnostics →
    ∃ l ls, diagnostics = process (V1.linter s) (l :: ls).

(** [documentListener] is an active listener for saves, the only one. *)
Definition one_save_listener {Diagnostic} (s : V1.State (Diagnostic := Diagnostic)) : Prop :=
  ∃ h, V1.documentListener s = Some h
       ∧ V1.listeners s !! h = Some {| kind := OnDidSaveTextDocument; active := true |}
       ∧ active_listeners OnDidSaveTextDocument (V1.listeners s) = 1.

(** No search and no opening of a file waits with [forceLint] set. *)
Definition unforced {Diagnostic} (s : V1.State (Diagnostic := Diagnostic)) : Prop :=
  (∀ p, p ∈ V1.searches s → p.2 = false) ∧ (∀ p, p ∈ V1.opening s → p.2 = false).

(** What the table keeps in every state the provider reaches. *)
Definition tabled {Diagnostic} (s : V1.State (Diagnostic := Diagnostic)) : Prop :=
  invariant s ∧ delays_current s ∧ table_injective s.

(** What a trigger of the spawning provider leaves alone. *)
Definition spawn_side {Diagnostic} (t : V2.State (Diagnostic := Diagnostic)) :=
  (V2.linter t, V2.linterConfiguration t, V2.executableNotFound t, V2.workspaceFolders t,
   V2.textDocuments t, V2.children t, V2.messages t, V2.rejections t,
   V2.diagnosticCollection t, V2.documentListener t, V2.listeners t).

(** No throttler of the spawning provider has a task in flight. *)
Definition idle {Diagnostic} (t : V2.State (Diagnostic := Diagnostic)) : Prop :=
  ∀ ref d, V2.objects t !! ref = Some d → throttler d = Idle.

(** ** Regular expressions: [regex_test] decides [matches] *)

Lemma append_nil_inv (s1 s2 : string) : s1 +:+ s2 = "" → s1 = "" ∧ s2 = "".
Proof. destruct s1; simpl; [tauto | discriminate]. Qed.

Lemma append_cons_inv (s1 s2 s : string) c :
  s1 +:+ s2 = String c s →
  (s1 = "" ∧ s2 = String c s) ∨ (∃ s1', s1 = String c s1' ∧ s = s1' +:+ s2).
Proof.
  destruct s1 as [|c1 s1]; simpl; intros H.
  - left; auto.
  - right. injection H as -> <-. eauto.
Qed.

Lemma matches_empty_nullable r s : matches r s → s = "" → nullable r = true.
Proof.
  induction 1; intros Hs; simpl; try discriminate; auto.
  - apply append_nil_inv in Hs as [-> ->]. rewrite IHmatches1, IHmatches2; auto.
  - rewrite IHmatches; auto.
  - rewrite IHmatches; auto using orb_true_r.
Qed.

Lemma nullable_matches_empty r : nullable r = true → matches r "".
Proof.
  induction r; simpl; intros H; try discriminate.
  - constructor.
  - apply andb_true_iff in H as [H1 H2].
    change "" with ("" +:+ ""). constructor; auto.
  - apply orb_true_iff in H as [H|H]; [apply m_alt_l | apply m_alt_r]; auto.
  - constructor.
Qed.

Lemma deriv_sound c r : ∀ s, matches (deriv c r) s → matches r (String c s).
Proof.
  induction r; simpl; intros s H.
  - inversion H.
  - inversion H.
  - destruct (Ascii.eqb_spec c c0) as [->|]; inversion H; subst. constructor.
  - destruct (line_terminator c) eqn:E; inversion H; subst. constructor; auto.
  - destruct (nullable r1) eqn:E.
    + inversion H; subst.
      * inversion H3; subst.
        change (String c (s1 +:+ s2)) with (String c s1 +:+ s2). constructor; auto.
      * change (String c s) with ("" +:+ String c s).
        constructor; auto using nullable_matches_empty.
    + inversion H; subst.
      change (String c (s1 +:+ s2)) with (String c s1 +:+ s2). constructor; auto.
  - inversion H; subst; [apply m_alt_l | apply m_alt_r]; auto.
  - inversion H; subst.
    change (String c (s1 +:+ s2)) with (String c s1 +:+ s2). constructor; auto.
Qed.

Lemma deriv_complete c r s' : matches r s' → ∀ t, s' = String c t → matches (deriv c r) t.
Proof.
  induction 1; intros t Ht; simpl; try discriminate.
  - injection Ht as -> <-. rewrite Ascii.eqb_refl. constructor.
  - injection Ht as -> <-. rewrite H. constructor.
  - apply append_cons_inv in Ht as [[-> ->]|(s1' & -> & ->)].
    + rewrite (matches_empty_nullable r1 "") by auto. apply m_alt_r; auto.
    + destruct (nullable r1); [apply m_alt_l |]; constructor; auto.
  - apply m_alt_l; auto.
  - apply m_alt_r; auto.
  - apply append_cons_inv in Ht as [[-> ->]|(s1' & -> & ->)].
    + apply (IHmatches2 t); auto.
    + constructor; auto.
Qed.

Lemma regex_test_matches r s : regex_test r s = true ↔ matches r s.
Proof.
  revert r; induction s as [|c s IH]; intros r; simpl.
  - split; [apply nullable_matches_empty | intros H; eapply matches_empty_nullable; eauto].
  - rewrite IH. split; [apply deriv_sound | intros H; eapply deriv_complete; eauto].
Qed.

Lemma matches_lit w s : matches (lit w) s → s = w.
Proof.
  revert s; induction w as [|c w IH]; simpl; intros s H.
  - inversion H; auto.
  - inversion H; subst. inversion H2; subst. simpl. f_equal; auto.
Qed.

Lemma fileRegex_extension path : regex_test fileRegex path = true → sql_extension path.
Proof.
  rewrite regex_test_matches. unfold fileRegex, sql_extension, ends_with.
  intros H. inversion H as [| | |r1 r2 stem rest _ H2| | | |]; subst.
  inversion H2 as [| | |r1 r2 dot ext Hdot Hext| | | |]; subst.
  inversion Hdot; subst.
  inversion Hext as [| | | |? ? ? Hl|? ? ? Hr| |]; subst.
  - apply (matches_lit "sql") in Hl as ->. left. eauto.
  - inversion Hr as [| | | |? ? ? Hl|? ? ? Hr'| |]; subst.
    + apply (matches_lit "sql-bigquery") in Hl as ->. right; left. eauto.
    + apply (matches_lit "jinja-sql") in Hr' as ->. right; right. eauto.
Qed.

(** ** What [doLint] hands to the runner *)

(** C7. With a workspace folder open, [doLint] calls [SQLFluff.run]
    once; the options name the saved file alone when the trigger is
    [onSave] or the call is not for the current content, and otherwise
    both the file path and the text the document holds in memory. *)
Theorem doLint_options {Diagnostic} (normalize : string → string)
    (s : V1.State (Diagnostic := Diagnostic)) (document : TextDocument)
    (currentDocument : bool) (fsPath : string) (others : list string) :
  V1.workspaceFolders s = Some (fsPath :: others) →
  ∃ request,
    V1.doLint normalize document currentDocument s = Returned request
    ∧ (∀ ref, V1.invocations
                (V1.start normalize ref
                   {| V1.task_document := document;
                      V1.task_currentDocument := currentDocument |} s)
              = V1.invocations s ++ [request])
    ∧ V1.targetFileFullPath (V1.run_options request) = Some (normalize (fileName document))
    ∧ V1.fileContents (V1.run_options request) =
        if String.eqb (V1.runTrigger (V1.configuration s)) V1.RunTrigger_onSave
           || negb currentDocument
        then None
        else Some (getText document).
Proof.
  intros Hw. unfold V1.start, V1.doLint. rewrite Hw. simpl.
  eexists; split; [reflexivity|]. split; [reflexivity|].
  destruct (_ || _); simpl; auto.
Qed.

Lemma doLint_options_witness :
  ∃ request,
    V1.doLint id Samples.query true
      (V1.activate Samples.sql_linter (Samples.settings "onType") Samples.folders)
    = Returned request
    ∧ V1.run_options request =
        {| V1.fileContents := Some "select 1";
           V1.targetFileFullPath := Some "/w/query.sql" |}.
Proof.
  destruct (doLint_options id
              (V1.activate Samples.sql_linter (Samples.settings "onType") Samples.folders)
              Samples.query true "/w" [] eq_refl) as (request & H1 & _ & H3 & H4).
  exists request. split; [exact H1|].
  destruct request as [wd cmd args [contents target]]. simpl in *. congruence.
Defined.

(** ** The delayers of the current provider *)

Lemma filter_delete_length {A} (P : A → Prop) `{∀ x, Decision (P x)} (l : list A) n x :
  l !! n = Some x →
  length (filter P l) = length (filter P (delete n l)) + (if decide (P x) then 1 else 0).
Proof.
  revert n; induction l as [|y l IH]; intros [|n] Hn; simpl in *; try discriminate.
  - injection Hn as ->. rewrite filter_cons. destruct (decide (P x)); simpl; lia.
  - rewrite !filter_cons. destruct (decide (P y)); simpl; rewrite (IH n Hn); lia.
Qed.

Lemma filter_none_length {A} (P : A → Prop) `{∀ x, Decision (P x)} (l : list A) :
  (∀ x, x ∈ l → ¬ P x) → length (filter P l) = 0.
Proof.
  intros Hno. destruct (filter P l) as [|x k] eqn:Hf; [reflexivity|].
  assert (Hx : x ∈ filter P l) by (rewrite Hf; left).
  apply list_elem_of_filter in Hx as [HP Hx]. destruct (Hno x Hx HP).
Qed.

Lemma throttlers_trigger {Task} (task : Task) ref (l : list (ThrottledDelayer Task)) :
  throttler <$> alter (delayer_trigger task) ref l = throttler <$> l.
Proof.
  rewrite (list_fmap_alter throttler _ id); [apply list_alter_id; auto|].
  apply Forall_forall. reflexivity.
Qed.

Section Delayers.

Context {Diagnostic : Type} (normalize : string → string).

Implicit Types s : V1.State (Diagnostic := Diagnostic).

Lemma invariant_start ref task s : starting ref s → invariant (V1.start normalize ref task s).
Proof.
  intros ([Ht Hr] & Hb & H0 & Hother). unfold V1.start.
  destruct (V1.doLint _ _ _ _) as [request|e]; split.
  - split; simpl; [exact Ht|].
    intros r Hin. apply elem_of_app in Hin as [Hin|Hin]; [auto|].
    apply list_elem_of_singleton in Hin as ->. simpl.
    apply lookup_lt_Some in Hb. rewrite length_fmap in Hb. exact Hb.
  - intros r t Hd. unfold outstanding in *. simpl in *.
    rewrite filter_app, length_app, filter_cons, filter_nil. simpl.
    destruct (decide (r = ref)) as [->|Hne].
    + rewrite Hb in Hd. injection Hd as <-. rewrite H0.
      rewrite decide_True by reflexivity. reflexivity.
    + rewrite (Hother r t Hne Hd). rewrite decide_False by congruence. simpl. lia.
  - split; simpl; intros; rewrite length_alter; eauto.
  - intros r t Hd. unfold outstanding in *. simpl in *.
    rewrite list_lookup_fmap, list_lookup_alter in Hd.
    rewrite list_lookup_fmap in Hb.
    destruct (decide (ref = r)) as [<-|Hne].
    + destruct (V1.objects s !! ref) as [d|]; [|discriminate]. simpl in *.
      injection Hb as Hb. injection Hd as <-.
      unfold delayer_settle. rewrite Hb. simpl. exact H0.
    + eapply Hother; [congruence|]. rewrite list_lookup_fmap. exact Hd.
Qed.

Lemma invariant_triggerLint document forceLint currentDocument s :
  invariant s → invariant (V1.triggerLint document forceLint currentDocument s).
Proof.
  intros [[Ht Hr] Hth]. unfold V1.triggerLint.
  destruct (_ || _ || _); [split; [split|]; assumption|].
  destruct (V1.delayers s !! uri document) as [ref|] eqn:Hk; simpl.
  - split; [split|]; simpl.
    + intros; rewrite length_alter; eauto.
    + intros; rewrite length_alter; eauto.
    + intros r t. unfold outstanding; simpl. rewrite throttlers_trigger. apply Hth.
  - split; [split|]; simpl.
    + intros key ref. rewrite length_alter, length_app. simpl.
      rewrite lookup_insert. destruct (decide (uri document = key)).
      * intros [= <-]. lia.
      * intros Hl. apply Ht in Hl. lia.
    + intros r Hin. rewrite length_alter, length_app. apply Hr in Hin. lia.
    + intros r t. unfold outstanding; simpl. rewrite throttlers_trigger, fmap_app.
      intros Hd. apply lookup_app_Some in Hd as [Hd|[Hge Hd]]; [apply Hth; exact Hd|].
      apply list_lookup_singleton_Some in Hd as [_ <-].
      rewrite length_fmap in Hge.
      transitivity 0; [|destruct (String.eqb _ _); reflexivity].
      apply filter_none_length. intros x Hx Heq. apply Hr in Hx. lia.
Qed.

Lemma invariant_iter_triggerLint n document forceLint currentDocument s :
  invariant s →
  invariant (Nat.iter n (V1.triggerLint document forceLint currentDocument) s).
Proof. intros Hs. induction n; simpl; auto using invariant_triggerLint. Qed.

Lemma loadConfiguration_delayers s : V1.delayers (V1.loadConfiguration s) = ∅.
Proof.
  unfold V1.loadConfiguration, V1.lintProject, V1.subscribe; destruct s; cbn.
  repeat (case_match; cbn); reflexivity.
Qed.

Lemma loadConfiguration_objects s : V1.objects (V1.loadConfiguration s) = V1.objects s.
Proof.
  unfold V1.loadConfiguration, V1.lintProject, V1.subscribe; destruct s; cbn.
  repeat (case_match; cbn); reflexivity.
Qed.

Lemma loadConfiguration_running s : V1.running (V1.loadConfiguration s) = V1.running s.
Proof.
  unfold V1.loadConfiguration, V1.lintProject, V1.subscribe; destruct s; cbn.
  repeat (case_match; cbn); reflexivity.
Qed.

Lemma invariant_loadConfiguration s : invariant s → invariant (V1.loadConfiguration s).
Proof.
  intros [[Ht Hr] Hth]. split; [split|].
  - intros key ref. rewrite loadConfiguration_delayers, lookup_empty. discriminate.
  - rewrite loadConfiguration_running, loadConfiguration_objects. exact Hr.
  - unfold throttled, outstanding.
    rewrite loadConfiguration_running, loadConfiguration_objects. exact Hth.
Qed.

Lemma invariant_activate (l : Linter Diagnostic) c folders :
  invariant (V1.activate l c folders).
Proof.
  unfold V1.activate.
  match goal with |- context [V1.loadConfiguration ?s0] =>
    assert (H0 : invariant s0) end.
  { split; [split|]; simpl.
    - intros key ref. rewrite lookup_empty. discriminate.
    - intros r Hin. inversion Hin.
    - intros ref t. simpl. discriminate. }
  apply invariant_loadConfiguration in H0.
  destruct (V1.lintEntireProject _); [|exact H0].
  destruct H0 as [[Ht Hr] Hth]. split; [split|]; assumption.
Qed.

Lemma invariant_handle s e : invariant s → invariant (V1.handle normalize s e).
Proof.
  intros Hs. destruct e; simpl.
  - apply invariant_loadConfiguration. destruct Hs as [[Ht Hr] Hth].
    split; [split|]; assumption.
  - destruct Hs as [[Ht Hr] Hth]. split; [split|]; assumption.
  - apply invariant_triggerLint; exact Hs.
  - destruct Hs as [[Ht Hr] Hth]. split; [split|]; simpl; auto.
    intros key ref Hl. apply lookup_delete_Some in Hl as [_ Hl]. eauto.
  - apply invariant_iter_triggerLint; exact Hs.
  - apply invariant_iter_triggerLint; exact Hs.
  - destruct (V1.searches s !! n) as [[pat force]|]; [|exact Hs].
    destruct Hs as [[Ht Hr] Hth]. split; [split|]; assumption.
  - destruct (V1.opening s !! n) as [[path force]|]; [|exact Hs].
    apply invariant_triggerLint.
    destruct Hs as [[Ht Hr] Hth]. split; [split|]; assumption.
  - destruct (V1.objects s !! ref) as [d|] eqn:Hd; [|exact Hs].
    destruct Hs as [[Ht Hr] Hth].
    assert (Hm : (throttler <$> V1.objects s) !! ref = Some (throttler d))
      by (rewrite list_lookup_fmap, Hd; reflexivity).
    pose proof (lookup_lt_Some _ _ _ Hd) as Hlt.
    unfold delayer_elapse.
    destruct (pending d) as [task|] eqn:Hp; simpl.
    + destruct (throttler d) eqn:Hthr; simpl.
      * apply invariant_start. split; [split|split; [|split]]; simpl.
        -- intros; rewrite length_insert; eauto.
        -- intros; rewrite length_insert; eauto.
        -- rewrite list_fmap_insert, list_lookup_insert_eq; [reflexivity|].
           rewrite length_fmap; exact Hlt.
        -- apply (Hth ref _ Hm).
        -- intros r t Hne. rewrite list_fmap_insert, list_lookup_insert_ne by congruence.
           apply Hth.
      * split; [split|]; simpl.
        -- intros; rewrite length_insert; eauto.
        -- intros; rewrite length_insert; eauto.
        -- intros r t. unfold outstanding; simpl. rewrite list_fmap_insert.
           destruct (decide (r = ref)) as [->|Hne].
           ++ rewrite list_lookup_insert_eq by (rewrite length_fmap; exact Hlt).
              intros [= <-]. apply (Hth ref _ Hm).
           ++ rewrite list_lookup_insert_ne by congruence. apply Hth.
    + rewrite list_insert_id by exact Hd.
      split; [split|]; assumption.
  - destruct (V1.running s !! n) as [[ref document]|] eqn:Hn; [|exact Hs].
    destruct Hs as [[Ht Hr] Hth].
    assert (Hin : (ref, document) ∈ V1.running s) by (eapply list_elem_of_lookup_2; eauto).
    pose proof (Hr _ Hin) as Hlt. simpl in Hlt.
    destruct (lookup_lt_is_Some_2 _ _ Hlt) as [d Hd].
    assert (Hm : (throttler <$> V1.objects s) !! ref = Some (throttler d))
      by (rewrite list_lookup_fmap, Hd; reflexivity).
    pose proof (Hth ref _ Hm) as Hone. unfold outstanding in Hone.
    rewrite (filter_delete_length _ _ n _ Hn) in Hone.
    rewrite decide_True in Hone by reflexivity.
    assert (Hobj : ∀ s', V1.objects (V1.doLint_resume document result s') = V1.objects s').
    { intros s'. unfold V1.doLint_resume.
      destruct (negb _), (V1.lines result) as [[|]|]; reflexivity. }
    assert (Hrun : ∀ s', V1.running (V1.doLint_resume document result s') = V1.running s').
    { intros s'. unfold V1.doLint_resume.
      destruct (negb _), (V1.lines result) as [[|]|]; reflexivity. }
    assert (Htbl : ∀ s', V1.delayers (V1.doLint_resume document result s') = V1.delayers s').
    { intros s'. unfold V1.doLint_resume.
      destruct (negb _), (V1.lines result) as [[|]|]; reflexivity. }
    rewrite Hobj. simpl. rewrite Hd.
    assert (Hsub : ∀ r, r ∈ delete n (V1.running s) → r.1 < length (V1.objects s)).
    { intros r Hr'. apply Hr. eapply list_elem_of_delete_inv; exact Hr'. }
    assert (Hrest : ∀ r t, r ≠ ref → (throttler <$> V1.objects s) !! r = Some t →
              length (filter (λ x, x.1 = r) (delete n (V1.running s))) = in_flight t).
    { intros r t Hne Hl. rewrite <- (Hth r t Hl). unfold outstanding.
      rewrite (filter_delete_length (λ x, x.1 = r) _ n _ Hn).
      rewrite decide_False by (simpl; congruence). lia. }
    destruct (throttler d) as [|[task|]] eqn:Hthr; simpl in Hone; try lia;
      unfold delayer_settle; rewrite Hthr; simpl.
    + apply invariant_start. split; [split|split; [|split]]; simpl.
      * intros key r. rewrite length_insert, Htbl. simpl. apply Ht.
      * intros r. rewrite length_insert, Hrun. simpl. apply Hsub.
      * rewrite list_fmap_insert, list_lookup_insert_eq; [reflexivity|].
        rewrite length_fmap; exact Hlt.
      * unfold outstanding; simpl. rewrite Hrun. simpl. lia.
      * intros r t Hne. unfold outstanding; simpl. rewrite Hrun. simpl.
        rewrite list_fmap_insert, list_lookup_insert_ne by congruence. apply Hrest; exact Hne.
    + split; [split|]; simpl.
      * intros key r. rewrite length_insert, Htbl. simpl. apply Ht.
      * intros r. rewrite length_insert, Hrun. simpl. apply Hsub.
      * intros r t. unfold outstanding; simpl. rewrite Hrun. simpl.
        rewrite list_fmap_insert.
        destruct (decide (r = ref)) as [->|Hne].
        -- rewrite list_lookup_insert_eq by (rewrite length_fmap; exact Hlt).
           intros [= <-]. simpl. lia.
        -- rewrite list_lookup_insert_ne by congruence. apply Hrest; exact Hne.
Qed.

Lemma reachable_invariant s : reachable normalize s → invariant s.
Proof.
  intros (l & c & folders & events & ->). unfold V1.run.
  generalize (invariant_activate l c folders).
  generalize (V1.activate l c folders).
  induction events as [|e events IH]; intros s0 H0; simpl; [exact H0|].
  apply IH, invariant_handle, H0.
Qed.

End Delayers.

(** ** Triggering *)

Section Triggering.

Context {Diagnostic : Type} (normalize : string → string).

Implicit Types s : V1.State (Diagnostic := Diagnostic).

Lemma start_tables ref task s :
  V1.delayers (V1.start normalize ref task s) = V1.delayers s
  ∧ V1.diagnosticCollection (V1.start normalize ref task s) = V1.diagnosticCollection s
  ∧ V1.executableNotFound (V1.start normalize ref task s) = V1.executableNotFound s
  ∧ V1.listeners (V1.start normalize ref task s) = V1.listeners s.
Proof. unfold V1.start. destruct (V1.doLint _ _ _ _); simpl; auto. Qed.

Lemma triggerLint_scheduled document forceLint currentDocument s :
  references_ok s →
  includes (linter_languageId (V1.linter s)) (languageId document) = true →
  V1.executableNotFound s = false →
  (V1.runTrigger (V1.configuration s) ≠ V1.RunTrigger_off ∨ forceLint = true) →
  ∃ ref d,
    V1.delayers (V1.triggerLint document forceLint currentDocument s) !! uri document
      = Some ref
    ∧ V1.objects (V1.triggerLint document forceLint currentDocument s) !! ref = Some d
    ∧ pending d = Some {| V1.task_document := document;
                          V1.task_currentDocument := currentDocument |}
    ∧ (V1.delayers s !! uri document = None → throttler d = Idle).
Proof.
  intros [Ht _] Hl Hf Hmode. unfold V1.triggerLint. rewrite Hl, Hf. simpl.
  assert (Hg : String.eqb (V1.runTrigger (V1.configuration s)) V1.RunTrigger_off
               && negb forceLint = false).
  { destruct Hmode as [Hne| ->]; [|apply andb_false_r].
    apply String.eqb_neq in Hne. rewrite Hne. reflexivity. }
  rewrite Hg. destruct (V1.delayers s !! uri document) as [ref|] eqn:Hk; simpl.
  - pose proof (Ht _ _ Hk) as Hlt. destruct (lookup_lt_is_Some_2 _ _ Hlt) as [d Hd].
    exists ref, (delayer_trigger {| V1.task_document := document;
                                   V1.task_currentDocument := currentDocument |} d).
    rewrite list_lookup_alter_eq, Hd. simpl. repeat split; auto. discriminate.
  - eexists _, _. rewrite lookup_insert_eq, list_lookup_alter_eq.
    rewrite lookup_app_r, Nat.sub_diag by lia. simpl.
    repeat split; auto. intros _. destruct (String.eqb _ V1.RunTrigger_onType); reflexivity.
Qed.

Lemma triggerLint_invocations document forceLint currentDocument s :
  V1.invocations (V1.triggerLint document forceLint currentDocument s) = V1.invocations s
  ∧ V1.workspaceFolders (V1.triggerLint document forceLint currentDocument s)
    = V1.workspaceFolders s.
Proof.
  unfold V1.triggerLint. destruct (_ || _ || _); [auto|].
  destruct (V1.delayers s !! uri document); simpl; auto.
Qed.

End Triggering.

(** C4. [triggerLint] leaves the provider as it was, so that nothing is
    scheduled and the runner is not called, when the language of the
    document is not one of the linter's, or the executable-missing flag
    is set, or the trigger is [off] and the call is not forced.  A
    forced call under [off] for a document the linter handles resolves
    the delayer of the document, the one the table holds or a new one,
    and leaves the analysis pending in it; the call itself does not
    reach the runner, the timer of the delayer does: for a delayer that
    has nothing in flight and a workspace with a folder, that is one
    more call of [SQLFluff.run], and for a delayer that has an analysis
    in flight the task is queued behind it.  The spawning provider has
    the same gate with no forced calls. *)
Theorem triggerLint_gate {Diagnostic} (normalize : string → string)
    (s : V1.State (Diagnostic := Diagnostic)) (document : TextDocument)
    (forceLint currentDocument : bool) :
  let handled := includes (linter_languageId (V1.linter s)) (languageId document) in
  let s' := V1.triggerLint document forceLint currentDocument s in
  let task := {| V1.task_document := document;
                 V1.task_currentDocument := currentDocument |} in
  (handled = false ∨ V1.executableNotFound s = true
   ∨ (V1.runTrigger (V1.configuration s) = V1.RunTrigger_off ∧ forceLint = false) →
   s' = s)
  ∧ (references_ok s →
     handled = true → V1.executableNotFound s = false →
     V1.runTrigger (V1.configuration s) = V1.RunTrigger_off → forceLint = true →
     V1.invocations s' = V1.invocations s
     ∧ ∃ ref d,
         V1.delayers s' !! uri document = Some ref
         ∧ V1.objects s' !! ref = Some d
         ∧ pending d = Some task
         ∧ (throttler d = Idle →
            (∃ fsPath others, V1.workspaceFolders s = Some (fsPath :: others)) →
            length (V1.invocations (V1.handle normalize s' (V1.TimerElapsed ref)))
            = S (length (V1.invocations s)))
         ∧ (∀ queued, throttler d = Busy queued →
            throttler <$> V1.objects (V1.handle normalize s' (V1.TimerElapsed ref)) !! ref
            = Some (Busy (Some task))))
  ∧ (∀ (t : V2.State (Diagnostic := Diagnostic)),
       includes (linter_languageId (V2.linter t)) (languageId document) = false
       ∨ V2.executableNotFound t = true
       ∨ (∃ lc, V2.linterConfiguration t = Some lc
                ∧ V2.RunTrigger_from (V2.runTrigger lc) = V2.off) →
       V2.triggerLint document t = V2.Done t).
Proof.
  intros handled s' task. split; [|split].
  - subst s' handled. unfold V1.triggerLint. intros [->| [->| [-> ->]]]; simpl.
    + reflexivity.
    + rewrite orb_true_r. reflexivity.
    + rewrite !orb_true_r. reflexivity.
  - intros Hrefs Hl Hf Hoff ->. subst s' handled task.
    split; [apply triggerLint_invocations|].
    destruct (triggerLint_scheduled document true currentDocument s Hrefs Hl Hf)
      as (ref & d & Hk & Hd & Hp & _); [right; reflexivity|].
    exists ref, d. split; [exact Hk|]. split; [exact Hd|]. split; [exact Hp|]. split.
    + intros Hidle (fsPath & others & Hfolder). simpl. rewrite Hd.
      unfold delayer_elapse. rewrite Hp, Hidle. simpl.
      unfold V1.start, V1.doLint. simpl.
      rewrite (proj2 (triggerLint_invocations document true currentDocument s)).
      rewrite Hfolder.
      simpl. rewrite length_app, (proj1 (triggerLint_invocations _ _ _ _)). simpl. lia.
    + intros queued Hbusy. simpl. rewrite Hd.
      unfold delayer_elapse. rewrite Hp, Hbusy. simpl.
      rewrite list_lookup_insert_eq by (eapply lookup_lt_Some; eauto). reflexivity.
  - intros t. unfold V2.triggerLint. intros [->| [->| (lc & -> & ->)]]; simpl.
    + reflexivity.
    + rewrite orb_true_r. reflexivity.
    + destruct (_ || _); reflexivity.
Qed.

Lemma triggerLint_gate_witness :
  let opened := V1.run id (Samples.activated "onSave")
                  [V1.DidOpenTextDocument Samples.query] in
  let s := V1.set_configuration (Samples.settings "off") opened in
  V1.delayers s !! uri Samples.query = Some 0
  ∧ V1.triggerLint Samples.query false false s = s
  ∧ V1.triggerLint Samples.notes true false s = s
  ∧ V1.delayers (V1.triggerLint Samples.query true true s) !! uri Samples.query = Some 0
  ∧ length (V1.invocations
              (V1.handle id (V1.triggerLint Samples.query true true s) (V1.TimerElapsed 0)))
    = 1.
Proof.
  intros opened s.
  assert (Hrefs : references_ok s).
  { apply (reachable_invariant id opened).
    exists Samples.sql_linter, (Samples.settings "onSave"), Samples.folders,
      [V1.DidOpenTextDocument Samples.query]. reflexivity. }
  split; [reflexivity|]. split; [|split].
  - destruct (triggerLint_gate id s Samples.query false false) as (H1 & _ & _).
    apply H1. right; right. split; reflexivity.
  - destruct (triggerLint_gate id s Samples.notes true false) as (H1 & _ & _).
    apply H1. left. reflexivity.
  - destruct (triggerLint_gate id s Samples.query true true) as (_ & H2 & _).
    specialize (H2 Hrefs eq_refl eq_refl eq_refl eq_refl).
    destruct H2 as (_ & ref & d & Hk & Hd & Hp & Hrun & _).
    assert (Href : ref = 0) by (vm_compute in Hk; congruence). subst ref.
    split; [exact Hk|].
    apply Hrun.
    + vm_compute in Hd. injection Hd as <-. reflexivity.
    + exists "/w", []. reflexivity.
Defined.

(** ** Project-wide linting *)

(** C10. [lintProject] searches the workspace with the fixed pattern
    [filePattern]; when the search returns, exactly the files whose
    path passes [fileRegex] are opened, in order, and a path that
    passes ends in [.sql], [.sql-bigquery] or [.jinja-sql]: a file with
    another extension is skipped even though the search returned it,
    and nothing is scheduled for it.  When a file that was opened
    arrives as a document, [triggerLint] is called for it with the
    [forceLint] of the sweep: unless the gate of [triggerLint] holds it
    back, the document has a delayer in the table afterwards and its
    analysis is pending there. *)
Theorem lintProject_sql_files_only {Diagnostic} (normalize : string → string)
    (s : V1.State (Diagnostic := Diagnostic)) (n : nat) (pattern : string)
    (forceLint : bool) (files : list string) :
  V1.searches s !! n = Some (pattern, forceLint) →
  let s' := V1.handle normalize s (V1.FilesFound n files) in
  V1.searches (V1.lintProject forceLint s) = V1.searches s ++ [(filePattern, forceLint)]
  ∧ V1.opening s' =
      V1.opening s ++ map (λ path, (path, forceLint)) (List.filter (regex_test fileRegex) files)
  ∧ (∀ path, (path, forceLint) ∈ V1.opening s' →
       (path, forceLint) ∈ V1.opening s ∨ (path ∈ files ∧ sql_extension path))
  ∧ (∀ path, path ∈ files → ¬ sql_extension path → regex_test fileRegex path = false)
  ∧ V1.objects s' = V1.objects s ∧ V1.delayers s' = V1.delayers s
  ∧ V1.invocations s' = V1.invocations s
  ∧ (∀ k path force document,
       V1.opening s' !! k = Some (path, force) →
       let s'' := V1.handle normalize s' (V1.DocumentOpened k document) in
       s'' = V1.triggerLint document force false
               (V1.set_opening (delete k (V1.opening s')) s')
       ∧ V1.opening s'' = delete k (V1.opening s')
       ∧ (references_ok s →
          includes (linter_languageId (V1.linter s)) (languageId document) = true →
          V1.executableNotFound s = false →
          V1.runTrigger (V1.configuration s) ≠ V1.RunTrigger_off ∨ force = true →
          ∃ ref d,
            V1.delayers s'' !! uri document = Some ref
            ∧ V1.objects s'' !! ref = Some d
            ∧ pending d = Some {| V1.task_document := document;
                                  V1.task_currentDocument := false |})).
Proof.
  intros Hn s'.
  assert (Hs' : s' = V1.lintProject_files forceLint files
                       (V1.set_searches (delete n (V1.searches s)) s))
    by (subst s'; simpl; rewrite Hn; reflexivity).
  clearbody s'. subst s'. simpl.
  split; [reflexivity|]. split; [reflexivity|]. split; [|split].
  - intros path Hin. apply elem_of_app in Hin as [Hin|Hin]; [left; exact Hin|right].
    apply list_elem_of_In, in_map_iff in Hin as (p & Heq & Hin).
    injection Heq as Hp. subst p. apply filter_In in Hin as [Hin Hre].
    split; [apply list_elem_of_In; exact Hin | apply fileRegex_extension; exact Hre].
  - intros path _ Hext. destruct (regex_test fileRegex path) eqn:E; [|reflexivity].
    destruct Hext. apply fileRegex_extension; exact E.
  - split; [reflexivity|]. split; [reflexivity|]. split; [reflexivity|].
    intros k path force document Hk. rewrite Hk. split; [reflexivity|]. split.
    + unfold V1.triggerLint. destruct (_ || _ || _); [reflexivity|].
      match goal with |- context [V1.delayers ?u !! uri document] =>
        destruct (V1.delayers u !! uri document) end; reflexivity.
    + intros Hrefs Hl Hf Hmode.
      match goal with |- context [V1.triggerLint document force false ?u] =>
        destruct (triggerLint_scheduled document force false u Hrefs Hl Hf Hmode)
          as (ref & d & Hd1 & Hd2 & Hp & _) end.
      exists ref, d. auto.
Qed.

Lemma lintProject_sql_files_only_witness :
  let s := V1.lintProject true
             (V1.activate Samples.sql_linter (Samples.settings "off") Samples.folders) in
  let s' := V1.handle id s (V1.FilesFound 0 ["/w/query.sql"; "/w/b.txt"; "/w/c.jinja-sql"]) in
  V1.opening s' = [("/w/query.sql", true); ("/w/c.jinja-sql", true)]
  ∧ ∃ ref d,
      V1.delayers (V1.handle id s' (V1.DocumentOpened 0 Samples.query)) !! uri Samples.query
      = Some ref
      ∧ V1.objects (V1.handle id s' (V1.DocumentOpened 0 Samples.query)) !! ref = Some d
      ∧ pending d = Some {| V1.task_document := Samples.query;
                            V1.task_currentDocument := false |}.
Proof.
  intros s s'.
  destruct (lintProject_sql_files_only id s 0 filePattern true
              ["/w/query.sql"; "/w/b.txt"; "/w/c.jinja-sql"] eq_refl)
    as (_ & Hopen & _ & _ & _ & _ & _ & Htrigger).
  split; [exact Hopen|].
  destruct (Htrigger 0 "/w/query.sql" true Samples.query eq_refl) as (_ & _ & Hsched).
  apply Hsched.
  - apply (invariant_activate Samples.sql_linter (Samples.settings "off") Samples.folders).
  - reflexivity.
  - reflexivity.
  - right. reflexivity.
Defined.

(** ** Closing a document *)

Section Closing.

Context {Diagnostic : Type} (normalize : string → string).

Implicit Types s : V1.State (Diagnostic := Diagnostic).

Lemma doLint_resume_fields document result s :
  V1.delayers (V1.doLint_resume document result s) = V1.delayers s
  ∧ V1.objects (V1.doLint_resume document result s) = V1.objects s
  ∧ V1.running (V1.doLint_resume document result s) = V1.running s
  ∧ V1.linter (V1.doLint_resume document result s) = V1.linter s
  ∧ V1.executableNotFound (V1.doLint_resume document result s) = V1.executableNotFound s
  ∧ V1.listeners (V1.doLint_resume document result s) = V1.listeners s
  ∧ V1.invocations (V1.doLint_resume document result s) = V1.invocations s
  ∧ V1.workspaceFolders (V1.doLint_resume document result s) = V1.workspaceFolders s.
Proof.
  unfold V1.doLint_resume.
  destruct (negb _), (V1.lines result) as [[|]|]; simpl; auto 10.
Qed.

Lemma doLint_resume_diagnostics document result s :
  V1.diagnosticCollection (V1.doLint_resume document result s) =
  match V1.lines result with
  | Some (l :: ls) =>
      <[uri document := process (V1.linter s) (l :: ls)]> (V1.diagnosticCollection s)
  | _ => V1.diagnosticCollection s
  end.
Proof.
  unfold V1.doLint_resume.
  destruct (negb _), (V1.lines result) as [[|]|]; simpl; auto.
Qed.

Lemma runFinished_tables s n ref document result :
  V1.running s !! n = Some (ref, document) →
  V1.delayers (V1.handle normalize s (V1.RunFinished n result)) = V1.delayers s
  ∧ V1.diagnosticCollection (V1.handle normalize s (V1.RunFinished n result))
    = V1.diagnosticCollection (V1.doLint_resume document result s).
Proof.
  intros Hn. simpl. rewrite Hn.
  set (s1 := V1.set_running _ s).
  assert (H1 : V1.delayers (V1.doLint_resume document result s1) = V1.delayers s)
    by (rewrite (proj1 (doLint_resume_fields document result s1)); reflexivity).
  assert (H2 : V1.diagnosticCollection (V1.doLint_resume document result s1)
               = V1.diagnosticCollection (V1.doLint_resume document result s))
    by (rewrite !doLint_resume_diagnostics; reflexivity).
  destruct (V1.objects (V1.doLint_resume document result s1) !! ref) as [d|]; [|auto].
  destruct ((delayer_settle d).2) as [task|]; [|auto].
  destruct (start_tables normalize ref task
              (V1.set_objects
                 (<[ref := (delayer_settle d).1]>
                    (V1.objects (V1.doLint_resume document result s1)))
                 (V1.doLint_resume document result s1))) as (-> & -> & _).
  auto.
Qed.

(** The timer of an idle delayer elapses with a task pending: the task
    starts, and the tables are as they were. *)
Lemma timer_starts_pending s ref d task fsPath others :
  V1.objects s !! ref = Some d → pending d = Some task → throttler d = Idle →
  V1.workspaceFolders s = Some (fsPath :: others) →
  V1.running (V1.handle normalize s (V1.TimerElapsed ref))
  = V1.running s ++ [(ref, V1.task_document task)]
  ∧ V1.delayers (V1.handle normalize s (V1.TimerElapsed ref)) = V1.delayers s
  ∧ V1.diagnosticCollection (V1.handle normalize s (V1.TimerElapsed ref))
    = V1.diagnosticCollection s
  ∧ V1.linter (V1.handle normalize s (V1.TimerElapsed ref)) = V1.linter s.
Proof.
  intros Hd Hp Hidle Hw. simpl. rewrite Hd. unfold delayer_elapse. rewrite Hp, Hidle.
  simpl. unfold V1.start, V1.doLint. simpl. rewrite Hw. simpl. auto.
Qed.

(** The analysis in flight finishes with a task queued behind it: the
    task starts in its place. *)
Lemma finish_starts_queued s n ref other result d task fsPath others :
  V1.running s !! n = Some (ref, other) → V1.objects s !! ref = Some d →
  throttler d = Busy (Some task) →
  V1.workspaceFolders s = Some (fsPath :: others) →
  V1.running (V1.handle normalize s (V1.RunFinished n result))
  = delete n (V1.running s) ++ [(ref, V1.task_document task)]
  ∧ V1.linter (V1.handle normalize s (V1.RunFinished n result)) = V1.linter s.
Proof.
  intros Hn Hd Hq Hw. unfold V1.handle. rewrite Hn.
  set (s1 := V1.set_running _ s).
  destruct (doLint_resume_fields other result s1)
    as (_ & Ho & Hr & Hl & _ & _ & _ & Hf).
  change (V1.objects s1) with (V1.objects s) in Ho.
  change (V1.running s1) with (delete n (V1.running s)) in Hr.
  change (V1.linter s1) with (V1.linter s) in Hl.
  change (V1.workspaceFolders s1) with (V1.workspaceFolders s) in Hf.
  rewrite Ho, Hd. unfold delayer_settle. rewrite Hq. cbn [fst snd].
  unfold V1.start, V1.doLint. cbn [V1.workspaceFolders V1.set_objects].
  rewrite Hf, Hw. cbn [first_folder].
  cbn [V1.running V1.linter V1.set_running V1.set_invocations V1.set_objects].
  rewrite Hr, Hl. auto.
Qed.

(** The timer of a busy delayer elapses with a task pending: the task
    is queued behind the analysis in flight and nothing else changes. *)
Lemma timer_queues_pending s ref d task queued :
  V1.objects s !! ref = Some d → pending d = Some task → throttler d = Busy queued →
  ∃ d',
    V1.objects (V1.handle normalize s (V1.TimerElapsed ref)) !! ref = Some d'
    ∧ throttler d' = Busy (Some task)
    ∧ V1.running (V1.handle normalize s (V1.TimerElapsed ref)) = V1.running s
    ∧ V1.delayers (V1.handle normalize s (V1.TimerElapsed ref)) = V1.delayers s
    ∧ V1.diagnosticCollection (V1.handle normalize s (V1.TimerElapsed ref))
      = V1.diagnosticCollection s
    ∧ V1.workspaceFolders (V1.handle normalize s (V1.TimerElapsed ref))
      = V1.workspaceFolders s
    ∧ V1.linter (V1.handle normalize s (V1.TimerElapsed ref)) = V1.linter s.
Proof.
  intros Hd Hp Hbusy. simpl. rewrite Hd. unfold delayer_elapse. rewrite Hp, Hbusy.
  simpl. eexists. rewrite list_lookup_insert_eq by (eapply lookup_lt_Some; eauto).
  repeat split.
Qed.

(** The end of a run of [document]: the table is as it was, and the
    diagnostics of the document are those of the output, if any. *)
Lemma runFinished_document s n ref document result :
  V1.running s !! n = Some (ref, document) →
  V1.delayers (V1.handle normalize s (V1.RunFinished n result)) = V1.delayers s
  ∧ V1.diagnosticCollection (V1.handle normalize s (V1.RunFinished n result))
      !! uri document =
    match V1.lines result with
    | Some (l :: ls) => Some (process (V1.linter s) (l :: ls))
    | _ => V1.diagnosticCollection s !! uri document
    end.
Proof.
  intros Hn. destruct (runFinished_tables s n ref document result Hn) as [-> ->].
  split; [reflexivity|]. rewrite doLint_resume_diagnostics.
  destruct (V1.lines result) as [[|l ls]|]; auto. apply lookup_insert_eq.
Qed.

End Closing.

(** C1, as the code has it.  The handler of the close event removes
    the delayer of the document from the table and the entry of the
    document from the diagnostics, and cancels nothing: the delayers,
    with the tasks they hold, and the analyses that run stay as they
    were.  An analysis of the document that runs at that time finishes
    after the close; one that is pending in its delayer starts when the
    timer elapses, or when the analysis in flight finishes if the
    delayer has one, and so does one that is queued behind the
    analysis in flight (in a workspace with a folder), and they finish
    in their turn.  None of them puts the delayer back into
    the table; each stores the diagnostics of the document again when
    its result has at least one output line, and leaves them as they
    are, absent unless such a result came before, when it has none. *)
Theorem close_then_completion {Diagnostic} (normalize : string → string)
    (s : V1.State (Diagnostic := Diagnostic)) (document : TextDocument) :
  let closed := V1.handle normalize s (V1.DidCloseTextDocument document) in
  let stored (result : V1.RunResult) (otherwise : option (list Diagnostic)) :=
    match V1.lines result with
    | Some (l :: ls) => Some (process (V1.linter s) (l :: ls))
    | _ => otherwise
    end in
  (V1.delayers closed !! uri document = None
   ∧ V1.diagnosticCollection closed !! uri document = None
   ∧ V1.running closed = V1.running s
   ∧ V1.objects closed = V1.objects s)
  ∧ (∀ n ref result,
       V1.running s !! n = Some (ref, document) →
       let finished := V1.handle normalize closed (V1.RunFinished n result) in
       V1.delayers finished !! uri document = None
       ∧ V1.diagnosticCollection finished !! uri document = stored result None)
  ∧ (∀ ref d task result fsPath others,
       V1.objects s !! ref = Some d → pending d = Some task →
       V1.task_document task = document → throttler d = Idle →
       V1.workspaceFolders s = Some (fsPath :: others) →
       let started := V1.handle normalize closed (V1.TimerElapsed ref) in
       let finished :=
         V1.handle normalize started (V1.RunFinished (length (V1.running s)) result) in
       V1.running started = V1.running s ++ [(ref, document)]
       ∧ V1.delayers started !! uri document = None
       ∧ V1.diagnosticCollection started !! uri document = None
       ∧ V1.delayers finished !! uri document = None
       ∧ V1.diagnosticCollection finished !! uri document = stored result None)
  ∧ (∀ n ref other d task first result fsPath others,
       V1.running s !! n = Some (ref, other) →
       V1.objects s !! ref = Some d → throttler d = Busy (Some task) →
       V1.task_document task = document →
       V1.workspaceFolders s = Some (fsPath :: others) →
       let resumed := V1.handle normalize closed (V1.RunFinished n first) in
       let finished :=
         V1.handle normalize resumed
           (V1.RunFinished (length (V1.running s) - 1) result) in
       V1.running resumed = delete n (V1.running s) ++ [(ref, document)]
       ∧ V1.delayers resumed !! uri document = None
       ∧ V1.delayers finished !! uri document = None
       ∧ V1.diagnosticCollection finished !! uri document
         = stored result (V1.diagnosticCollection resumed !! uri document))
  ∧ (∀ n ref other d task queued first result fsPath others,
       V1.running s !! n = Some (ref, other) →
       V1.objects s !! ref = Some d → pending d = Some task →
       throttler d = Busy queued → V1.task_document task = document →
       V1.workspaceFolders s = Some (fsPath :: others) →
       let waiting := V1.handle normalize closed (V1.TimerElapsed ref) in
       let resumed := V1.handle normalize waiting (V1.RunFinished n first) in
       let finished :=
         V1.handle normalize resumed
           (V1.RunFinished (length (V1.running s) - 1) result) in
       V1.running waiting = V1.running s
       ∧ V1.running resumed = delete n (V1.running s) ++ [(ref, document)]
       ∧ V1.delayers finished !! uri document = None
       ∧ V1.diagnosticCollection finished !! uri document
         = stored result (V1.diagnosticCollection resumed !! uri document)).
Proof.
  intros closed stored.
  assert (Hd : V1.delayers closed !! uri document = None) by apply lookup_delete_eq.
  assert (Hg : V1.diagnosticCollection closed !! uri document = None)
    by apply lookup_delete_eq.
  split; [repeat split; auto|]. split; [|split; [|split]].
  - intros n ref result Hn finished. subst finished.
    destruct (runFinished_document normalize closed n ref document result Hn) as [-> ->].
    split; [exact Hd|]. unfold stored. destruct (V1.lines result) as [[|l ls]|]; auto.
  - intros ref d task result fsPath others Ho Hp <- Hidle Hw started finished.
    destruct (timer_starts_pending normalize closed ref d task fsPath others Ho Hp Hidle Hw)
      as (Hrun & Htab & Hdiag & Hlin).
    fold started in Hrun, Htab, Hdiag, Hlin.
    assert (Hn : V1.running started !! length (V1.running s)
                 = Some (ref, V1.task_document task)).
    { rewrite Hrun. change (V1.running closed) with (V1.running s).
      rewrite lookup_app_r, Nat.sub_diag by lia. reflexivity. }
    subst finished.
    destruct (runFinished_document normalize started _ ref _ result Hn) as [-> ->].
    rewrite Htab, Hdiag, Hlin. unfold stored.
    repeat split; auto. destruct (V1.lines result) as [[|l ls]|]; auto.
  - intros n ref other d task first result fsPath others Hn Ho Hq <- Hw resumed finished.
    destruct (finish_starts_queued normalize closed n ref other first d task fsPath others
                Hn Ho Hq Hw) as (Hrun & Hlin).
    destruct (runFinished_document normalize closed n ref other first Hn) as [Htab _].
    fold resumed in Hrun, Hlin, Htab.
    change (V1.running closed) with (V1.running s) in Hrun.
    assert (Hm : V1.running resumed !! (length (V1.running s) - 1)
                 = Some (ref, V1.task_document task)).
    { rewrite Hrun. rewrite lookup_app_r by (rewrite length_delete; eauto; lia).
      rewrite length_delete by eauto. rewrite Nat.sub_diag. reflexivity. }
    subst finished.
    destruct (runFinished_document normalize resumed _ ref _ result Hm) as [-> ->].
    rewrite Htab, Hlin. repeat split; auto.
  - intros n ref other d task queued first result fsPath others Hn Ho Hp Hq <- Hw
      waiting resumed finished.
    destruct (timer_queues_pending normalize closed ref d task queued Ho Hp Hq)
      as (d' & Ho' & Hq' & Hrun' & Htab' & _ & Hw' & Hlin').
    fold waiting in Ho', Hrun', Htab', Hw', Hlin'.
    change (V1.running closed) with (V1.running s) in Hrun'.
    change (V1.workspaceFolders closed) with (V1.workspaceFolders s) in Hw'.
    change (V1.linter closed) with (V1.linter s) in Hlin'.
    assert (Hn' : V1.running waiting !! n = Some (ref, other)) by (rewrite Hrun'; exact Hn).
    assert (Hw'' : V1.workspaceFolders waiting = Some (fsPath :: others))
      by (rewrite Hw'; exact Hw).
    destruct (finish_starts_queued normalize waiting n ref other first d' task fsPath others
                Hn' Ho' Hq' Hw'') as (Hrun & Hlin).
    destruct (runFinished_document normalize waiting n ref other first Hn') as [Htab _].
    fold resumed in Hrun, Hlin, Htab. rewrite Hrun' in Hrun.
    assert (Hm : V1.running resumed !! (length (V1.running s) - 1)
                 = Some (ref, V1.task_document task)).
    { rewrite Hrun. rewrite lookup_app_r by (rewrite length_delete; eauto; lia).
      rewrite length_delete by eauto. rewrite Nat.sub_diag. reflexivity. }
    subst finished.
    destruct (runFinished_document normalize resumed _ ref _ result Hm) as [-> ->].
    rewrite Htab, Htab', Hlin, Hlin'. repeat split; auto.
Qed.

Lemma close_then_completion_witness :
  let s := V1.run id (Samples.activated "onSave") Samples.analysed in
  let closed := V1.handle id s (V1.DidCloseTextDocument Samples.query) in
  let opened := V1.handle id (Samples.activated "onSave")
                  (V1.DidOpenTextDocument Samples.query) in
  let queued := V1.run id opened [V1.DidCloseTextDocument Samples.query;
                                  V1.TimerElapsed 0] in
  V1.diagnosticCollection
    (V1.handle id closed (V1.RunFinished 0 {| V1.succeeded := true; V1.lines := Some [] |}))
    !! uri Samples.query = None
  ∧ V1.running queued = [(0, Samples.query)]
  ∧ V1.diagnosticCollection
      (V1.handle id queued (V1.RunFinished 0 (Samples.violations "L010")))
      !! uri Samples.query = Some ["L010"].
Proof.
  intros s closed opened queued. split.
  - destruct (close_then_completion id s Samples.query) as (_ & Hflight & _).
    destruct (Hflight 0 0 {| V1.succeeded := true; V1.lines := Some [] |} eq_refl)
      as [_ H].
    exact H.
  - destruct (close_then_completion id opened Samples.query) as (_ & _ & Hpending & _).
    destruct (Hpending 0
                (delayer_trigger {| V1.task_document := Samples.query;
                                    V1.task_currentDocument := false |} (delayer_new 0))
                {| V1.task_document := Samples.query; V1.task_currentDocument := false |}
                (Samples.violations "L010") "/w" []
                eq_refl eq_refl eq_refl eq_refl eq_refl)
      as (Hrun & _ & _ & _ & Hdiag).
    split; [exact Hrun | exact Hdiag].
Defined.

(** C1 as stated fails: the analysis that runs when the document is
    closed stores the diagnostics of the document again when it
    finishes with output; so does one whose delayer had not started it
    yet, since the timer of a delayer that left the table still elapses. *)
Lemma completion_recreates_entry :
  let s := V1.run id (Samples.activated "onSave") Samples.analysed in
  let closed := V1.handle id s (V1.DidCloseTextDocument Samples.query) in
  let queued := V1.run id (Samples.activated "onSave") Samples.closed_early in
  analyses_of Samples.query s = 1
  ∧ V1.diagnosticCollection closed !! uri Samples.query = None
  ∧ V1.diagnosticCollection
      (V1.handle id closed (V1.RunFinished 0 (Samples.violations "L010")))
      !! uri Samples.query = Some ["L010"]
  ∧ V1.diagnosticCollection queued !! uri Samples.query = None
  ∧ V1.diagnosticCollection
      (V1.handle id queued (V1.RunFinished 0 (Samples.violations "L010")))
      !! uri Samples.query = Some ["L010"].
Proof. vm_compute. repeat split; reflexivity. Qed.

(** ** One analysis per delayer *)

Lemma loadConfiguration_settings {Diagnostic} (s : V1.State (Diagnostic := Diagnostic)) :
  V1.linter (V1.loadConfiguration s) = V1.linter s
  ∧ V1.executableNotFound (V1.loadConfiguration s) = V1.executableNotFound s
  ∧ V1.configuration (V1.loadConfiguration s) = V1.configuration s.
Proof.
  unfold V1.loadConfiguration, V1.lintProject, V1.subscribe; destruct s; cbn.
  repeat (case_match; cbn); auto.
Qed.

(** A trigger that passes the gate for a document without delayer in
    the table enters a new one, the next of the delayers created. *)
Lemma triggerLint_fresh {Diagnostic} (s : V1.State (Diagnostic := Diagnostic))
    document forceLint currentDocument :
  V1.delayers s !! uri document = None →
  includes (linter_languageId (V1.linter s)) (languageId document) = true →
  V1.executableNotFound s = false →
  V1.runTrigger (V1.configuration s) ≠ V1.RunTrigger_off ∨ forceLint = true →
  V1.delayers (V1.triggerLint document forceLint currentDocument s) !! uri document
  = Some (length (V1.objects s))
  ∧ V1.running (V1.triggerLint document forceLint currentDocument s) = V1.running s.
Proof.
  intros Hk Hl Hf Hmode. unfold V1.triggerLint. rewrite Hl, Hf. simpl.
  assert (Hg : String.eqb (V1.runTrigger (V1.configuration s)) V1.RunTrigger_off
               && negb forceLint = false).
  { destruct Hmode as [Hne| ->]; [|apply andb_false_r].
    apply String.eqb_neq in Hne. rewrite Hne. reflexivity. }
  rewrite Hg, Hk. simpl. rewrite lookup_insert_eq. auto.
Qed.


(** C3, as the code has it for the current provider, with the delayer
    as the spec describes it.  In every state the provider reaches, a
    delayer has at most one analysis outstanding.  While it has one,
    the elapsing of its timer starts nothing: the pending task is
    queued in the throttler.  When the outstanding analysis finishes
    and a task is queued, that task starts then, and it is again the
    only one of its delayer.  The bound is on a delayer, not on a
    document: loading the configuration empties the table while the
    analyses run on, so that the next trigger of a document enters a
    new delayer, with nothing outstanding, beside the analyses of the
    document that still run. *)
Theorem one_analysis_per_delayer {Diagnostic} (normalize : string → string)
    (s : V1.State (Diagnostic := Diagnostic)) :
  reachable normalize s →
  (∀ ref, (outstanding ref s ≤ 1)%nat)
  ∧ (∀ ref d task,
       V1.objects s !! ref = Some d → pending d = Some task → outstanding ref s = 1 →
       let s' := V1.handle normalize s (V1.TimerElapsed ref) in
       V1.invocations s' = V1.invocations s
       ∧ V1.running s' = V1.running s
       ∧ throttler <$> V1.objects s' !! ref = Some (Busy (Some task)))
  ∧ (∀ n ref document result d task,
       V1.running s !! n = Some (ref, document) →
       V1.objects s !! ref = Some d → throttler d = Busy (Some task) →
       (∃ fsPath others, V1.workspaceFolders s = Some (fsPath :: others)) →
       let s' := V1.handle normalize s (V1.RunFinished n result) in
       length (V1.invocations s') = S (length (V1.invocations s))
       ∧ outstanding ref s' = 1)
  ∧ (∀ c document forceLint currentDocument,
       includes (linter_languageId (V1.linter s)) (languageId document) = true →
       V1.executableNotFound s = false →
       V1.runTrigger c ≠ V1.RunTrigger_off ∨ forceLint = true →
       let reloaded := V1.handle normalize s (V1.DidChangeConfiguration c) in
       let s' := V1.triggerLint document forceLint currentDocument reloaded in
       V1.delayers reloaded = ∅
       ∧ V1.running reloaded = V1.running s
       ∧ V1.delayers s' !! uri document = Some (length (V1.objects s))
       ∧ outstanding (length (V1.objects s)) s' = 0
       ∧ analyses_of document s' = analyses_of document s).
Proof.
  intros Hreach. pose proof (reachable_invariant normalize s Hreach) as [[Ht Hr] Hth].
  split; [|split; [|split]].
  - intros ref. destruct (V1.objects s !! ref) as [d|] eqn:Hd.
    + rewrite (Hth ref (throttler d)) by (rewrite list_lookup_fmap, Hd; reflexivity).
      destruct (throttler d); simpl; lia.
    + apply lookup_ge_None in Hd. unfold outstanding.
      rewrite filter_none_length; [lia|].
      intros x Hx Heq. apply Hr in Hx. lia.
  - intros ref d task Hd Hp Hone s'. subst s'. simpl. rewrite Hd.
    pose proof (Hth ref (throttler d)) as Hin.
    rewrite list_lookup_fmap, Hd, Hone in Hin. specialize (Hin eq_refl).
    unfold delayer_elapse. rewrite Hp.
    destruct (throttler d) as [|q]; simpl in *; [discriminate|].
    repeat split. rewrite list_lookup_insert_eq by (eapply lookup_lt_Some; eauto).
    reflexivity.
  - intros n ref document result d task Hn Hd Hq (fsPath & others & Hw) s'.
    assert (Hinv : invariant s')
      by (apply invariant_handle; split; [split|]; assumption).
    destruct Hinv as [_ Hth'].
    assert (Hs' : length (V1.invocations s') = S (length (V1.invocations s))
                  ∧ throttler <$> V1.objects s' !! ref = Some (Busy None)).
    { subst s'. unfold V1.handle. rewrite Hn.
      set (s1 := V1.set_running _ s).
      destruct (doLint_resume_fields document result s1)
        as (_ & Ho & _ & _ & _ & _ & Hi & Hf).
      change (V1.objects s1) with (V1.objects s) in Ho.
      change (V1.invocations s1) with (V1.invocations s) in Hi.
      change (V1.workspaceFolders s1) with (V1.workspaceFolders s) in Hf.
      rewrite Ho, Hd. unfold delayer_settle. rewrite Hq. cbn [fst snd].
      unfold V1.start, V1.doLint. cbn [V1.workspaceFolders V1.set_objects].
      rewrite Hf, Hw. cbn [first_folder].
      cbn [V1.invocations V1.objects V1.set_running V1.set_invocations V1.set_objects].
      rewrite length_app, Hi.
      rewrite list_lookup_insert_eq by (eapply lookup_lt_Some; eauto).
      split; [simpl; lia | reflexivity]. }
    destruct Hs' as [Hlen Hbusy]. split; [exact Hlen|].
    rewrite (Hth' ref (Busy None)); [reflexivity|].
    rewrite list_lookup_fmap. exact Hbusy.
  - intros c document forceLint currentDocument Hl Hf Hmode reloaded s'.
    assert (Htab : V1.delayers reloaded = ∅) by apply loadConfiguration_delayers.
    assert (Hrun : V1.running reloaded = V1.running s)
      by apply (loadConfiguration_running (V1.set_configuration c s)).
    assert (Hobj : V1.objects reloaded = V1.objects s)
      by apply (loadConfiguration_objects (V1.set_configuration c s)).
    destruct (loadConfiguration_settings (V1.set_configuration c s)) as (Hlin & Hflag & Hcfg).
    change (V1.linter reloaded = V1.linter s) in Hlin.
    change (V1.executableNotFound reloaded = V1.executableNotFound s) in Hflag.
    change (V1.configuration reloaded = c) in Hcfg.
    destruct (triggerLint_fresh reloaded document forceLint currentDocument)
      as [Hnew Hsame].
    { rewrite Htab. apply lookup_empty. }
    { rewrite Hlin. exact Hl. }
    { rewrite Hflag. exact Hf. }
    { rewrite Hcfg. exact Hmode. }
    fold s' in Hnew, Hsame. rewrite Hobj in Hnew.
    split; [exact Htab|]. split; [exact Hrun|]. split; [exact Hnew|].
    unfold outstanding, analyses_of. rewrite Hsame, Hrun. split; [|reflexivity].
    apply filter_none_length. intros x Hx Heq. apply Hr in Hx. lia.
Qed.

Lemma one_analysis_per_delayer_witness :
  let s := V1.run id (Samples.activated "onSave") Samples.analysed_twice in
  let running := V1.run id (Samples.activated "onSave") Samples.analysed in
  let s' := V1.triggerLint Samples.query false false
              (V1.handle id running (V1.DidChangeConfiguration (Samples.settings "onSave"))) in
  (outstanding 0 s ≤ 1)%nat ∧ (outstanding 1 s ≤ 1)%nat
  ∧ V1.delayers s' !! uri Samples.query = Some 1
  ∧ outstanding 1 s' = 0
  ∧ analyses_of Samples.query s' = analyses_of Samples.query running.
Proof.
  intros s running s'.
  assert (Hr : reachable id s).
  { exists Samples.sql_linter, (Samples.settings "onSave"), Samples.folders,
      Samples.analysed_twice. reflexivity. }
  assert (Hr' : reachable id running).
  { exists Samples.sql_linter, (Samples.settings "onSave"), Samples.folders,
      Samples.analysed. reflexivity. }
  destruct (one_analysis_per_delayer id s Hr) as (H & _ & _).
  destruct (one_analysis_per_delayer id running Hr') as (_ & _ & _ & Hreset).
  destruct (Hreset (Samples.settings "onSave") Samples.query false false
              eq_refl eq_refl) as (_ & _ & Hnew & Hnone & Hsame).
  { left. discriminate. }
  split; [apply H|]. split; [apply H|]. split; [exact Hnew|]. split; [exact Hnone|].
  exact Hsame.
Defined.

(** C3 as stated fails for a document: the delayer table is emptied
    when the configuration is loaded, so a document that is being
    analysed gets a new delayer at its next trigger and a second
    analysis of it starts beside the first.  When the second finishes
    first, the diagnostics of the first, which was triggered earlier,
    replace its result. *)
Lemma two_analyses_of_one_document :
  let s := V1.run id (Samples.activated "onSave") Samples.analysed_twice in
  let s' := V1.run id s [V1.RunFinished 1 (Samples.violations "newer");
                         V1.RunFinished 0 (Samples.violations "older")] in
  analyses_of Samples.query s = 2
  ∧ V1.diagnosticCollection (V1.handle id s (V1.RunFinished 1 (Samples.violations "newer")))
      !! uri Samples.query = Some ["newer"]
  ∧ V1.diagnosticCollection s' !! uri Samples.query = Some ["older"].
Proof. vm_compute. repeat split; reflexivity. Qed.

(** ** The result of a run *)

(** C6, as the code has it.  A result that is not succeeded is logged
    and a succeeded one is not.  Apart from that the flag plays no
    part: a result without output lines, absent or empty, leaves the
    stored diagnostics as they were, and a result with at least one
    line replaces the diagnostics of the document by the parsed lines,
    succeeded or not.  In the spawning provider the end of the output
    always stores an entry for the document, the empty one when no
    line was decoded. *)
Theorem run_result_diagnostics {Diagnostic}
    (s : V1.State (Diagnostic := Diagnostic)) (document : TextDocument)
    (result : V1.RunResult) :
  let s' := V1.doLint_resume document result s in
  (V1.succeeded result = false →
   V1.outputChannel s' = V1.outputChannel s ++ ["Linting command failed to execute"])
  ∧ (V1.succeeded result = true → V1.outputChannel s' = V1.outputChannel s)
  ∧ (V1.lines result = None ∨ V1.lines result = Some [] →
     V1.diagnosticCollection s' = V1.diagnosticCollection s)
  ∧ (∀ l ls, V1.lines result = Some (l :: ls) →
     V1.diagnosticCollection s' =
     <[uri document := process (V1.linter s) (l :: ls)]> (V1.diagnosticCollection s))
  ∧ (∀ (t : V2.State (Diagnostic := Diagnostic)) child d,
       V2.diagnosticCollection (V2.onEndEvent child d t) !! uri (V2.child_document child) =
       Some match getLines (decoder_end d) with
            | [] => []
            | l :: ls => process (V2.linter t) (l :: ls)
            end).
Proof.
  intros s'. subst s'. unfold V1.doLint_resume. repeat split.
  - intros ->. simpl. destruct (V1.lines result) as [[|]|]; reflexivity.
  - intros ->. simpl. destruct (V1.lines result) as [[|]|]; reflexivity.
  - intros [-> | ->]; destruct (negb _); reflexivity.
  - intros l ls ->. destruct (negb _); reflexivity.
  - intros t child d. unfold V2.onEndEvent. simpl. rewrite lookup_insert_eq.
    destruct (getLines (decoder_end d)); reflexivity.
Qed.

Lemma run_result_diagnostics_witness :
  let failed := {| V1.succeeded := false; V1.lines := None |} in
  let s' := V1.doLint_resume Samples.query failed Samples.diagnosed in
  V1.outputChannel s' = ["Linting command failed to execute"]
  ∧ V1.diagnosticCollection s' = V1.diagnosticCollection Samples.diagnosed.
Proof.
  intros failed s'.
  destruct (run_result_diagnostics Samples.diagnosed Samples.query failed)
    as (Hlog & _ & Hkeep & _).
  split; [apply Hlog; reflexivity | apply Hkeep; left; reflexivity].
Defined.

(** C6 as stated fails: a run that is not succeeded and has output is
    logged as failed and replaces the stored diagnostics all the same. *)
Lemma failed_run_replaces_diagnostics :
  let s' := V1.doLint_resume Samples.query Samples.failed_with_output Samples.diagnosed in
  V1.succeeded Samples.failed_with_output = false
  ∧ V1.diagnosticCollection Samples.diagnosed !! uri Samples.query = Some ["L003"]
  ∧ V1.outputChannel s' = ["Linting command failed to execute"]
  ∧ V1.diagnosticCollection s' !! uri Samples.query = Some ["L010"].
Proof. vm_compute. repeat split; reflexivity. Qed.

(** ** Exceptions of [doLint] *)

(** C9 fails where no workspace folder is open: [workspaceFolders] is
    [undefined] (or empty), [doLint] throws at [workspaceFolders[0]]
    and its promise is rejected; the delayer receives the rejection in
    place of a result.  The executor of the spawning provider throws at
    the same expression. *)
Theorem doLint_rejects_without_folder :
  let s := V1.activate Samples.sql_linter (Samples.settings "onSave") None in
  let empty := V1.activate Samples.sql_linter (Samples.settings "onSave") (Some []) in
  let t := V2.handle (Samples.spawning "onSave") (V2.DidChangeWorkspaceFolders None) in
  V1.doLint id Samples.query false s
  = Thrown "TypeError: Cannot read properties of undefined (reading '0')"
  ∧ V1.rejections (V1.run id s Samples.analysed)
    = ["TypeError: Cannot read properties of undefined (reading '0')"]
  ∧ V1.invocations (V1.run id s Samples.analysed) = []
  ∧ V1.rejections (V1.run id empty Samples.analysed)
    = ["TypeError: Cannot read properties of undefined (reading 'uri')"]
  ∧ V2.doLint Samples.query (Some 1) t
    = V2.Raised "TypeError: Cannot read properties of undefined (reading '0')" t.
Proof. vm_compute. repeat split; reflexivity. Qed.

(** ** Listeners *)

(** C8 fails on the listeners.  [loadConfiguration] keeps the
    disposable of the last listener it registers only, the one for
    saves, so the listener for changes registered under [onType] is
    never disposed: after the trigger is set to [onSave] it is still
    active and a change of a document still schedules an analysis.
    The delayer table of the current provider is empty after the call;
    the spawning provider has filled it again by then for the open
    documents, and under [onSave] registers two listeners for saves and
    keeps one. *)
Theorem stale_change_listener :
  let s1 := Samples.activated "onType" in
  let s2 := V1.handle id s1 (V1.DidChangeConfiguration (Samples.settings "onSave")) in
  let t1 := Samples.spawning "onSave" in
  let t2 := V2.handle t1 (V2.DidChangeConfiguration None) in
  active_listeners OnDidChangeTextDocument (V1.listeners s1) = 1
  ∧ V1.runTrigger (V1.configuration s2) = "onSave"
  ∧ active_listeners OnDidChangeTextDocument (V1.listeners s2) = 1
  ∧ active_listeners OnDidSaveTextDocument (V1.listeners s2) = 1
  ∧ V1.delayers s2 = ∅
  ∧ V1.delayers (V1.handle id s2 (V1.DidChangeTextDocument Samples.query))
      !! uri Samples.query = Some 0
  ∧ active_listeners OnDidSaveTextDocument (V2.listeners t1) = 2
  ∧ active_listeners OnDidSaveTextDocument (V2.listeners t2) = 3
  ∧ V2.delayers t2 !! uri Samples.query = Some 1.
Proof. vm_compute. repeat split; reflexivity. Qed.

(** ** The executable-missing flag *)

Section Flag.

Context {Diagnostic : Type}.

Implicit Types (s : V1.State (Diagnostic := Diagnostic))
               (t : V2.State (Diagnostic := Diagnostic)).

Lemma triggerLint_stable document t :
  V2.executableNotFound (result_state (V2.triggerLint document t)) = V2.executableNotFound t
  ∧ V2.linterConfiguration (result_state (V2.triggerLint document t))
    = V2.linterConfiguration t.
Proof.
  unfold V2.triggerLint. destruct (_ || _); [auto|].
  destruct (V2.linterConfiguration t) as [lc|] eqn:Hlc; [|simpl; auto].
  destruct (bool_decide _); [simpl; auto|].
  destruct (V2.delayers t !! uri document); simpl; auto.
Qed.

Lemma forEach_triggerLint_stable documents t :
  V2.executableNotFound (result_state (V2.forEach V2.triggerLint documents t))
  = V2.executableNotFound t
  ∧ V2.linterConfiguration (result_state (V2.forEach V2.triggerLint documents t))
    = V2.linterConfiguration t.
Proof.
  revert t; induction documents as [|d documents IH]; intros t; simpl; [auto|].
  pose proof (triggerLint_stable d t) as [Hf Hc].
  destruct (V2.triggerLint d t) as [t'|e t']; simpl in *; [|auto].
  destruct (IH t') as [Hf' Hc']. split; congruence.
Qed.

Lemma absorb_stable (r : V2.Result (Diagnostic := Diagnostic)) :
  V2.executableNotFound (V2.absorb r) = V2.executableNotFound (result_state r)
  ∧ V2.linterConfiguration (V2.absorb r) = V2.linterConfiguration (result_state r).
Proof. destruct r; simpl; auto. Qed.

Lemma triggerLint_suppressed document t :
  V2.executableNotFound t = true → V2.triggerLint document t = V2.Done t.
Proof. intros H. unfold V2.triggerLint. rewrite H, orb_true_r. reflexivity. Qed.

Lemma iter_triggerLint_suppressed n document t :
  V2.executableNotFound t = true →
  Nat.iter n (λ t, V2.absorb (V2.triggerLint document t)) t = t.
Proof.
  intros H. induction n as [|n IH]; simpl; [reflexivity|].
  rewrite IH, triggerLint_suppressed by exact H. reflexivity.
Qed.

Lemma start_flag ref document spawned t :
  V2.executableNotFound (V2.start ref document spawned t) = V2.executableNotFound t.
Proof.
  unfold V2.start, V2.doLint.
  destruct (first_folder _); [|reflexivity].
  destruct (V2.linterConfiguration t); reflexivity.
Qed.

Lemma handle_keeps_flag t e :
  V2.executableNotFound t = true →
  (∀ config, e ≠ V2.DidChangeConfiguration config) →
  V2.executableNotFound (V2.handle t e) = true.
Proof.
  intros H Hne. destruct e; simpl.
  - destruct (Hne config); reflexivity.
  - exact H.
  - rewrite triggerLint_suppressed by exact H. exact H.
  - exact H.
  - rewrite iter_triggerLint_suppressed by exact H. exact H.
  - rewrite iter_triggerLint_suppressed by exact H. exact H.
  - destruct (V2.objects t !! ref); [|exact H].
    destruct ((delayer_elapse _).2); [rewrite start_flag|]; exact H.
  - destruct (V2.children t !! n); [|exact H]. unfold V2.onError. rewrite H. exact H.
  - destruct (V2.children t !! n); [|exact H]. destruct (_ && _); exact H.
  - destruct (V2.children t !! n); [|exact H]. destruct (_ && _); exact H.
Qed.

Lemma loadConfiguration_flag config t :
  V2.executableNotFound t = true →
  let t' := V2.handle t (V2.DidChangeConfiguration config) in
  V2.executableNotFound t' = true
  ↔ V2.executable <$> V2.linterConfiguration t' = V2.executable <$> V2.linterConfiguration t.
Proof.
  intros H t'. subst t'. simpl.
  destruct (absorb_stable (V2.loadConfiguration config t)) as [-> ->].
  unfold V2.loadConfiguration.
  destruct config as [c|], (V2.linterConfiguration t) as [old|] eqn:Hold; cbn;
    rewrite ?H, ?Hold; cbn;
    try match goal with |- context [V2.forEach V2.triggerLint ?ds ?u] =>
      destruct (forEach_triggerLint_stable ds u) as [-> ->] end;
    try (destruct (bool_decide _), (V2.documentListener t); cbn; rewrite ?Hold; cbn).
  all: try (rewrite String.eqb_eq; split; congruence).
  all: try (split; [discriminate | intros [= ]]).
  rewrite H, Hold. tauto.
Qed.

Lemma V1_flag_constant normalize s e :
  V1.executableNotFound (V1.handle normalize s e) = V1.executableNotFound s.
Proof.
  assert (Htrig : ∀ d f c s, V1.executableNotFound (V1.triggerLint d f c s)
                             = V1.executableNotFound s).
  { intros d f c u. unfold V1.triggerLint. destruct (_ || _ || _); [reflexivity|].
    destruct (V1.delayers u !! uri d); reflexivity. }
  assert (Hiter : ∀ n d f c s, V1.executableNotFound (Nat.iter n (V1.triggerLint d f c) s)
                               = V1.executableNotFound s).
  { intros n d f c u. induction n; simpl; [reflexivity|]. rewrite Htrig. assumption. }
  destruct e; simpl; auto.
  - unfold V1.loadConfiguration, V1.lintProject, V1.subscribe; destruct s; cbn.
    repeat (case_match; cbn); reflexivity.
  - destruct (V1.searches s !! n) as [[? ?]|]; reflexivity.
  - destruct (V1.opening s !! n) as [[? ?]|]; [|reflexivity]. rewrite Htrig. reflexivity.
  - destruct (V1.objects s !! ref); [|reflexivity].
    destruct ((delayer_elapse _).2); [|reflexivity].
    rewrite (proj1 (proj2 (proj2 (start_tables _ _ _ _)))). reflexivity.
  - destruct (V1.running s !! n) as [[ref document]|]; [|reflexivity].
    set (s1 := V1.set_running _ s).
    assert (Hs1 : V1.executableNotFound (V1.doLint_resume document result s1)
                  = V1.executableNotFound s)
      by (rewrite (proj1 (proj2 (proj2 (proj2 (proj2
            (doLint_resume_fields document result s1)))))); reflexivity).
    destruct (V1.objects _ !! ref); [|exact Hs1].
    destruct ((delayer_settle _).2); [|exact Hs1].
    rewrite (proj1 (proj2 (proj2 (start_tables _ _ _ _)))). exact Hs1.
Qed.

End Flag.

(** C5.  Once the executable-missing flag of the spawning provider is
    set, no event other than a change of configuration clears it, and
    triggers schedule nothing.  The change of configuration leaves it
    set exactly when the executable of the configuration in force
    afterwards is the one in force before.  The current provider never
    sets its flag. *)
Theorem flag_cleared_by_configuration_only {Diagnostic} (normalize : string → string)
    (t : V2.State (Diagnostic := Diagnostic)) :
  V2.executableNotFound t = true →
  (∀ e, (∀ config, e ≠ V2.DidChangeConfiguration config) →
        V2.executableNotFound (V2.handle t e) = true)
  ∧ (∀ config,
       let t' := V2.handle t (V2.DidChangeConfiguration config) in
       V2.executableNotFound t' = true
       ↔ V2.executable <$> V2.linterConfiguration t'
         = V2.executable <$> V2.linterConfiguration t)
  ∧ (∀ document, V2.triggerLint document t = V2.Done t)
  ∧ (∀ s : V1.State (Diagnostic := Diagnostic),
       reachable normalize s → V1.executableNotFound s = false).
Proof.
  intros H. repeat split.
  - intros e Hne. apply handle_keeps_flag; assumption.
  - apply (loadConfiguration_flag config t H).
  - apply (loadConfiguration_flag config t H).
  - intros document. apply triggerLint_suppressed, H.
  - intros s (l & c & folders & events & ->). unfold V1.run.
    assert (H0 : V1.executableNotFound (V1.activate l c folders) = false).
    { unfold V1.activate, V1.loadConfiguration, V1.lintProject, V1.subscribe. cbn.
      repeat (case_match; cbn); reflexivity. }
    revert H0. generalize (V1.activate l c folders).
    induction events as [|e events IH]; intros s0 H0; simpl; [exact H0|].
    apply IH. rewrite V1_flag_constant. exact H0.
Qed.

Lemma flag_cleared_by_configuration_only_witness :
  V2.executableNotFound Samples.missing = true
  ∧ V2.executableNotFound (V2.handle Samples.missing (V2.DidSaveTextDocument Samples.query))
    = true
  ∧ V2.executableNotFound
      (V2.handle Samples.missing
         (V2.DidChangeConfiguration (Some (Samples.spawn_settings "onType")))) = true
  ∧ V2.executableNotFound
      (V2.handle Samples.missing (V2.DidChangeConfiguration (Some Samples.relocated)))
    ≠ true.
Proof.
  destruct (flag_cleared_by_configuration_only id Samples.missing eq_refl)
    as (Hkeep & Hconfig & _ & _).
  split; [reflexivity|]. split; [|split].
  - apply Hkeep. intros config. discriminate.
  - apply (Hconfig (Some (Samples.spawn_settings "onType"))). reflexivity.
  - intros Hset. apply (Hconfig (Some Samples.relocated)) in Hset.
    vm_compute in Hset. discriminate.
Defined.

(** C2, as the code has it.  A spawn error that arrives while the flag
    is unset sets the flag and shows one message, whatever its code:
    the not-found text for [ENOENT], otherwise the message of the error
    or, when that is empty, a text that names the executable.  An
    error that arrives while the flag is set changes nothing.  After
    an error of either kind a trigger schedules nothing. *)
Theorem spawn_error_sets_flag {Diagnostic} (t : V2.State (Diagnostic := Diagnostic))
    (n : nat) (child : V2.ChildProcess) (code message : string) :
  V2.children t !! n = Some child →
  let t' := V2.handle t (V2.ChildError n code message) in
  (V2.executableNotFound t = false →
   V2.executableNotFound t' = true
   ∧ V2.messages t' =
       V2.messages t ++
         [if String.eqb code "ENOENT"
          then V2.not_found_message (fileName (V2.child_document child))
          else if String.eqb message ""
               then V2.unknown_reason_message (V2.child_executable child)
               else message])
  ∧ (V2.executableNotFound t = true → t' = t)
  ∧ (∀ document, V2.triggerLint document t' = V2.Done t').
Proof.
  intros Hn t'. subst t'. simpl. rewrite Hn. unfold V2.onError, V2.error_message.
  split; [|split].
  - intros Hunset. rewrite Hunset. split; reflexivity.
  - intros Hset. rewrite Hset. reflexivity.
  - intros document. apply triggerLint_suppressed.
    destruct (V2.executableNotFound t) eqn:Hf; [exact Hf | reflexivity].
Qed.

Lemma spawn_error_sets_flag_witness :
  V2.executableNotFound Samples.missing = true
  ∧ V2.messages Samples.missing = [V2.not_found_message "/w/query.sql"].
Proof.
  destruct (spawn_error_sets_flag Samples.spawn_failed 0
              {| V2.child_document := Samples.query; V2.child_executable := "sqlfluff";
                 V2.child_args := ["lint"; "/w/query.sql"];
                 V2.child_options := Some {| V2.cwd := "/w"; V2.env_LANG := "en_US.utf-8" |};
                 V2.pid := None; V2.stdin := None; V2.decoder := decoder_new;
                 V2.ended := false |}
              "ENOENT" "spawn sqlfluff ENOENT" eq_refl) as (Hset & _ & _).
  destruct (Hset eq_refl) as [Hflag Hmsg].
  split; [exact Hflag | exact Hmsg].
Defined.

(** C2 as stated fails: a spawn error other than "not found" sets the
    flag as well; the triggers that follow schedule nothing and a
    second error of the kind shows no message. *)
Lemma other_spawn_error_sets_flag :
  let t' := V2.handle Samples.spawn_failed
              (V2.ChildError 0 "EACCES" "spawn sqlfluff EACCES") in
  V2.executableNotFound Samples.spawn_failed = false
  ∧ "EACCES" ≠ "ENOENT"
  ∧ V2.executableNotFound t' = true
  ∧ V2.messages t' = ["spawn sqlfluff EACCES"]
  ∧ V2.triggerLint Samples.query t' = V2.Done t'
  ∧ V2.messages (V2.handle t' (V2.ChildError 0 "EACCES" "spawn sqlfluff EACCES"))
    = ["spawn sqlfluff EACCES"].
Proof. repeat split; try discriminate; vm_compute; reflexivity. Qed.

(** * Further properties *)

(** ** The paths [fileRegex] accepts *)

Lemma matches_star_dot s : matches (Star Dot) s ↔ plain s = true.
Proof.
  split.
  - intros H. remember (Star Dot) as r eqn:Hr.
    induction H as [| | | | | | |r s1 s2 H1 _ H2 IH2]; try discriminate; [reflexivity|].
    injection Hr as ->. inversion H1 as [| |c Hc| | | | |]; subst.
    simpl. rewrite Hc. simpl. apply IH2. reflexivity.
  - induction s as [|c s IH]; simpl; intros H; [constructor|].
    apply andb_true_iff in H as [Hc Hs]. apply negb_true_iff in Hc.
    change (String c s) with (String c "" +:+ s).
    constructor; [constructor; exact Hc | apply IH; exact Hs].
Qed.

Lemma matches_lit_self w : matches (lit w) w.
Proof.
  induction w as [|c w IH]; simpl; [constructor|].
  change (String c w) with (String c "" +:+ w). constructor; [constructor | exact IH].
Qed.

(** X1. [fileRegex] accepts a path exactly when the path is a stem
    without line terminator followed by a dot and one of the three
    extensions, spelled in lower case as in the expression: the stem
    may be empty and may itself contain dots, and nothing may follow
    the extension. *)
Theorem fileRegex_exact (path : string) :
  regex_test fileRegex path = true
  ↔ ∃ stem ext,
      path = stem +:+ ("." +:+ ext)
      ∧ plain stem = true
      ∧ (ext = "sql" ∨ ext = "sql-bigquery" ∨ ext = "jinja-sql").
Proof.
  rewrite regex_test_matches. unfold fileRegex. split.
  - intros H. inversion H as [| | |r1 r2 stem rest Hstem H2| | | |]; subst.
    inversion H2 as [| | |r1 r2 dot ext Hdot Hext| | | |]; subst.
    inversion Hdot; subst. apply matches_star_dot in Hstem.
    exists stem, ext. split; [reflexivity|]. split; [exact Hstem|].
    inversion Hext as [| | | |? ? ? Hl|? ? ? Hr| |]; subst.
    + left. apply (matches_lit "sql"). exact Hl.
    + inversion Hr as [| | | |? ? ? Hl|? ? ? Hr'| |]; subst.
      * right; left. apply (matches_lit "sql-bigquery"). exact Hl.
      * right; right. apply (matches_lit "jinja-sql"). exact Hr'.
  - intros (stem & ext & -> & Hstem & Hext).
    constructor; [apply matches_star_dot; exact Hstem|].
    constructor; [constructor|].
    destruct Hext as [-> | [-> | ->]].
    + apply m_alt_l. apply (matches_lit_self "sql").
    + apply m_alt_r, m_alt_l. apply (matches_lit_self "sql-bigquery").
    + apply m_alt_r, m_alt_r. apply (matches_lit_self "jinja-sql").
Qed.

(** ** The trigger of the spawning provider *)

(** X2. [RunTrigger.from] reads back the three names of
    [RunTrigger.strings]; it gives [onType] and [onSave] for exactly
    these two strings and [off] for every other one, a misspelt or
    differently cased trigger included. *)
Theorem RunTrigger_from_strings :
  (∀ m, V2.RunTrigger_from (V2.RunTrigger_strings m) = m)
  ∧ (∀ value, V2.RunTrigger_from value = V2.onType ↔ value = "onType")
  ∧ (∀ value, V2.RunTrigger_from value = V2.onSave ↔ value = "onSave")
  ∧ (∀ value, V2.RunTrigger_from value = V2.off ↔ value ≠ "onType" ∧ value ≠ "onSave").
Proof.
  split; [intros []; reflexivity|].
  unfold V2.RunTrigger_from.
  split; [|split]; intros value;
    destruct (String.eqb_spec value "onType") as [->|H1]; simpl;
    try destruct (String.eqb_spec value "onSave") as [->|H2]; simpl;
    split; try discriminate; try tauto; try congruence.
  all: intros [? ?]; congruence.
Qed.

(** ** What the handlers of the current provider touch *)

Section Effects.

Context {Diagnostic : Type} (normalize : string → string).

Implicit Types s : V1.State (Diagnostic := Diagnostic).

Lemma triggerLint_frame document forceLint currentDocument s :
  editor_side (V1.triggerLint document forceLint currentDocument s) = editor_side s
  ∧ V1.diagnosticCollection (V1.triggerLint document forceLint currentDocument s)
    = V1.diagnosticCollection s
  ∧ V1.running (V1.triggerLint document forceLint currentDocument s) = V1.running s
  ∧ V1.invocations (V1.triggerLint document forceLint currentDocument s) = V1.invocations s
  ∧ V1.rejections (V1.triggerLint document forceLint currentDocument s) = V1.rejections s
  ∧ V1.outputChannel (V1.triggerLint document forceLint currentDocument s)
    = V1.outputChannel s.
Proof.
  unfold V1.triggerLint. destruct (_ || _ || _); [auto 10|].
  destruct (V1.delayers s !! uri document); simpl; auto 10.
Qed.

Lemma iter_invariant (P : V1.State (Diagnostic := Diagnostic) → Prop) f n s :
  (∀ s, P s → P (f s)) → P s → P (Nat.iter n f s).
Proof. intros Hf Hs. induction n; simpl; auto. Qed.

Lemma iter_triggerLint_frame n document forceLint currentDocument s :
  let s' := Nat.iter n (V1.triggerLint document forceLint currentDocument) s in
  editor_side s' = editor_side s
  ∧ V1.diagnosticCollection s' = V1.diagnosticCollection s
  ∧ V1.running s' = V1.running s
  ∧ V1.invocations s' = V1.invocations s
  ∧ V1.rejections s' = V1.rejections s
  ∧ V1.outputChannel s' = V1.outputChannel s.
Proof.
  induction n as [|n IH]; simpl; [auto 10|].
  destruct IH as (H1 & H2 & H3 & H4 & H5 & H6).
  destruct (triggerLint_frame document forceLint currentDocument
              (Nat.iter n (V1.triggerLint document forceLint currentDocument) s))
    as (G1 & G2 & G3 & G4 & G5 & G6).
  repeat split; congruence.
Qed.

Lemma start_frame ref task s :
  editor_side (V1.start normalize ref task s) = editor_side s
  ∧ V1.diagnosticCollection (V1.start normalize ref task s) = V1.diagnosticCollection s
  ∧ V1.delayers (V1.start normalize ref task s) = V1.delayers s
  ∧ V1.outputChannel (V1.start normalize ref task s) = V1.outputChannel s
  ∧ defaultDelay <$> V1.objects (V1.start normalize ref task s)
    = defaultDelay <$> V1.objects s.
Proof.
  unfold V1.start. destruct (V1.doLint _ _ _ _); simpl; repeat split.
  rewrite (list_fmap_alter defaultDelay _ id); [apply list_alter_id; auto|].
  apply Forall_forall. intros d _. unfold delayer_settle.
  destruct (throttler d) as [|[|]]; reflexivity.
Qed.

Lemma doLint_resume_frame document result s :
  editor_side (V1.doLint_resume document result s) = editor_side s
  ∧ V1.delayers (V1.doLint_resume document result s) = V1.delayers s
  ∧ V1.objects (V1.doLint_resume document result s) = V1.objects s
  ∧ V1.running (V1.doLint_resume document result s) = V1.running s
  ∧ V1.invocations (V1.doLint_resume document result s) = V1.invocations s
  ∧ V1.rejections (V1.doLint_resume document result s) = V1.rejections s.
Proof.
  unfold V1.doLint_resume.
  destruct (negb _), (V1.lines result) as [[|]|]; simpl; auto 10.
Qed.

Lemma loadConfiguration_frame s :
  V1.linter (V1.loadConfiguration s) = V1.linter s
  ∧ V1.configuration (V1.loadConfiguration s) = V1.configuration s
  ∧ V1.workspaceFolders (V1.loadConfiguration s) = V1.workspaceFolders s
  ∧ V1.diagnosticCollection (V1.loadConfiguration s) = V1.diagnosticCollection s
  ∧ V1.invocations (V1.loadConfiguration s) = V1.invocations s
  ∧ V1.rejections (V1.loadConfiguration s) = V1.rejections s
  ∧ V1.outputChannel (V1.loadConfiguration s) = V1.outputChannel s
  ∧ V1.opening (V1.loadConfiguration s) = V1.opening s.
Proof.
  unfold V1.loadConfiguration, V1.lintProject, V1.subscribe; destruct s; cbn.
  repeat (case_match; cbn); auto 10.
Qed.

(** The linter, the diagnostics and the table after one event. *)
Lemma handle_linter s e : V1.linter (V1.handle normalize s e) = V1.linter s.
Proof.
  destruct e; simpl.
  - destruct (loadConfiguration_frame (V1.set_configuration c s)) as (H & _). exact H.
  - reflexivity.
  - pose proof (triggerLint_frame textDocument false false s) as [H _].
    unfold editor_side in H. congruence.
  - reflexivity.
  - pose proof (iter_triggerLint_frame
                  (active_listeners OnDidSaveTextDocument (V1.listeners s))
                  textDocument false false s) as [H _].
    unfold editor_side in H. simpl in H. congruence.
  - pose proof (iter_triggerLint_frame
                  (active_listeners OnDidChangeTextDocument (V1.listeners s))
                  textDocument false true s) as [H _].
    unfold editor_side in H. simpl in H. congruence.
  - destruct (V1.searches s !! n) as [[? ?]|]; reflexivity.
  - destruct (V1.opening s !! n) as [[? force]|]; [|reflexivity].
    pose proof (triggerLint_frame document force false
                  (V1.set_opening (delete n (V1.opening s)) s)) as [H _].
    unfold editor_side in H. simpl in H. congruence.
  - destruct (V1.objects s !! ref) as [d|]; [|reflexivity].
    destruct ((delayer_elapse d).2) as [task|]; [|reflexivity].
    match goal with |- context [V1.start normalize ref task ?u] =>
      pose proof (start_frame ref task u) as [H _] end.
    unfold editor_side in H. simpl in H. congruence.
  - destruct (V1.running s !! n) as [[ref document]|]; [|reflexivity].
    set (s1 := V1.set_running _ s).
    pose proof (doLint_resume_frame document result s1) as [H1 _].
    unfold editor_side in H1. simpl in H1.
    destruct (V1.objects _ !! ref) as [d|]; [|congruence].
    destruct ((delayer_settle d).2) as [task|]; [|simpl; congruence].
    match goal with |- context [V1.start normalize ref task ?u] =>
      pose proof (start_frame ref task u) as [H _] end.
    unfold editor_side in H. simpl in H. congruence.
Qed.

Lemma handle_diagnostics s e :
  V1.diagnosticCollection (V1.handle normalize s e) =
  match e with
  | V1.DidCloseTextDocument textDocument =>
      delete (uri textDocument) (V1.diagnosticCollection s)
  | V1.RunFinished n result =>
      match V1.running s !! n with
      | Some (_, document) =>
          match V1.lines result with
          | Some (l :: ls) =>
              <[uri document := process (V1.linter s) (l :: ls)]> (V1.diagnosticCollection s)
          | _ => V1.diagnosticCollection s
          end
      | None => V1.diagnosticCollection s
      end
  | _ => V1.diagnosticCollection s
  end.
Proof.
  destruct e.
  - simpl. destruct (loadConfiguration_frame (V1.set_configuration c s))
      as (_ & _ & _ & H & _). exact H.
  - reflexivity.
  - simpl. apply triggerLint_frame.
  - reflexivity.
  - simpl. apply iter_triggerLint_frame.
  - simpl. apply iter_triggerLint_frame.
  - simpl. destruct (V1.searches s !! n) as [[? ?]|]; reflexivity.
  - simpl. destruct (V1.opening s !! n) as [[? force]|]; [|reflexivity].
    rewrite (proj1 (proj2 (triggerLint_frame _ _ _ _))). reflexivity.
  - simpl. destruct (V1.objects s !! ref) as [d|]; [|reflexivity].
    destruct ((delayer_elapse d).2) as [task|]; [|reflexivity].
    rewrite (proj1 (proj2 (start_frame _ _ _))). reflexivity.
  - destruct (V1.running s !! n) as [[ref document]|] eqn:Hn.
    + rewrite (proj2 (runFinished_tables normalize s n ref document result Hn)).
      apply doLint_resume_diagnostics.
    + simpl. rewrite Hn. reflexivity.
Qed.

End Effects.

Section Editor.

Context {Diagnostic : Type} (normalize : string → string).

Implicit Types s : V1.State (Diagnostic := Diagnostic).

Lemma reachable_ind (P : V1.State (Diagnostic := Diagnostic) → Prop) :
  (∀ l c folders, P (V1.activate l c folders)) →
  (∀ s e, reachable normalize s → P s → P (V1.handle normalize s e)) →
  ∀ s, reachable normalize s → P s.
Proof.
  intros H0 Hstep s (l & c & folders & events & ->).
  induction events as [|e events IH] using rev_ind; [apply H0|].
  unfold V1.run in *. rewrite fold_left_app. simpl.
  apply Hstep; [|exact IH]. exists l, c, folders, events. reflexivity.
Qed.

Lemma handle_editor_side s e :
  match e with
  | V1.DidChangeConfiguration _ | V1.DidChangeWorkspaceFolders _
  | V1.FilesFound _ _ | V1.DocumentOpened _ _ => True
  | _ => editor_side (V1.handle normalize s e) = editor_side s
  end.
Proof.
  destruct e; simpl; auto.
  - apply triggerLint_frame.
  - apply (iter_triggerLint_frame _ textDocument false false s).
  - apply (iter_triggerLint_frame _ textDocument false true s).
  - destruct (V1.objects s !! ref) as [d|]; [|reflexivity].
    destruct ((delayer_elapse d).2) as [task|]; [|reflexivity].
    match goal with |- context [V1.start normalize ref task ?u] =>
      destruct (start_frame normalize ref task u) as [H _] end.
    rewrite H. reflexivity.
  - destruct (V1.running s !! n) as [[ref document]|]; [|reflexivity].
    set (s1 := V1.set_running _ s).
    destruct (doLint_resume_frame document result s1) as [H1 _].
    change (editor_side s1) with (editor_side s) in H1.
    destruct (V1.objects _ !! ref) as [d|]; [|exact H1].
    destruct ((delayer_settle d).2) as [task|]; [|exact H1].
    match goal with |- context [V1.start normalize ref task ?u] =>
      destruct (start_frame normalize ref task u) as [H _] end.
    rewrite H. exact H1.
Qed.

Lemma handle_listeners s e :
  (∀ c, e ≠ V1.DidChangeConfiguration c) →
  V1.listeners (V1.handle normalize s e) = V1.listeners s
  ∧ V1.documentListener (V1.handle normalize s e) = V1.documentListener s
  ∧ V1.configuration (V1.handle normalize s e) = V1.configuration s.
Proof.
  intros Hne. pose proof (handle_editor_side s e) as H.
  destruct e; try (unfold editor_side in H; split; [|split]; congruence).
  - simpl. auto.
  - simpl. destruct (V1.searches s !! n) as [[? ?]|]; auto.
  - simpl. destruct (V1.opening s !! n) as [[? force]|]; [|auto].
    destruct (triggerLint_frame document force false
                (V1.set_opening (delete n (V1.opening s)) s)) as [H1 _].
    unfold editor_side in H1. simpl in H1. split; [|split]; congruence.
Qed.

(** *** Listeners *)

Lemma active_register k k' ls :
  active_listeners k (register_listener k' ls)
  = active_listeners k ls + (if decide (k' = k) then 1 else 0).
Proof.
  unfold active_listeners, register_listener.
  rewrite filter_app, length_app, filter_cons, filter_nil. simpl.
  destruct (decide (k' = k)) as [->|Hne].
  - rewrite decide_True by auto. reflexivity.
  - rewrite decide_False by (intros [? _]; congruence). reflexivity.
Qed.

Lemma active_dispose k h ls l :
  ls !! h = Some l → active l = true →
  active_listeners k (dispose_listener h ls) + (if decide (kind l = k) then 1 else 0)
  = active_listeners k ls.
Proof.
  unfold active_listeners, dispose_listener.
  revert h; induction ls as [|x ls IH]; intros [|h] Hl Ha; simpl in *; try discriminate.
  - injection Hl as ->. rewrite !filter_cons. simpl.
    destruct (decide (kind l = k ∧ false = true)) as [[_ Hf]|_]; [discriminate|].
    destruct (decide (kind l = k)) as [Hk|Hk];
      destruct (decide (kind l = k ∧ active l = true)) as [[Hk' _]|Hn];
      simpl; try lia; try contradiction.
    destruct Hn. auto.
  - rewrite !filter_cons. specialize (IH h Hl Ha).
    change (list_alter ?f h ls) with (alter f h ls).
    destruct (decide (kind x = k ∧ active x = true)); simpl; lia.
Qed.

Lemma loadConfiguration_one_save_listener s :
  V1.documentListener s = None ∧ active_listeners OnDidSaveTextDocument (V1.listeners s) = 0
  ∨ one_save_listener s →
  one_save_listener (V1.loadConfiguration s).
Proof.
  intros Hs. unfold V1.loadConfiguration.
  set (s1 := match V1.documentListener (V1.set_delayers ∅ s) with
             | Some h => V1.set_listeners
                           (dispose_listener h (V1.listeners (V1.set_delayers ∅ s)))
                           (V1.set_delayers ∅ s)
             | None => V1.set_delayers ∅ s
             end).
  assert (H1 : active_listeners OnDidSaveTextDocument (V1.listeners s1) = 0).
  { subst s1. simpl. destruct Hs as [[-> H0]|(h & -> & Hl & Hone)]; simpl; [exact H0|].
    pose proof (active_dispose OnDidSaveTextDocument h _ _ Hl eq_refl) as Hd.
    simpl in Hd. lia. }
  clearbody s1.
  set (s2 := if String.eqb (V1.runTrigger (V1.configuration s1)) V1.RunTrigger_onType
             then V1.subscribe OnDidChangeTextDocument s1 else s1).
  assert (H2 : active_listeners OnDidSaveTextDocument (V1.listeners s2) = 0).
  { subst s2. destruct (String.eqb _ _); [|exact H1]. simpl.
    rewrite active_register, decide_False by discriminate. lia. }
  clearbody s2.
  assert (H3 : one_save_listener (V1.subscribe OnDidSaveTextDocument s2)).
  { exists (length (V1.listeners s2)). simpl. split; [reflexivity|]. split.
    - unfold register_listener. rewrite lookup_app_r, Nat.sub_diag by lia. reflexivity.
    - rewrite active_register, decide_True by reflexivity. lia. }
  destruct (V1.lintEntireProject _); [|exact H3].
  destruct H3 as (h & Hh & Hl & Hone). exists h. auto.
Qed.

Lemma reachable_one_save_listener s : reachable normalize s → one_save_listener s.
Proof.
  revert s. apply reachable_ind.
  - intros l c folders. unfold V1.activate.
    match goal with |- context [V1.loadConfiguration ?s0] =>
      assert (H : one_save_listener (V1.loadConfiguration s0))
        by (apply loadConfiguration_one_save_listener; left; split; reflexivity) end.
    destruct (V1.lintEntireProject _); [|exact H].
    destruct H as (h & Hh & Hl & Hone). exists h. auto.
  - intros s e _ Hs.
    assert (Hother : (∀ c, e ≠ V1.DidChangeConfiguration c) →
                     one_save_listener (V1.handle normalize s e)).
    { intros Hne. destruct (handle_listeners s e Hne) as (Hl & Hd & _).
      destruct Hs as (h & Hh & Hlk & Hone). exists h. rewrite Hl, Hd. auto. }
    destruct e; try (apply Hother; discriminate).
    simpl. apply loadConfiguration_one_save_listener. right.
    destruct Hs as (h & Hh & Hlk & Hone). exists h. auto.
Qed.

End Editor.

(** X3. In every state the current provider reaches exactly one
    listener for saves is active, the one kept in [documentListener],
    however often the configuration was loaded; the save of a document
    therefore calls [triggerLint] once, unforced and for the saved
    content. *)
Theorem one_trigger_per_save {Diagnostic} (normalize : string → string)
    (s : V1.State (Diagnostic := Diagnostic)) (textDocument : TextDocument) :
  reachable normalize s →
  active_listeners OnDidSaveTextDocument (V1.listeners s) = 1
  ∧ (∃ h, V1.documentListener s = Some h
          ∧ V1.listeners s !! h = Some {| kind := OnDidSaveTextDocument; active := true |})
  ∧ V1.handle normalize s (V1.DidSaveTextDocument textDocument)
    = V1.triggerLint textDocument false false s.
Proof.
  intros Hr. destruct (reachable_one_save_listener normalize s Hr) as (h & Hh & Hl & Hone).
  split; [exact Hone|]. split; [eauto|]. simpl. rewrite Hone. reflexivity.
Qed.

Lemma one_trigger_per_save_witness :
  let s := V1.run id (Samples.activated "onType")
             [V1.DidChangeConfiguration (Samples.settings "onType");
              V1.DidChangeConfiguration (Samples.settings "onSave")] in
  V1.handle id s (V1.DidSaveTextDocument Samples.query)
  = V1.triggerLint Samples.query false false s.
Proof.
  intros s.
  assert (Hr : reachable id s).
  { exists Samples.sql_linter, (Samples.settings "onType"), Samples.folders,
      [V1.DidChangeConfiguration (Samples.settings "onType");
       V1.DidChangeConfiguration (Samples.settings "onSave")]. reflexivity. }
  destruct (one_trigger_per_save id s Samples.query Hr) as (_ & _ & H). exact H.
Defined.

(** ** Diagnostics of the current provider *)

(** X4. An event changes the diagnostics stored for a document only
    when it closes that document, or when it is the end of a run of
    that document whose result has at least one output line: triggers,
    timers, searches and changes of configuration never write or
    remove diagnostics, and no event touches those of another
    document. *)
Theorem diagnostics_change_on_close_and_output_only {Diagnostic}
    (normalize : string → string) (s : V1.State (Diagnostic := Diagnostic))
    (e : V1.Event) (key : string) :
  V1.diagnosticCollection (V1.handle normalize s e) !! key
  ≠ V1.diagnosticCollection s !! key →
  (∃ textDocument, e = V1.DidCloseTextDocument textDocument ∧ uri textDocument = key)
  ∨ (∃ n result ref document l ls,
       e = V1.RunFinished n result
       ∧ V1.running s !! n = Some (ref, document)
       ∧ uri document = key
       ∧ V1.lines result = Some (l :: ls)).
Proof.
  rewrite handle_diagnostics. intros Hne.
  destruct e; try (destruct Hne; reflexivity).
  - left. exists textDocument. split; [reflexivity|].
    destruct (decide (uri textDocument = key)) as [Heq|Hk]; [exact Heq|].
    destruct Hne. apply lookup_delete_ne. exact Hk.
  - right. destruct (V1.running s !! n) as [[ref document]|] eqn:Hn;
      [|destruct Hne; reflexivity].
    destruct (V1.lines result) as [[|l ls]|] eqn:Hl; try (destruct Hne; reflexivity).
    exists n, result, ref, document, l, ls. repeat split; auto.
    destruct (decide (uri document = key)) as [Heq|Hk]; [exact Heq|].
    destruct Hne. apply lookup_insert_ne. exact Hk.
Qed.

Lemma diagnostics_change_on_close_and_output_only_witness :
  ∃ textDocument,
    V1.DidCloseTextDocument Samples.query = V1.DidCloseTextDocument textDocument
    ∧ uri textDocument = "file:///w/query.sql".
Proof.
  destruct (diagnostics_change_on_close_and_output_only id Samples.diagnosed
              (V1.DidCloseTextDocument Samples.query) "file:///w/query.sql")
    as [H|(n & result & ref & document & l & ls & He & _)].
  - vm_compute. discriminate.
  - exact H.
  - discriminate He.
Defined.

(** X5. In every state the current provider reaches, each stored set
    of diagnostics is what the linter's [process] made of a run's
    output of at least one line: no entry is made up from an empty or
    missing output, and the provider never stores an empty set of its
    own. *)
Theorem stored_diagnostics_are_parsed_output {Diagnostic}
    (normalize : string → string) (s : V1.State (Diagnostic := Diagnostic))
    (key : string) (diagnostics : list Diagnostic) :
  reachable normalize s →
  V1.diagnosticCollection s !! key = Some diagnostics →
  ∃ l ls, diagnostics = process (V1.linter s) (l :: ls).
Proof.
  intros Hr. revert key diagnostics. change (parsed s).
  revert s Hr. apply reachable_ind.
  - intros l c folders key diagnostics.
    unfold V1.activate, V1.loadConfiguration, V1.lintProject, V1.subscribe. cbn.
    repeat (case_match; cbn); rewrite lookup_empty; discriminate.
  - intros s e _ Hs key diagnostics.
    rewrite handle_diagnostics, handle_linter.
    destruct e; try apply Hs.
    + intros Hl. apply lookup_delete_Some in Hl as [_ Hl]. eapply Hs; eauto.
    + destruct (V1.running s !! n) as [[ref document]|]; [|apply Hs].
      destruct (V1.lines result) as [[|l ls]|]; try apply Hs.
      rewrite lookup_insert. destruct (decide (uri document = key)); [|apply Hs].
      intros [= <-]. eauto.
Qed.

Lemma stored_diagnostics_are_parsed_output_witness :
  ∃ l ls, ["L003"] = process (V1.linter Samples.diagnosed) (l :: ls).
Proof.
  apply (stored_diagnostics_are_parsed_output id Samples.diagnosed "file:///w/query.sql").
  - exists Samples.sql_linter, (Samples.settings "onSave"), Samples.folders,
      (Samples.analysed ++ [V1.RunFinished 0 (Samples.violations "L003")]). reflexivity.
  - reflexivity.
Defined.

(** ** Calls of the runner *)

Section Logs.

Context {Diagnostic : Type} (normalize : string → string).

Implicit Types s : V1.State (Diagnostic := Diagnostic).

Lemma start_logs ref task s :
  match first_folder (V1.workspaceFolders s) with
  | Returned _ =>
      ∃ request,
        V1.invocations (V1.start normalize ref task s) = V1.invocations s ++ [request]
        ∧ V1.rejections (V1.start normalize ref task s) = V1.rejections s
  | Thrown error =>
      V1.invocations (V1.start normalize ref task s) = V1.invocations s
      ∧ V1.rejections (V1.start normalize ref task s) = V1.rejections s ++ [error]
  end.
Proof.
  unfold V1.start, V1.doLint.
  destruct (first_folder (V1.workspaceFolders s)); simpl; eauto.
Qed.

Local Ltac nothing_added :=
  repeat split; simpl; auto;
  try solve [intros [H|H]; destruct H; reflexivity
            | intros H; destruct H; reflexivity
            | intros _ ? ?; discriminate].

(** The two logs after one event: what is added to the calls of the
    runner and to the rejections. *)
Lemma handle_logs s e :
  ∃ calls errors,
    V1.invocations (V1.handle normalize s e) = V1.invocations s ++ calls
    ∧ V1.rejections (V1.handle normalize s e) = V1.rejections s ++ errors
    ∧ (length calls + length errors ≤ 1)%nat
    ∧ (calls ≠ [] ∨ errors ≠ [] →
       (∃ ref, e = V1.TimerElapsed ref) ∨ (∃ n result, e = V1.RunFinished n result))
    ∧ (errors ≠ [] → ∀ fsPath others, V1.workspaceFolders s ≠ Some (fsPath :: others)).
Proof.
  assert (Hnone : V1.invocations (V1.handle normalize s e) = V1.invocations s →
                  V1.rejections (V1.handle normalize s e) = V1.rejections s →
                  ∃ calls errors,
                    V1.invocations (V1.handle normalize s e) = V1.invocations s ++ calls
                    ∧ V1.rejections (V1.handle normalize s e) = V1.rejections s ++ errors
                    ∧ (length calls + length errors ≤ 1)%nat
                    ∧ (calls ≠ [] ∨ errors ≠ [] →
                       (∃ ref, e = V1.TimerElapsed ref)
                       ∨ (∃ n result, e = V1.RunFinished n result))
                    ∧ (errors ≠ [] →
                       ∀ fsPath others, V1.workspaceFolders s ≠ Some (fsPath :: others))).
  { intros -> ->. exists [], []. rewrite !app_nil_r. nothing_added. }
  assert (Hstart : ∀ ref task (u : V1.State (Diagnostic := Diagnostic)) (e' : V1.Event),
            V1.invocations u = V1.invocations s → V1.rejections u = V1.rejections s →
            V1.workspaceFolders u = V1.workspaceFolders s →
            ((∃ r, e' = V1.TimerElapsed r) ∨ (∃ n result, e' = V1.RunFinished n result)) →
            ∃ calls errors,
              V1.invocations (V1.start normalize ref task u) = V1.invocations s ++ calls
              ∧ V1.rejections (V1.start normalize ref task u) = V1.rejections s ++ errors
              ∧ (length calls + length errors ≤ 1)%nat
              ∧ (calls ≠ [] ∨ errors ≠ [] →
                 (∃ r, e' = V1.TimerElapsed r) ∨ (∃ n result, e' = V1.RunFinished n result))
              ∧ (errors ≠ [] →
                 ∀ fsPath others, V1.workspaceFolders s ≠ Some (fsPath :: others))).
  { intros ref task u e' Hi Hj Hw He'. pose proof (start_logs ref task u) as H.
    rewrite Hw in H. destruct (V1.workspaceFolders s) as [[|fsPath others]|]; simpl in H.
    - destruct H as [-> ->]. eexists [], [_]. rewrite Hi, Hj, app_nil_r. nothing_added.
    - destruct H as (request & -> & ->). exists [request], [].
      rewrite Hi, Hj, app_nil_r. nothing_added.
    - destruct H as [-> ->]. eexists [], [_]. rewrite Hi, Hj, app_nil_r. nothing_added. }
  destruct e.
  - apply Hnone; simpl.
    + destruct (loadConfiguration_frame (V1.set_configuration c s))
        as (_ & _ & _ & _ & H & _). exact H.
    + destruct (loadConfiguration_frame (V1.set_configuration c s))
        as (_ & _ & _ & _ & _ & H & _). exact H.
  - apply Hnone; reflexivity.
  - apply Hnone; simpl; apply triggerLint_frame.
  - apply Hnone; reflexivity.
  - apply Hnone; simpl; apply iter_triggerLint_frame.
  - apply Hnone; simpl; apply iter_triggerLint_frame.
  - apply Hnone; simpl; destruct (V1.searches s !! n) as [[? ?]|]; reflexivity.
  - apply Hnone; simpl; (destruct (V1.opening s !! n) as [[? force]|]; [|reflexivity]).
    + rewrite (proj1 (proj2 (proj2 (proj2 (triggerLint_frame _ _ _ _))))). reflexivity.
    + rewrite (proj1 (proj2 (proj2 (proj2 (proj2 (triggerLint_frame _ _ _ _)))))).
      reflexivity.
  - simpl. destruct (V1.objects s !! ref) as [d|];
      [|exists [], []; rewrite !app_nil_r; nothing_added].
    destruct ((delayer_elapse d).2) as [task|].
    + apply (Hstart ref task _ (V1.TimerElapsed ref)); try reflexivity. left. eauto.
    + exists [], []. rewrite !app_nil_r. nothing_added.
  - simpl. destruct (V1.running s !! n) as [[ref document]|];
      [|exists [], []; rewrite !app_nil_r; nothing_added].
    set (s1 := V1.set_running _ s).
    destruct (doLint_resume_frame document result s1) as (He & _ & _ & _ & Hi & Hj).
    unfold editor_side in He. simpl in He, Hi, Hj.
    assert (Hw : V1.workspaceFolders (V1.doLint_resume document result s1)
                 = V1.workspaceFolders s) by congruence.
    destruct (V1.objects _ !! ref) as [d|].
    + destruct ((delayer_settle d).2) as [task|].
      * apply (Hstart ref task _ (V1.RunFinished n result)); auto. right. eauto.
      * exists [], []. simpl. rewrite Hi, Hj, !app_nil_r. nothing_added.
    + exists [], []. rewrite Hi, Hj, !app_nil_r. nothing_added.
Qed.

End Logs.

(** X6. Only the elapsing of a delayer's timer and the end of a run
    call the runner, and each such event calls it at most once: the
    handlers of the editor's events (open, save, change, close,
    configuration, search results) never call [SQLFluff.run]
    themselves, and no call is ever taken back. *)
Theorem runner_called_by_delayers_only {Diagnostic} (normalize : string → string)
    (s : V1.State (Diagnostic := Diagnostic)) (e : V1.Event) :
  ∃ calls,
    V1.invocations (V1.handle normalize s e) = V1.invocations s ++ calls
    ∧ (length calls ≤ 1)%nat
    ∧ (calls ≠ [] →
       (∃ ref, e = V1.TimerElapsed ref) ∨ (∃ n result, e = V1.RunFinished n result)).
Proof.
  destruct (handle_logs normalize s e) as (calls & errors & Hi & _ & Hlen & Hwho & _).
  exists calls. split; [exact Hi|]. split; [lia|]. intros Hc. apply Hwho. left. exact Hc.
Qed.

(** X7. While the workspace has a folder no promise of [doLint] is
    rejected, whatever the event, the settings and the document: the
    exception at [workspaceFolders[0]] is the only one [doLint] throws
    by itself. *)
Theorem no_rejection_with_folder {Diagnostic} (normalize : string → string)
    (s : V1.State (Diagnostic := Diagnostic)) (e : V1.Event)
    (fsPath : string) (others : list string) :
  V1.workspaceFolders s = Some (fsPath :: others) →
  V1.rejections (V1.handle normalize s e) = V1.rejections s.
Proof.
  intros Hw.
  destruct (handle_logs normalize s e) as (calls & errors & _ & Hj & _ & _ & Hno).
  destruct errors as [|error errors]; [rewrite Hj; apply app_nil_r|].
  destruct (Hno ltac:(discriminate) fsPath others Hw).
Qed.

Lemma no_rejection_with_folder_witness :
  let s := V1.handle id (Samples.activated "onSave")
             (V1.DidOpenTextDocument Samples.query) in
  V1.rejections (V1.handle id s (V1.TimerElapsed 0)) = V1.rejections s.
Proof.
  intros s. apply (no_rejection_with_folder id s (V1.TimerElapsed 0) "/w" []).
  reflexivity.
Defined.

Lemma runner_called_by_delayers_only_witness :
  let s := V1.handle id (Samples.activated "onSave")
             (V1.DidOpenTextDocument Samples.query) in
  (length (V1.invocations (V1.handle id s (V1.TimerElapsed 0)))
   ≤ S (length (V1.invocations s)))%nat.
Proof.
  intros s.
  destruct (runner_called_by_delayers_only id s (V1.TimerElapsed 0))
    as (calls & -> & Hlen & _).
  rewrite length_app. lia.
Defined.

(** ** The delayer table *)

Section Table.

Context {Diagnostic : Type} (normalize : string → string).

Implicit Types s : V1.State (Diagnostic := Diagnostic).

(** A trigger either leaves the table and the delays as they are, or
    enters a new delayer for the document, with the delay of the
    settings. *)
Lemma triggerLint_table document forceLint currentDocument s :
  let s' := V1.triggerLint document forceLint currentDocument s in
  (V1.delayers s' = V1.delayers s
   ∧ defaultDelay <$> V1.objects s' = defaultDelay <$> V1.objects s)
  ∨ (V1.delayers s !! uri document = None
     ∧ V1.delayers s' = <[uri document := length (V1.objects s)]> (V1.delayers s)
     ∧ defaultDelay <$> V1.objects s'
       = (defaultDelay <$> V1.objects s) ++ [current_delay (V1.configuration s)]).
Proof.
  assert (Hview : ∀ task ref (l : list (ThrottledDelayer V1.Task)),
            defaultDelay <$> alter (delayer_trigger task) ref l = defaultDelay <$> l).
  { intros task ref l. rewrite (list_fmap_alter defaultDelay _ id);
      [apply list_alter_id; auto | apply Forall_forall; reflexivity]. }
  unfold V1.triggerLint. destruct (_ || _ || _); [left; auto|].
  destruct (V1.delayers s !! uri document) as [ref|] eqn:Hk; simpl.
  - left. rewrite Hview. auto.
  - right. rewrite Hview, fmap_app. repeat split.
    unfold current_delay. destruct (String.eqb _ _); reflexivity.
Qed.

Lemma tabled_triggerLint document forceLint currentDocument s :
  tabled s → tabled (V1.triggerLint document forceLint currentDocument s).
Proof.
  intros (Hinv & Hdel & Hinj).
  split; [apply invariant_triggerLint; exact Hinv|].
  destruct Hinv as [[Ht _] _].
  destruct (triggerLint_frame document forceLint currentDocument s) as (He & _).
  assert (Hc : V1.configuration (V1.triggerLint document forceLint currentDocument s)
               = V1.configuration s) by (unfold editor_side in He; congruence).
  destruct (triggerLint_table document forceLint currentDocument s)
    as [[Htab Hview]|(Hnone & Htab & Hview)]; split.
  - intros key ref k. rewrite Htab, Hview, Hc. intros Hk Hv. eapply Hdel; eauto.
  - intros key1 key2 ref. rewrite Htab. apply Hinj.
  - intros key ref k. rewrite Htab, Hview, Hc, lookup_insert.
    destruct (decide (uri document = key)) as [_|_].
    + intros [= <-]. rewrite lookup_app_r by (rewrite length_fmap; lia).
      rewrite length_fmap, Nat.sub_diag. intros [= <-]. reflexivity.
    + intros Hk. pose proof (Ht _ _ Hk) as Hlt.
      rewrite lookup_app_l by (rewrite length_fmap; exact Hlt).
      intros Hv. eapply Hdel; eauto.
  - intros key1 key2 ref. rewrite Htab, !lookup_insert.
    destruct (decide (uri document = key1)) as [<-|H1],
             (decide (uri document = key2)) as [<-|H2]; auto.
    + intros [= <-] Hk. apply Ht in Hk. lia.
    + intros Hk [= <-]. apply Ht in Hk. lia.
    + apply Hinj.
Qed.

(** An event that is not a trigger keeps or removes entries of the
    table and keeps the delays. *)
Lemma handle_table_kept s e :
  match e with
  | V1.DidOpenTextDocument _ | V1.DidSaveTextDocument _ | V1.DidChangeTextDocument _
  | V1.DocumentOpened _ _ => True
  | _ =>
      (∀ key ref, V1.delayers (V1.handle normalize s e) !! key = Some ref →
                  V1.delayers s !! key = Some ref
                  ∧ ∀ c, e ≠ V1.DidChangeConfiguration c)
      ∧ defaultDelay <$> V1.objects (V1.handle normalize s e)
        = defaultDelay <$> V1.objects s
  end.
Proof.
  assert (Hins : ∀ ref d d' (l : list (ThrottledDelayer V1.Task)),
            l !! ref = Some d → defaultDelay d' = defaultDelay d →
            defaultDelay <$> <[ref := d']> l = defaultDelay <$> l).
  { intros ref d d' l Hl Hd. rewrite list_fmap_insert, Hd.
    apply list_insert_id. rewrite list_lookup_fmap, Hl. reflexivity. }
  assert (Hel : ∀ d : ThrottledDelayer V1.Task,
            defaultDelay (delayer_elapse d).1 = defaultDelay d).
  { intros d. unfold delayer_elapse. destruct (pending d), (throttler d); reflexivity. }
  assert (Hse : ∀ d : ThrottledDelayer V1.Task,
            defaultDelay (delayer_settle d).1 = defaultDelay d).
  { intros d. unfold delayer_settle. destruct (throttler d) as [|[|]]; reflexivity. }
  destruct e; simpl; auto.
  - split.
    + intros key ref. rewrite loadConfiguration_delayers, lookup_empty. discriminate.
    + rewrite loadConfiguration_objects. reflexivity.
  - split; [|reflexivity]. intros key ref H.
    apply lookup_delete_Some in H as [_ H]. split; [exact H | discriminate].
  - destruct (V1.searches s !! n) as [[? ?]|]; simpl;
      (split; [|reflexivity]); intros key ref H; (split; [exact H | discriminate]).
  - destruct (V1.objects s !! ref) as [d|] eqn:Hd;
      [|split; [|reflexivity]; intros key r H; split; [exact H | discriminate]].
    destruct ((delayer_elapse d).2) as [task|].
    + match goal with |- context [V1.start normalize ref task ?u] =>
        destruct (start_frame normalize ref task u) as (_ & _ & Ht & _ & Hv) end.
      rewrite Ht, Hv. simpl. rewrite (Hins ref d) by auto.
      split; [|reflexivity]. intros key r H. split; [exact H | discriminate].
    + simpl. rewrite (Hins ref d) by auto.
      split; [|reflexivity]. intros key r H. split; [exact H | discriminate].
  - destruct (V1.running s !! n) as [[ref document]|];
      [|split; [|reflexivity]; intros key r H; split; [exact H | discriminate]].
    set (s1 := V1.set_running _ s).
    destruct (doLint_resume_frame document result s1) as (_ & Htab & Hobj & _).
    change (V1.delayers s1) with (V1.delayers s) in Htab.
    change (V1.objects s1) with (V1.objects s) in Hobj.
    rewrite Hobj. destruct (V1.objects s !! ref) as [d|] eqn:Hd.
    + destruct ((delayer_settle d).2) as [task|].
      * match goal with |- context [V1.start normalize ref task ?u] =>
          destruct (start_frame normalize ref task u) as (_ & _ & Ht & _ & Hv) end.
        rewrite Ht, Hv. simpl. rewrite Htab, (Hins ref d) by auto.
        split; [|reflexivity]. intros key r H. split; [exact H | discriminate].
      * simpl. rewrite Htab, (Hins ref d) by auto.
        split; [|reflexivity]. intros key r H. split; [exact H | discriminate].
    + rewrite Htab, Hobj.
      split; [|reflexivity]. intros key r H. split; [exact H | discriminate].
Qed.

Lemma reachable_tabled s : reachable normalize s → tabled s.
Proof.
  revert s. apply reachable_ind.
  - intros l c folders. split; [apply invariant_activate|].
    assert (Hempty : V1.delayers (V1.activate l c folders) = ∅).
    { unfold V1.activate, V1.lintProject.
      match goal with |- context [V1.loadConfiguration ?s0] =>
        pose proof (loadConfiguration_delayers s0) as H end.
      destruct (V1.lintEntireProject _); exact H. }
    split.
    + intros key ref k. rewrite Hempty, lookup_empty. discriminate.
    + intros key1 key2 ref. rewrite Hempty, lookup_empty. discriminate.
  - intros s e _ Hs.
    assert (Hkept : ∀ e',
              e = e' →
              ((∀ key ref, V1.delayers (V1.handle normalize s e') !! key = Some ref →
                           V1.delayers s !! key = Some ref
                           ∧ ∀ c, e' ≠ V1.DidChangeConfiguration c)
               ∧ defaultDelay <$> V1.objects (V1.handle normalize s e')
                 = defaultDelay <$> V1.objects s) →
              tabled (V1.handle normalize s e)).
    { intros e' <- [Htab Hview]. destruct Hs as (Hinv & Hdel & Hinj).
      split; [apply invariant_handle; exact Hinv|]. split.
      - intros key ref k Hk. destruct (Htab _ _ Hk) as [Hk' Hne].
        destruct (handle_listeners normalize s e Hne) as (_ & _ & ->).
        rewrite Hview. intros Hv. eapply Hdel; eauto.
      - intros key1 key2 ref H1 H2. apply Htab in H1 as [H1 _]. apply Htab in H2 as [H2 _].
        eapply Hinj; eauto. }
    pose proof (handle_table_kept s e) as H.
    destruct e; try (apply (Hkept _ eq_refl); exact H); simpl.
    + apply tabled_triggerLint, Hs.
    + apply iter_invariant; [intros; apply tabled_triggerLint; assumption | exact Hs].
    + apply iter_invariant; [intros; apply tabled_triggerLint; assumption | exact Hs].
    + destruct (V1.opening s !! n) as [[? force]|]; [|exact Hs].
      apply tabled_triggerLint. destruct Hs as ([[Ht Hr] Hth] & Hdel & Hinj).
      split; [split; [split|]; assumption|]. split; assumption.
Qed.

End Table.

(** X8. In every state the current provider reaches, each delayer of
    the table has the delay of the settings in force: the configured
    delay under [onType] and zero under every other trigger.  Reloading
    the configuration empties the table, so no delayer made under
    earlier settings is used for a later trigger. *)
Theorem table_delays_follow_settings {Diagnostic} (normalize : string → string)
    (s : V1.State (Diagnostic := Diagnostic)) (key : string) (ref : nat)
    (d : ThrottledDelayer V1.Task) :
  reachable normalize s →
  V1.delayers s !! key = Some ref →
  V1.objects s !! ref = Some d →
  defaultDelay d =
    if String.eqb (V1.runTrigger (V1.configuration s)) V1.RunTrigger_onType
    then V1.delay (V1.configuration s)
    else 0.
Proof.
  intros Hr Hk Hd. destruct (reachable_tabled normalize s Hr) as (_ & Hdel & _).
  apply (Hdel key ref); [exact Hk|]. rewrite list_lookup_fmap, Hd. reflexivity.
Qed.

Lemma table_delays_follow_settings_witness :
  let s := V1.run id (Samples.activated "onSave")
             [V1.DidChangeConfiguration (Samples.settings "onType");
              V1.DidChangeTextDocument Samples.query] in
  defaultDelay <$> V1.objects s !! 0 = Some 100.
Proof.
  intros s.
  assert (Hr : reachable id s).
  { exists Samples.sql_linter, (Samples.settings "onSave"), Samples.folders,
      [V1.DidChangeConfiguration (Samples.settings "onType");
       V1.DidChangeTextDocument Samples.query]. reflexivity. }
  destruct (V1.objects s !! 0) as [d|] eqn:Hd; [|vm_compute in Hd; discriminate].
  simpl. f_equal.
  apply (table_delays_follow_settings id s "file:///w/query.sql" 0 d Hr eq_refl Hd).
Defined.

(** X9. In every state the current provider reaches no two documents
    of the table share a delayer; a trigger for one document therefore
    leaves the table entry of every other document and the delayer
    behind it, with its pending task, exactly as they were. *)
Theorem documents_do_not_share_delayers {Diagnostic} (normalize : string → string)
    (s : V1.State (Diagnostic := Diagnostic)) :
  reachable normalize s →
  (∀ key1 key2 ref,
     V1.delayers s !! key1 = Some ref → V1.delayers s !! key2 = Some ref → key1 = key2)
  ∧ (∀ document forceLint currentDocument other ref,
       uri other ≠ uri document →
       V1.delayers s !! uri other = Some ref →
       let s' := V1.triggerLint document forceLint currentDocument s in
       V1.delayers s' !! uri other = Some ref
       ∧ V1.objects s' !! ref = V1.objects s !! ref).
Proof.
  intros Hr. destruct (reachable_tabled normalize s Hr) as ([[Ht _] _] & _ & Hinj).
  split; [exact Hinj|].
  intros document forceLint currentDocument other ref Hne Hk s'. subst s'.
  unfold V1.triggerLint. destruct (_ || _ || _); [auto|].
  destruct (V1.delayers s !! uri document) as [r|] eqn:Hd; simpl.
  - split; [exact Hk|]. apply list_lookup_alter_ne.
    intros ->. apply Hne. eapply Hinj; eauto.
  - pose proof (Ht _ _ Hk) as Hlt. split.
    + rewrite lookup_insert_ne by congruence. exact Hk.
    + rewrite list_lookup_alter_ne by lia. apply lookup_app_l. exact Hlt.
Qed.

Lemma documents_do_not_share_delayers_witness :
  let other := {| uri := "file:///w/other.sql"; languageId := "sql";
                  fileName := "/w/other.sql"; getText := "select 2" |} in
  let s := V1.run id (Samples.activated "onSave")
             [V1.DidOpenTextDocument Samples.query; V1.DidOpenTextDocument other] in
  V1.objects (V1.triggerLint Samples.query false true s) !! 1 = V1.objects s !! 1.
Proof.
  intros other s.
  assert (Hr : reachable id s).
  { exists Samples.sql_linter, (Samples.settings "onSave"), Samples.folders,
      [V1.DidOpenTextDocument Samples.query; V1.DidOpenTextDocument other]. reflexivity. }
  destruct (documents_do_not_share_delayers id s Hr) as [_ H].
  destruct (H Samples.query false true other 1) as [_ Ho];
    [discriminate | reflexivity | exact Ho].
Defined.

(** ** Triggers in a burst *)

(** X10. Two triggers for one document in a row leave what the second
    alone leaves: the document gets one delayer, created by the first
    where it has none, and the task pending in it is the one of the
    second trigger. *)
Theorem last_trigger_wins {Diagnostic} (s : V1.State (Diagnostic := Diagnostic))
    (document : TextDocument) (forceLint first second : bool) :
  V1.triggerLint document forceLint second (V1.triggerLint document forceLint first s)
  = V1.triggerLint document forceLint second s.
Proof.
  assert (Hlast : ∀ ref (l : list (ThrottledDelayer V1.Task)),
            alter (delayer_trigger {| V1.task_document := document;
                                      V1.task_currentDocument := second |}) ref
              (alter (delayer_trigger {| V1.task_document := document;
                                         V1.task_currentDocument := first |}) ref l)
            = alter (delayer_trigger {| V1.task_document := document;
                                        V1.task_currentDocument := second |}) ref l).
  { intros ref l. rewrite list_alter_alter_eq. apply list_alter_ext; reflexivity. }
  unfold V1.triggerLint at 2.
  destruct (negb _ || _ || _) eqn:Hg; [reflexivity|].
  destruct (V1.delayers s !! uri document) as [ref|] eqn:Hk.
  - unfold V1.triggerLint. cbn. rewrite Hg, Hk. cbn. rewrite Hlast. reflexivity.
  - unfold V1.triggerLint. cbn. rewrite Hg, Hk, lookup_insert_eq. cbn.
    rewrite Hlast. destruct s; reflexivity.
Qed.

(** ** Sweeps of the project *)

Section Sweeps.

Context {Diagnostic : Type} (normalize : string → string).

Implicit Types s : V1.State (Diagnostic := Diagnostic).

Lemma reachable_unforced s : reachable normalize s → unforced s.
Proof.
  revert s. apply reachable_ind.
  - intros l c folders.
    unfold V1.activate, V1.loadConfiguration, V1.lintProject, V1.subscribe. cbn.
    split; intros p; repeat (case_match; cbn); intros Hp;
      repeat (apply elem_of_cons in Hp as [->|Hp]; [reflexivity|]);
      inversion Hp.
  - intros s e _ [Hs Ho].
    assert (Hsame : V1.searches (V1.handle normalize s e) = V1.searches s →
                    V1.opening (V1.handle normalize s e) = V1.opening s →
                    unforced (V1.handle normalize s e)).
    { intros H1 H2. split; intros p; rewrite ?H1, ?H2; auto. }
    pose proof (handle_editor_side normalize s e) as H.
    destruct e as [c|folders|d|d|d|d|n files|n document|ref|n result];
      try (unfold editor_side in H; apply Hsame; congruence).
    + simpl. split; intros p.
      * unfold V1.loadConfiguration, V1.lintProject, V1.subscribe; destruct s; cbn in *.
        repeat (case_match; cbn); auto.
        all: intros Hp; apply elem_of_app in Hp as [Hp|Hp]; [auto|].
        all: apply list_elem_of_singleton in Hp as ->; reflexivity.
      * destruct (loadConfiguration_frame (V1.set_configuration c s))
          as (_ & _ & _ & _ & _ & _ & _ & ->). apply Ho.
    + apply Hsame; reflexivity.
    + simpl. destruct (V1.searches s !! n) as [[pattern force]|] eqn:Hn; [|split; auto].
      assert (Hf : force = false).
      { apply (Hs (pattern, force)). eapply list_elem_of_lookup_2; eauto. }
      subst force. split; intros p; simpl.
      * intros Hp. apply Hs. eapply list_elem_of_delete_inv; eauto.
      * intros Hp. apply elem_of_app in Hp as [Hp|Hp]; [auto|].
        apply list_elem_of_In, in_map_iff in Hp as (path & <- & _). reflexivity.
    + simpl. destruct (V1.opening s !! n) as [[path force]|] eqn:Hn; [|split; auto].
      destruct (triggerLint_frame document force false
                  (V1.set_opening (delete n (V1.opening s)) s)) as [He _].
      unfold editor_side in He. simpl in He.
      split; intros p.
      * replace (V1.searches (V1.triggerLint _ _ _ _)) with (V1.searches s) by congruence.
        auto.
      * replace (V1.opening (V1.triggerLint _ _ _ _)) with (delete n (V1.opening s))
          by congruence.
        intros Hp. apply Ho. eapply list_elem_of_delete_inv; eauto.
Qed.

End Sweeps.

(** X11. The sweeps of the project that [activate] and
    [loadConfiguration] start are never forced: in every state the
    provider reaches, each pending search and each pending opening of a
    file has [forceLint] false.  Under the trigger [off] the files such
    a sweep opens are therefore not linted: the opening of a file
    creates no delayer, leaves no task pending and calls no runner. *)
Theorem sweeps_respect_off {Diagnostic} (normalize : string → string)
    (s : V1.State (Diagnostic := Diagnostic)) :
  reachable normalize s →
  (∀ p, p ∈ V1.searches s ∨ p ∈ V1.opening s → p.2 = false)
  ∧ (V1.runTrigger (V1.configuration s) = V1.RunTrigger_off →
     ∀ n document,
       let s' := V1.handle normalize s (V1.DocumentOpened n document) in
       V1.delayers s' = V1.delayers s
       ∧ V1.objects s' = V1.objects s
       ∧ V1.invocations s' = V1.invocations s).
Proof.
  intros Hr. destruct (reachable_unforced normalize s Hr) as [Hs Ho].
  split; [intros p [Hp|Hp]; auto|].
  intros Hoff n document s'. subst s'. simpl.
  destruct (V1.opening s !! n) as [[path force]|] eqn:Hn; [|auto].
  assert (Hf : force = false).
  { apply (Ho (path, force)). eapply list_elem_of_lookup_2; eauto. }
  subst force. unfold V1.triggerLint. simpl. rewrite Hoff. simpl.
  rewrite orb_true_r. auto.
Qed.

Lemma sweeps_respect_off_witness :
  let c := {| V1.runTrigger := "off"; V1.delay := 100; V1.lintEntireProject := true;
              V1.lintFileArguments := []; V1.workingDirectory := λ rootPath, rootPath |} in
  let s := V1.run id (V1.activate Samples.sql_linter c Samples.folders)
             [V1.FilesFound 0 ["/w/query.sql"]] in
  V1.opening s = [("/w/query.sql", false)]
  ∧ V1.objects (V1.handle id s (V1.DocumentOpened 0 Samples.query)) = [].
Proof.
  intros c s.
  assert (Hr : reachable id s).
  { exists Samples.sql_linter, c, Samples.folders, [V1.FilesFound 0 ["/w/query.sql"]].
    reflexivity. }
  destruct (sweeps_respect_off id s Hr) as [_ H].
  destruct (H eq_refl 0 Samples.query) as (_ & Ho & _).
  split; [reflexivity | exact Ho].
Defined.

(** X12. [activate] leaves a provider with no diagnostics, an empty
    delayer table, the flag unset and no call of the runner.  With
    "lint entire project" set it has started the search of the
    workspace twice, once in [loadConfiguration] and once itself, so
    every project file is opened and triggered twice; without it, no
    search is started. *)
Theorem activate_starts_two_sweeps {Diagnostic} (l : Linter Diagnostic)
    (c : V1.Configuration) (folders : option (list string)) :
  let s := V1.activate l c folders in
  V1.searches s =
    (if V1.lintEntireProject c then [(filePattern, false); (filePattern, false)] else [])
  ∧ V1.opening s = []
  ∧ V1.delayers s = ∅
  ∧ V1.diagnosticCollection s = ∅
  ∧ V1.executableNotFound s = false
  ∧ V1.invocations s = []
  ∧ active_listeners OnDidChangeTextDocument (V1.listeners s) =
      (if String.eqb (V1.runTrigger c) V1.RunTrigger_onType then 1 else 0).
Proof.
  unfold V1.activate, V1.loadConfiguration, V1.lintProject, V1.subscribe. cbn.
  destruct (String.eqb (V1.runTrigger c) V1.RunTrigger_onType) eqn:Htrigger,
           (V1.lintEntireProject c) eqn:Hsweep;
    repeat (cbn; rewrite ?Htrigger, ?Hsweep); repeat split.
Qed.

(** ** The spawning provider *)

Section Spawning.

Context {Diagnostic : Type}.

Implicit Types t : V2.State (Diagnostic := Diagnostic).

Lemma triggerLint_spawn_side document t :
  spawn_side (result_state (V2.triggerLint document t)) = spawn_side t
  ∧ V2.uncaught (result_state (V2.triggerLint document t)) = V2.uncaught t
  ∧ (is_Some (V2.linterConfiguration t) →
     V2.triggerLint document t = V2.Done (result_state (V2.triggerLint document t)))
  ∧ (idle t → idle (result_state (V2.triggerLint document t))).
Proof.
  unfold V2.triggerLint. destruct (_ || _); [simpl; auto|].
  destruct (V2.linterConfiguration t) as [lc|] eqn:Hlc;
    [|simpl; repeat split; auto; intros [? ?]; discriminate].
  destruct (bool_decide _); [simpl; auto|].
  destruct (V2.delayers t !! uri document) as [ref|]; simpl.
  - repeat split; auto. unfold idle; simpl. intros Hi r d. rewrite list_lookup_alter.
    destruct (decide (ref = r)) as [<-|_]; [|apply Hi].
    destruct (V2.objects t !! ref) as [d0|] eqn:Hd; [|discriminate].
    simpl. intros [= <-]. simpl. eapply Hi; eauto.
  - repeat split; auto. unfold idle; simpl. intros Hi r d. rewrite list_lookup_alter.
    destruct (decide (length (V2.objects t) = r)) as [<-|_].
    + rewrite lookup_app_r, Nat.sub_diag by lia. simpl. intros [= <-]. reflexivity.
    + intros Hd. apply lookup_app_Some in Hd as [Hd|[_ Hd]]; [eapply Hi; eauto|].
      apply list_lookup_singleton_Some in Hd as [_ <-]. reflexivity.
Qed.

Lemma absorb_triggerLint document t :
  spawn_side (V2.absorb (V2.triggerLint document t)) = spawn_side t
  ∧ (is_Some (V2.linterConfiguration t) →
     V2.uncaught (V2.absorb (V2.triggerLint document t)) = V2.uncaught t)
  ∧ (idle t → idle (V2.absorb (V2.triggerLint document t))).
Proof.
  destruct (triggerLint_spawn_side document t) as (Hs & Hu & Hd & Hi).
  destruct (V2.triggerLint document t) as [t'|e t'] eqn:Ht; simpl in *.
  - auto.
  - split; [exact Hs|]. split; [|exact Hi]. intros Hc. specialize (Hd Hc). discriminate.
Qed.

Lemma iter_absorb_triggerLint n document t :
  let t' := Nat.iter n (λ t, V2.absorb (V2.triggerLint document t)) t in
  spawn_side t' = spawn_side t
  ∧ (is_Some (V2.linterConfiguration t) → V2.uncaught t' = V2.uncaught t)
  ∧ (idle t → idle t').
Proof.
  induction n as [|n IH]; simpl; [auto|].
  destruct IH as (Hs & Hu & Hi).
  destruct (absorb_triggerLint document
              (Nat.iter n (λ t, V2.absorb (V2.triggerLint document t)) t))
    as (Hs' & Hu' & Hi').
  split; [congruence|]. split; [|auto].
  intros Hc. rewrite Hu' by (unfold spawn_side in Hs; congruence). auto.
Qed.

Lemma forEach_triggerLint_done documents t :
  spawn_side (result_state (V2.forEach V2.triggerLint documents t)) = spawn_side t
  ∧ V2.uncaught (result_state (V2.forEach V2.triggerLint documents t)) = V2.uncaught t
  ∧ (is_Some (V2.linterConfiguration t) →
     V2.forEach V2.triggerLint documents t
     = V2.Done (result_state (V2.forEach V2.triggerLint documents t)))
  ∧ (idle t → idle (result_state (V2.forEach V2.triggerLint documents t))).
Proof.
  revert t; induction documents as [|d documents IH]; intros t; simpl; [auto|].
  destruct (triggerLint_spawn_side d t) as (Hs & Hu & Hd & Hi).
  destruct (V2.triggerLint d t) as [t'|e t'] eqn:Ht; simpl in *.
  - destruct (IH t') as (Hs' & Hu' & Hd' & Hi').
    split; [congruence|]. split; [congruence|]. split; [|auto].
    intros Hc. apply Hd'. unfold spawn_side in Hs. congruence.
  - split; [exact Hs|]. split; [exact Hu|]. split; [|exact Hi].
    intros Hc. specialize (Hd Hc). discriminate.
Qed.

Lemma start_spawn ref document spawned t :
  V2.messages (V2.start ref document spawned t) = V2.messages t
  ∧ V2.executableNotFound (V2.start ref document spawned t) = V2.executableNotFound t
  ∧ V2.linterConfiguration (V2.start ref document spawned t) = V2.linterConfiguration t
  ∧ V2.uncaught (V2.start ref document spawned t) = V2.uncaught t
  ∧ V2.objects (V2.start ref document spawned t)
    = alter (λ d, (delayer_settle d).1) ref (V2.objects t).
Proof.
  unfold V2.start, V2.doLint.
  destruct (first_folder _); [|simpl; repeat split].
  destruct (V2.linterConfiguration t) eqn:Hlc; simpl; repeat split; exact Hlc.
Qed.

End Spawning.

(** X13. The spawning provider hands the document to the tool by one
    channel at most.  Under [onSave] the file name is appended to the
    file arguments and nothing is written to [stdin]; under [onType]
    the buffer arguments are used without the file name and the text
    of the document is written to [stdin], provided the spawn gave a
    process; under any other trigger the buffer arguments are used and
    nothing is written.  The extra arguments always come last, and the
    call adds one child and changes nothing else. *)
Theorem spawn_delivery {Diagnostic} (t : V2.State (Diagnostic := Diagnostic))
    (textDocument : TextDocument) (spawned : option nat)
    (rootPath : string) (others : list string) (lc : V2.LinterConfiguration) :
  V2.workspaceFolders t = Some (rootPath :: others) →
  V2.linterConfiguration t = Some lc →
  ∃ child,
    V2.doLint textDocument spawned t = V2.Done (V2.set_children (V2.children t ++ [child]) t)
    ∧ V2.child_document child = textDocument
    ∧ V2.child_executable child = V2.executable lc
    ∧ V2.pid child = spawned
    ∧ match V2.RunTrigger_from (V2.runTrigger lc) with
      | V2.onSave =>
          V2.child_args child = V2.fileArgs lc ++ [fileName textDocument] ++ V2.extraArgs lc
          ∧ V2.stdin child = None
      | V2.onType =>
          V2.child_args child = V2.bufferArgs lc ++ V2.extraArgs lc
          ∧ V2.stdin child = (λ _, getText textDocument) <$> spawned
      | V2.off =>
          V2.child_args child = V2.bufferArgs lc ++ V2.extraArgs lc
          ∧ V2.stdin child = None
      end.
Proof.
  intros Hw Hlc. unfold V2.doLint. rewrite Hw, Hlc. simpl.
  eexists. split; [reflexivity|]. simpl. repeat split.
  destruct (V2.RunTrigger_from (V2.runTrigger lc)); simpl.
  - rewrite <- app_assoc. destruct spawned; auto.
  - destruct spawned; auto.
  - destruct spawned; auto.
Qed.

Lemma spawn_delivery_witness :
  ∃ child,
    V2.doLint Samples.query (Some 7) (Samples.spawning "onType")
    = V2.Done (V2.set_children [child] (Samples.spawning "onType"))
    ∧ V2.child_args child = ["lint"; "-"]
    ∧ V2.stdin child = Some "select 1".
Proof.
  destruct (spawn_delivery (Samples.spawning "onType") Samples.query (Some 7) "/w" []
              (Samples.spawn_settings "onType") eq_refl eq_refl)
    as (child & Hdone & _ & _ & _ & Hargs & Hin).
  exists child. split; [exact Hdone|]. split; [exact Hargs | exact Hin].
Defined.

(** X14. When the linter has no configuration, [activate] of the
    spawning provider throws a [TypeError] at
    [this.linterConfiguration.runTrigger], before it registers a
    listener for saves or changes: [documentListener] stays unset, and
    there is no delayer, no diagnostics and no child process, whatever
    the folders and the open documents. *)
Theorem activate_without_configuration_throws {Diagnostic} (l : Linter Diagnostic)
    (folders : option (list string)) (documents : list TextDocument) :
  ∃ t,
    V2.activate l None folders documents
    = V2.Raised "TypeError: Cannot read properties of undefined (reading 'runTrigger')" t
    ∧ V2.linterConfiguration t = None
    ∧ V2.documentListener t = None
    ∧ V2.listeners t = []
    ∧ V2.delayers t = ∅
    ∧ V2.diagnosticCollection t = ∅
    ∧ V2.objects t = []
    ∧ V2.children t = [].
Proof. eexists. split; [reflexivity|]. repeat split. Qed.

Section Configured.

Context {Diagnostic : Type}.

Implicit Types t : V2.State (Diagnostic := Diagnostic).

Lemma loadConfiguration_done config t :
  V2.messages (result_state (V2.loadConfiguration config t)) = V2.messages t
  ∧ (idle t → idle (result_state (V2.loadConfiguration config t)))
  ∧ (is_Some config ∨ is_Some (V2.linterConfiguration t) →
     V2.loadConfiguration config t
     = V2.Done (result_state (V2.loadConfiguration config t))
     ∧ V2.uncaught (result_state (V2.loadConfiguration config t)) = V2.uncaught t
     ∧ is_Some (V2.linterConfiguration (result_state (V2.loadConfiguration config t)))).
Proof.
  unfold V2.loadConfiguration.
  destruct config as [c|], (V2.linterConfiguration t) as [old|] eqn:Hold; cbn;
    rewrite ?Hold; cbn.
  4: { destruct (V2.executableNotFound t), (V2.documentListener t); cbn;
         (split; [reflexivity|]); (split; [auto|]);
         intros [[? ?]|[? ?]]; discriminate. }
  all: match goal with |- context [V2.forEach V2.triggerLint ?ds ?u] =>
         destruct (forEach_triggerLint_done ds u) as (Hs & Hu & Hd & Hi);
         assert (Hm : V2.messages u = V2.messages t
                      ∧ V2.uncaught u = V2.uncaught t
                      ∧ V2.objects u = V2.objects t
                      ∧ is_Some (V2.linterConfiguration u))
           by (cbn; repeat (case_match; cbn); rewrite ?Hold; cbn; eauto 10)
       end.
  all: destruct Hm as (Hm1 & Hm2 & Hm3 & Hm4).
  all: split; [unfold spawn_side in Hs; congruence|].
  all: split; [intros Hidle; apply Hi; intros r d; rewrite Hm3; apply Hidle|].
  all: intros _; split; [exact (Hd Hm4)|]; split; [congruence|].
  all: unfold spawn_side in Hs;
       replace (V2.linterConfiguration (result_state _))
         with (V2.linterConfiguration
                 ltac:(match type of Hm4 with is_Some (V2.linterConfiguration ?u) =>
                         exact u end)) by congruence; exact Hm4.
Qed.

Lemma handle_configured t e :
  is_Some (V2.linterConfiguration t) →
  V2.uncaught (V2.handle t e) = V2.uncaught t
  ∧ is_Some (V2.linterConfiguration (V2.handle t e)).
Proof.
  intros Hc. destruct e; simpl.
  - destruct (loadConfiguration_done config t) as (_ & _ & H).
    destruct (H (or_intror Hc)) as (-> & Hu & Hc'). simpl. auto.
  - auto.
  - match goal with |- context [V2.triggerLint textDocument ?u] =>
      destruct (absorb_triggerLint textDocument u) as (Hs & Hu & _) end.
    unfold spawn_side in Hs. simpl in Hs, Hu. split; [apply Hu; exact Hc|].
    replace (V2.linterConfiguration (V2.absorb _)) with (V2.linterConfiguration t)
      by congruence. exact Hc.
  - auto.
  - destruct (iter_absorb_triggerLint
                (active_listeners OnDidSaveTextDocument (V2.listeners t)) textDocument t)
      as (Hs & Hu & _).
    unfold spawn_side in Hs. split; [apply Hu; exact Hc|].
    replace (V2.linterConfiguration (Nat.iter _ _ t)) with (V2.linterConfiguration t)
      by congruence. exact Hc.
  - destruct (iter_absorb_triggerLint
                (active_listeners OnDidChangeTextDocument (V2.listeners t)) textDocument t)
      as (Hs & Hu & _).
    unfold spawn_side in Hs. split; [apply Hu; exact Hc|].
    replace (V2.linterConfiguration (Nat.iter _ _ t)) with (V2.linterConfiguration t)
      by congruence. exact Hc.
  - destruct (V2.objects t !! ref) as [d|]; [|auto].
    destruct ((delayer_elapse d).2) as [document|]; [|auto].
    match goal with |- context [V2.start ref document spawned ?u] =>
      destruct (start_spawn ref document spawned u) as (_ & _ & -> & -> & _) end.
    auto.
  - destruct (V2.children t !! n) as [child|]; [|auto].
    unfold V2.onError. destruct (V2.executableNotFound t); auto.
  - destruct (V2.children t !! n) as [child|]; [|auto]. destruct (_ && _); auto.
  - destruct (V2.children t !! n) as [child|]; [|auto]. destruct (_ && _); auto.
Qed.

End Configured.

(** X15. Once the spawning provider holds a configuration it never
    loses it, and from then on no handler throws: every event, a
    change of configuration that brings none included, is handled
    without an exception reaching the editor. *)
Theorem no_exception_once_configured {Diagnostic}
    (t : V2.State (Diagnostic := Diagnostic)) (events : list V2.Event) :
  is_Some (V2.linterConfiguration t) →
  V2.uncaught (V2.run t events) = V2.uncaught t
  ∧ is_Some (V2.linterConfiguration (V2.run t events)).
Proof.
  unfold V2.run. revert t; induction events as [|e events IH]; intros t Hc; simpl; [auto|].
  destruct (handle_configured t e Hc) as [Hu Hc'].
  destruct (IH _ Hc') as [Hu' Hc'']. split; [congruence | exact Hc''].
Qed.

Lemma no_exception_once_configured_witness :
  V2.uncaught
    (V2.run (Samples.spawning "onSave")
       [V2.DidChangeConfiguration None; V2.DidSaveTextDocument Samples.query;
        V2.TimerElapsed 1 None; V2.ChildError 0 "ENOENT" ""])
  = [].
Proof.
  apply (no_exception_once_configured (Samples.spawning "onSave")
           [V2.DidChangeConfiguration None; V2.DidSaveTextDocument Samples.query;
            V2.TimerElapsed 1 None; V2.ChildError 0 "ENOENT" ""]).
  eexists. reflexivity.
Defined.

Section Notices.

Context {Diagnostic : Type}.

Implicit Types t : V2.State (Diagnostic := Diagnostic).

(** An event other than a change of configuration shows no message,
    or it is the first spawn error seen with the flag unset: it shows
    one message and sets the flag. *)
Lemma handle_notice t e :
  (∀ config, e ≠ V2.DidChangeConfiguration config) →
  (V2.messages (V2.handle t e) = V2.messages t
   ∧ V2.executableNotFound (V2.handle t e) = V2.executableNotFound t)
  ∨ (V2.executableNotFound t = false
     ∧ V2.executableNotFound (V2.handle t e) = true
     ∧ ∃ message, V2.messages (V2.handle t e) = V2.messages t ++ [message]).
Proof.
  intros Hne.
  destruct e as [config|folders|d|d|d|d|ref spawned|n code message|n data|n]; simpl.
  - destruct (Hne config eq_refl).
  - left. auto.
  - left. match goal with |- context [V2.triggerLint d ?u] =>
      destruct (absorb_triggerLint d u) as (Hs & _) end.
    unfold spawn_side in Hs. simpl in Hs. split; congruence.
  - left. auto.
  - left. destruct (iter_absorb_triggerLint
                      (active_listeners OnDidSaveTextDocument (V2.listeners t)) d t)
      as (Hs & _).
    unfold spawn_side in Hs. split; congruence.
  - left. destruct (iter_absorb_triggerLint
                      (active_listeners OnDidChangeTextDocument (V2.listeners t)) d t)
      as (Hs & _).
    unfold spawn_side in Hs. split; congruence.
  - left. destruct (V2.objects t !! ref) as [dl|]; [|auto].
    destruct ((delayer_elapse dl).2) as [document|]; [|auto].
    match goal with |- context [V2.start ref document spawned ?u] =>
      destruct (start_spawn ref document spawned u) as (-> & -> & _) end.
    auto.
  - destruct (V2.children t !! n) as [child|]; [|left; auto].
    unfold V2.onError. destruct (V2.executableNotFound t) eqn:Hf; [left; auto|].
    right. simpl. eauto.
  - left. destruct (V2.children t !! n) as [child|]; [|auto]. destruct (_ && _); auto.
  - left. destruct (V2.children t !! n) as [child|]; [|auto]. destruct (_ && _); auto.
Qed.

Lemma idle_handle t e : idle t → idle (V2.handle t e).
Proof.
  intros Hi.
  destruct e as [config|folders|d|d|d|d|ref spawned|n code message|n data|n]; simpl.
  - destruct (loadConfiguration_done config t) as (_ & H & _). specialize (H Hi).
    destruct (V2.loadConfiguration config t); exact H.
  - exact Hi.
  - match goal with |- context [V2.triggerLint d ?u] =>
      destruct (absorb_triggerLint d u) as (_ & _ & H) end.
    apply H. exact Hi.
  - exact Hi.
  - apply iter_absorb_triggerLint. exact Hi.
  - apply iter_absorb_triggerLint. exact Hi.
  - destruct (V2.objects t !! ref) as [dl|] eqn:Hd; [|exact Hi].
    assert (Hidle : throttler dl = Idle) by (eapply Hi; eauto).
    assert (Hset : ∀ d', throttler <$> <[ref := d']> (V2.objects t) !! ref
                         = Some (throttler d')).
    { intros d'. rewrite list_lookup_insert_eq by (eapply lookup_lt_Some; eauto).
      reflexivity. }
    unfold delayer_elapse. rewrite Hidle.
    destruct (pending dl) as [document|]; simpl.
    + intros r d'.
      match goal with |- context [V2.start ref document spawned ?u] =>
        destruct (start_spawn ref document spawned u) as (_ & _ & _ & _ & ->) end.
      simpl. rewrite list_lookup_alter.
      destruct (decide (ref = r)) as [<-|Hne].
      * rewrite list_lookup_insert_eq by (eapply lookup_lt_Some; eauto).
        simpl. intros [= <-]. reflexivity.
      * rewrite list_lookup_insert_ne by exact Hne. apply Hi.
    + intros r d'. simpl. rewrite list_insert_id by exact Hd. apply Hi.
  - destruct (V2.children t !! n) as [child|]; [|exact Hi].
    unfold V2.onError. destruct (V2.executableNotFound t); exact Hi.
  - destruct (V2.children t !! n) as [child|]; [|exact Hi]. destruct (_ && _); exact Hi.
  - destruct (V2.children t !! n) as [child|]; [|exact Hi]. destruct (_ && _); exact Hi.
Qed.

End Notices.

(** X16. Between two changes of configuration the spawning provider
    shows at most one message: over any events that hold no change of
    configuration the messages grow by one at most, and by none when
    the executable-missing flag is set at the start. *)
Theorem one_notice_between_configurations {Diagnostic}
    (t : V2.State (Diagnostic := Diagnostic)) (events : list V2.Event) :
  (∀ e config, e ∈ events → e ≠ V2.DidChangeConfiguration config) →
  ∃ shown,
    V2.messages (V2.run t events) = V2.messages t ++ shown
    ∧ (length shown ≤ 1)%nat
    ∧ (V2.executableNotFound t = true → shown = []).
Proof.
  unfold V2.run. revert t; induction events as [|e events IH]; intros t Hev; simpl.
  - exists []. rewrite app_nil_r. auto.
  - assert (Hne : ∀ config, e ≠ V2.DidChangeConfiguration config)
      by (intros config; apply Hev; left).
    destruct (IH (V2.handle t e)) as (shown & Hm & Hlen & Hset).
    { intros e' config Hin. apply Hev. right. exact Hin. }
    destruct (handle_notice t e Hne) as [[Hsame Hflag]|(Hunset & Hnow & m & Hadd)].
    + exists shown. rewrite Hm, Hsame. split; [reflexivity|]. split; [exact Hlen|].
      intros Hf. apply Hset. congruence.
    + exists [m]. rewrite Hm, (Hset Hnow), Hadd, app_nil_r.
      split; [reflexivity|]. split; [simpl; lia|]. congruence.
Qed.

Lemma one_notice_between_configurations_witness :
  ∃ shown,
    V2.messages
      (V2.run Samples.spawn_failed
         [V2.ChildError 0 "EACCES" "spawn sqlfluff EACCES";
          V2.ChildError 0 "ENOENT" "spawn sqlfluff ENOENT";
          V2.DidSaveTextDocument Samples.query])
    = shown
    ∧ (length shown ≤ 1)%nat.
Proof.
  destruct (one_notice_between_configurations Samples.spawn_failed
              [V2.ChildError 0 "EACCES" "spawn sqlfluff EACCES";
               V2.ChildError 0 "ENOENT" "spawn sqlfluff ENOENT";
               V2.DidSaveTextDocument Samples.query]) as (shown & Hm & Hlen & _).
  - intros e config Hin.
    repeat (apply elem_of_cons in Hin as [->|Hin]; [discriminate|]). inversion Hin.
  - exists shown. split; [exact Hm | exact Hlen].
Defined.

(** X17. With the delayer as the spec describes it, no throttler of
    the spawning provider is ever busy between two events: [doLint]
    resolves its promise as soon as the child is spawned (or fails to
    be), before any output arrives.  The elapsing of a timer therefore
    always spawns the pending task at once, whether or not earlier
    children of the same document still run. *)
Theorem spawning_provider_never_waits {Diagnostic}
    (t : V2.State (Diagnostic := Diagnostic)) :
  idle t →
  (∀ e, idle (V2.handle t e))
  ∧ (∀ ref d textDocument spawned rootPath others lc,
       V2.objects t !! ref = Some d → pending d = Some textDocument →
       V2.workspaceFolders t = Some (rootPath :: others) →
       V2.linterConfiguration t = Some lc →
       ∃ child,
         V2.children (V2.handle t (V2.TimerElapsed ref spawned)) = V2.children t ++ [child]
         ∧ V2.child_document child = textDocument
         ∧ V2.pid child = spawned).
Proof.
  intros Hi. split; [intros e; apply idle_handle; exact Hi|].
  intros ref d textDocument spawned rootPath others lc Hd Hp Hw Hlc.
  simpl. rewrite Hd. unfold delayer_elapse. rewrite Hp, (Hi ref d Hd). simpl.
  unfold V2.start, V2.doLint. simpl. rewrite Hw, Hlc. simpl.
  eexists. split; [reflexivity|]. split; reflexivity.
Qed.

Lemma spawning_provider_never_waits_witness :
  let t := V2.run (Samples.spawning "onSave")
             [V2.TimerElapsed 0 (Some 7); V2.DidSaveTextDocument Samples.query] in
  ∃ child,
    V2.children (V2.handle t (V2.TimerElapsed 0 (Some 8))) = V2.children t ++ [child]
    ∧ V2.child_document child = Samples.query
    ∧ V2.pid child = Some 8.
Proof.
  intros t.
  assert (Hi : idle t).
  { intros ref d Hd. destruct ref as [|[|ref]]; vm_compute in Hd;
      [injection Hd as <-; reflexivity | discriminate | discriminate]. }
  destruct (spawning_provider_never_waits t Hi) as [_ H].
  destruct (V2.objects t !! 0) as [d|] eqn:Hd; [|vm_compute in Hd; discriminate].
  apply (H 0 d Samples.query (Some 8) "/w" [] (Samples.spawn_settings "onSave") Hd).
  - vm_compute in Hd. injection Hd as <-. reflexivity.
  - reflexivity.
  - reflexivity.
Defined.
